(** * Monadoring: health, failover and alerting state machines

    A shallow embedding of the monitoring core of the repository
    (src/lib/api.ts, src/lib/alerts.ts, src/lib/config.ts,
    src/app/api/alert/route.ts, the
    server instrumentation and the dashboard component) together with the
    properties stated about it.

    Conventions of the embedding.
    - A JavaScript number is [NaN] or an exact integer [Num z].  The values
      that flow through the modelled code are block heights, rounds,
      counters and millisecond clocks, all integers; rounding above 2^53
      and the sign of zero are outside the model ([-0 === 0] and both are
      falsy, so no modelled comparison tells them apart).
    - A JavaScript [Map] keyed by strings is a [gmap string _].
    - Module-level mutable state is threaded explicitly; calls into the
      notification helpers are recorded, in program order, in a trace.
    - What the network answers (an endpoint, the uptime service) and the
      clock are inputs of the modelled procedures.  An asynchronous
      procedure runs to completion before the next one starts: two runs
      of the same timer callback never overlap. *)

From Stdlib Require Import ZArith Bool List Ascii String DecimalString Lia.
From Stdlib Require HexString.
From stdpp Require Import base option list strings gmap fin_maps.

Local Open Scope string_scope.
Local Open Scope list_scope.
Local Open Scope Z_scope.

(** ** JavaScript values used by the code *)

Module Js.

(** A number: the result of [parseInt], a JSON number, a counter. *)
Inductive num : Type :=
| NaN : num
| Num : Z -> num.

(** [a === b] on numbers: [NaN] is equal to nothing, itself included. *)
Definition strict_eq (a b : num) : bool :=
  match a, b with
  | Num x, Num y => x =? y
  | _, _ => false
  end.

(** [a > b] on numbers: any comparison with [NaN] is false. *)
Definition gt (a b : num) : bool :=
  match a, b with
  | Num x, Num y => y <? x
  | _, _ => false
  end.

(** [a >= b] on numbers. *)
Definition ge (a b : num) : bool :=
  match a, b with
  | Num x, Num y => y <=? x
  | _, _ => false
  end.

(** Truthiness of a number: [0] and [NaN] are falsy. *)
Definition truthy_num (a : num) : bool :=
  match a with
  | NaN => false
  | Num z => negb (z =? 0)
  end.

(** [a || b] on numbers. *)
Definition or_num (a b : num) : num :=
  if truthy_num a then a else b.

(** Truthiness of a string: only the empty string is falsy. *)
Definition truthy_str (s : string) : bool :=
  match s with
  | EmptyString => false
  | String _ _ => true
  end.

(** The value read from a property of a parsed JSON document.  An array
    or object is kept only through the string [ToString] gives for it,
    which is all [parseInt] looks at. *)
Inductive value : Type :=
| VUndefined : value
| VNull : value
| VBool : bool -> value
| VNum : Z -> value
| VStr : string -> value
| VObj : string -> value.

Definition truthy (v : value) : bool :=
  match v with
  | VUndefined | VNull => false
  | VBool b => b
  | VNum z => negb (z =? 0)
  | VStr s => truthy_str s
  | VObj _ => true
  end.

Definition Z_to_string (z : Z) : string :=
  NilEmpty.string_of_int (Z.to_int z).

(** [ToString], applied by [parseInt] to its first argument (a number
    prints in decimal; the exponent form of huge numbers is outside the
    model). *)
Definition to_string (v : value) : string :=
  match v with
  | VUndefined => "undefined"
  | VNull => "null"
  | VBool true => "true"
  | VBool false => "false"
  | VNum z => Z_to_string z
  | VStr s => s
  | VObj s => s
  end.

(** White space skipped by [parseInt] (the ASCII part of it). *)
Definition is_space (c : ascii) : bool :=
  let n := nat_of_ascii c in
  (Nat.eqb n 32 || (Nat.leb 9 n && Nat.leb n 13))%bool.

Fixpoint trim_start (s : string) : string :=
  match s with
  | String c s' => if is_space c then trim_start s' else s
  | EmptyString => EmptyString
  end.

(** Value of a character as a digit in some radix up to 36. *)
Definition digit_value (c : ascii) : option Z :=
  let n := Z.of_nat (nat_of_ascii c) in
  if ((48 <=? n) && (n <=? 57))%bool then Some (n - 48)
  else if ((97 <=? n) && (n <=? 122))%bool then Some (n - 87)
  else if ((65 <=? n) && (n <=? 90))%bool then Some (n - 55)
  else None.

Definition radix_digit (radix : Z) (c : ascii) : option Z :=
  match digit_value c with
  | Some d => if d <? radix then Some d else None
  | None => None
  end.

(** The longest prefix of radix digits, as a number; [None] when that
    prefix is empty. *)
Fixpoint parse_digits (radix : Z) (s : string) (acc : option Z) : option Z :=
  match s with
  | String c s' =>
      match radix_digit radix c with
      | Some d =>
          parse_digits radix s'
            (Some (match acc with Some a => a * radix + d | None => d end))
      | None => acc
      end
  | EmptyString => acc
  end.

Definition strip_sign (s : string) : Z * string :=
  match s with
  | String "-"%char s' => (-1, s')
  | String "+"%char s' => (1, s')
  | _ => (1, s)
  end.

Definition strip_hex_prefix (s : string) : string :=
  match s with
  | String "0"%char (String "x"%char s') => s'
  | String "0"%char (String "X"%char s') => s'
  | _ => s
  end.

(** [parseInt(string, radix)] for an explicit radix between 2 and 36;
    the code calls it with 16 and with 10. *)
Definition parseInt_str (input : string) (radix : Z) : num :=
  let '(sign, s) := strip_sign (trim_start input) in
  let s := if radix =? 16 then strip_hex_prefix s else s in
  match parse_digits radix s None with
  | None => NaN
  | Some n => Num (sign * n)
  end.

Definition parseInt (v : value) (radix : Z) : num :=
  parseInt_str (to_string v) radix.

End Js.

(** ** The RPC endpoint as the code sees it *)

Module Http.

(** What [await res.json()] gives for the body of an answer:
    - [BodyInvalid]: the body is not JSON and [res.json()] rejects;
    - [BodyNull]: the document [null], reading a property of which throws;
    - [BodyData result]: any other document, [result] being what
      [data.result] reads ([VUndefined] when there is no such member). *)
Inductive body : Type :=
| BodyInvalid : body
| BodyNull : body
| BodyData (result : Js.value) : body.

(** Outcome of one [fetch] of an endpoint: [Failed] when [fetch] rejects
    (network error, or aborted by the timeout), else the answer with its
    [res.ok] and its body. *)
Inductive outcome : Type :=
| Failed : outcome
| Response (ok : bool) (b : body) : outcome.

End Http.

(** ** src/lib/api.ts *)

Module Api.
Import Js Http.

(** [fetchBlockHeight(rpcUrl)], as a function of what the endpoint
    answers. *)
Definition fetchBlockHeight (r : outcome) : num :=
  match r with
  | Failed => Num 0
  | Response ok b =>
      if negb ok then Num 0
      else
        match b with
        | BodyInvalid => Num 0
        | BodyNull => Num 0
        | BodyData result => parseInt result 16
        end
  end.

(** [checkRpcHealth(rpcUrl)] of api.ts: is there a result at all. *)
Definition checkRpcHealth (r : outcome) : bool :=
  match r with
  | Failed => false
  | Response ok b =>
      if negb ok then false
      else
        match b with
        | BodyInvalid => false
        | BodyNull => false
        | BodyData result => truthy result
        end
  end.

End Api.

(** ** Traces *)

(** The modelled procedures read and write module-level state and call
    the notification helpers.  [M St Ev A] is a computation over a state
    [St] that returns an [A] and records events [Ev] in program order. *)

Module Eff.

Definition M (St Ev A : Type) : Type := St -> A * St * list Ev.

Section Ops.
Context {St Ev : Type}.

Definition ret {A : Type} (a : A) : M St Ev A :=
  fun s => (a, s, []).

Definition bind {A B : Type} (m : M St Ev A) (k : A -> M St Ev B) : M St Ev B :=
  fun s =>
    let '(a, s1, t1) := m s in
    let '(b, s2, t2) := k a s1 in
    (b, s2, t1 ++ t2).

Definition get : M St Ev St :=
  fun s => (s, s, []).

Definition modify (f : St -> St) : M St Ev unit :=
  fun s => (tt, f s, []).

Definition emit (e : Ev) : M St Ev unit :=
  fun s => (tt, s, [e]).

(** [if (b) { m }] *)
Definition when (b : bool) (m : M St Ev unit) : M St Ev unit :=
  if b then m else ret tt.

(** [if (o) { m(o) }] for an optional configuration object. *)
Definition whenSome {A : Type} (o : option A) (m : A -> M St Ev unit) : M St Ev unit :=
  match o with
  | Some a => m a
  | None => ret tt
  end.

Definition state_of {A : Type} (r : A * St * list Ev) : St := snd (fst r).
Definition value_of {A : Type} (r : A * St * list Ev) : A := fst (fst r).
Definition trace_of {A : Type} (r : A * St * list Ev) : list Ev := snd r.
End Ops.

End Eff.

Notation "'let*' x ':=' m 'in' k" := (Eff.bind m (fun x => k))
  (at level 10, x name, m at level 100, k at level 200, only parsing).
Notation "'do' m 'in' k" := (Eff.bind m (fun _ => k))
  (at level 10, m at level 100, k at level 200, only parsing).

(** ** src/lib/alerts.ts *)

Module Alerts.
Import Eff.

Inductive Network : Type := mainnet | testnet.

Definition network_string (n : Network) : string :=
  match n with
  | mainnet => "mainnet"
  | testnet => "testnet"
  end.

Inductive AlertType : Type := missed | recovered.

(** [interface AlertPayload]; an absent optional member is [None], and
    so is a [null] height. *)
Module AlertPayload.
Record t : Type := mk {
  validator : string;
  network : Network;
  height : option Z;
  round : Z;
  type : AlertType;
  consecutiveMisses : option Z;
  previousStreak : option Z
}.
End AlertPayload.

Inductive RpcAlertType : Type := offline | online | failover | all_offline.

(** [interface RpcAlertPayload] *)
Module RpcAlertPayload.
Record t : Type := mk {
  type : RpcAlertType;
  rpcUrl : string;
  network : Network;
  isPrimary : bool;
  failoverFrom : option string;
  failoverTo : option string;
  downtime : option string;
  chainProgressing : option bool
}.
End RpcAlertPayload.

Record TelegramConfig : Type := { botToken : string; chatId : string }.
Record DiscordConfig : Type := { webhookUrl : string }.
Record PagerDutyConfig : Type := { routingKey : string; threshold : Js.num }.

(** The [{ telegram?, discord? }] object the senders take. *)
Record Targets : Type := {
  telegram : option TelegramConfig;
  discord : option DiscordConfig
}.

(** Lines written to the console by the monitors, by content. *)
Inductive LogLine : Type :=
| LogSeed (timeout_status : bool) (round : Z)
| LogMissed (round streak : Z)
| LogRecovered (round previousStreak : Z)
| LogFinalized (round : Z)
| LogAllOffline (n : Network) (downtime : Z) (chainProgressing : bool)
| LogError.

(** One entry per call of a notification helper (or console line), with
    the arguments of the call. *)
Inductive Call : Type :=
| SendTelegramAlert (botToken chatId : string) (payload : AlertPayload.t)
| SendDiscordAlert (webhookUrl : string) (payload : AlertPayload.t)
| SendPagerDutyAlert (routingKey : string) (payload : AlertPayload.t)
| SendRpcAlert (config : Targets) (payload : RpcAlertPayload.t)
| ConsoleLog (line : LogLine).

Inductive EventAction : Type := trigger | resolve.

(** [const action = payload.type === 'missed' ? 'trigger' : 'resolve'] *)
Definition event_action (payload : AlertPayload.t) : EventAction :=
  match AlertPayload.type payload with
  | missed => trigger
  | recovered => resolve
  end.

(** The event [sendPagerDutyAlert] posts: none without a routing key. *)
Definition sendPagerDutyAlert_event (routingKey : string) (payload : AlertPayload.t)
  : option (EventAction * string) :=
  if negb (Js.truthy_str routingKey) then None
  else Some (event_action payload,
             "monadoring-" +:+ AlertPayload.validator payload +:+ "-"
               +:+ network_string (AlertPayload.network payload)).

(** [interface AlertManagerConfig] *)
Record AlertManagerConfig : Type := {
  am_telegram : option TelegramConfig;
  am_discord : option DiscordConfig;
  am_pagerduty : option PagerDutyConfig
}.

(** The two private maps of [class AlertManager]. *)
Record AlertManager : Type := {
  consecutiveMisses : gmap string Z;
  pagerdutyTriggered : gmap string bool
}.

Definition getKey (validator : string) (network : Network) : string :=
  validator +:+ "-" +:+ network_string network.

Definition set_consecutiveMisses (key : string) (v : Z) (am : AlertManager) : AlertManager :=
  {| consecutiveMisses := <[key := v]> (consecutiveMisses am);
     pagerdutyTriggered := pagerdutyTriggered am |}.

Definition set_pagerdutyTriggered (key : string) (v : bool) (am : AlertManager) : AlertManager :=
  {| consecutiveMisses := consecutiveMisses am;
     pagerdutyTriggered := <[key := v]> (pagerdutyTriggered am) |}.

(** [map.get(key) || 0] *)
Definition get_or_0 (m : gmap string Z) (key : string) : Z :=
  default 0 (m !! key).

(** Truthiness of [map.get(key)] for a map of booleans. *)
Definition get_flag (m : gmap string bool) (key : string) : bool :=
  default false (m !! key).

(** [AlertManager.handleMissedBlock] *)
Definition handleMissedBlock (config : AlertManagerConfig)
    (validator : string) (network : Network) (height : option Z) (round : Z)
  : M AlertManager Call unit :=
  let key := getKey validator network in
  let* this := get in
  let misses := get_or_0 (consecutiveMisses this) key + 1 in
  do modify (set_consecutiveMisses key misses) in
  let payload :=
    AlertPayload.mk validator network height round missed (Some misses) None in
  do whenSome (am_telegram config) (fun tg =>
       emit (SendTelegramAlert (botToken tg) (chatId tg) payload)) in
  do whenSome (am_discord config) (fun dc =>
       emit (SendDiscordAlert (webhookUrl dc) payload)) in
  match am_pagerduty config with
  | Some pd =>
      when (Js.ge (Js.Num misses) (threshold pd))
        (let* this := get in
         when (negb (get_flag (pagerdutyTriggered this) key))
           (do emit (SendPagerDutyAlert (routingKey pd) payload) in
            modify (set_pagerdutyTriggered key true)))
  | None => ret tt
  end.

(** [AlertManager.handleRecovery] *)
Definition handleRecovery (config : AlertManagerConfig)
    (validator : string) (network : Network) (height : option Z) (round : Z)
  : M AlertManager Call unit :=
  let key := getKey validator network in
  let* this := get in
  let hadMisses := 0 <? get_or_0 (consecutiveMisses this) key in
  when hadMisses
    (let previousStreak := get_or_0 (consecutiveMisses this) key in
     do modify (set_consecutiveMisses key 0) in
     let payload :=
       AlertPayload.mk validator network height round recovered None (Some previousStreak) in
     match am_pagerduty config with
     | Some pd =>
         let* this := get in
         when (get_flag (pagerdutyTriggered this) key)
           (do emit (SendPagerDutyAlert (routingKey pd) payload) in
            modify (set_pagerdutyTriggered key false))
     | None => ret tt
     end).

End Alerts.

(** ** src/app/api/alert/route.ts *)

Module Route.
Import Eff Alerts.

(** The environment variables the handler reads; [None] is unset. *)
Record Env : Type := {
  TELEGRAM_BOT_TOKEN : option string;
  TELEGRAM_CHAT_ID : option string;
  DISCORD_WEBHOOK_URL : option string;
  PAGERDUTY_ROUTING_KEY : option string;
  PAGERDUTY_THRESHOLD : option string
}.

(** A variable counts when it is set to a non-empty string. *)
Definition env_value (v : option string) : option string :=
  match v with
  | Some s => if Js.truthy_str s then Some s else None
  | None => None
  end.

(** [interface ValidatorAlertRequest] *)
Module ValidatorAlertRequest.
Record t : Type := mk {
  validator : string;
  network : Network;
  height : option Z;
  round : Z;
  type : AlertType;
  consecutiveMisses : option Z
}.
End ValidatorAlertRequest.

Inductive RpcRequestType : Type := rpc_failover | rpc_recovered.

(** [interface RpcAlertRequest] *)
Module RpcAlertRequest.
Record t : Type := mk {
  type : RpcRequestType;
  network : Network;
  fromRpc : string;
  toRpc : string;
  reason : option string
}.
End RpcAlertRequest.

(** [type AlertRequest = ValidatorAlertRequest | RpcAlertRequest] *)
Inductive AlertRequest : Type :=
| ValidatorAlert (r : ValidatorAlertRequest.t)
| RpcAlert (r : RpcAlertRequest.t).

(** What the handler does to the outside: calls of the helpers of
    alerts.ts, and for RPC alerts its own two posts, whose text is
    [formatRpcAlertMessage(data)]. *)
Inductive Event : Type :=
| Helper (c : Call)
| TelegramRpcMessage (token chat : string) (data : RpcAlertRequest.t)
| DiscordRpcMessage (webhook : string) (data : RpcAlertRequest.t).

(** The two module-level maps of route.ts. *)
Record State : Type := {
  consecutiveMisses : gmap string Z;
  pagerdutyTriggered : gmap string bool
}.

Definition set_consecutiveMisses (key : string) (v : Z) (s : State) : State :=
  {| consecutiveMisses := <[key := v]> (consecutiveMisses s);
     pagerdutyTriggered := pagerdutyTriggered s |}.

Definition set_pagerdutyTriggered (key : string) (v : bool) (s : State) : State :=
  {| consecutiveMisses := consecutiveMisses s;
     pagerdutyTriggered := <[key := v]> (pagerdutyTriggered s) |}.

(** The JSON answer of the handler. *)
Inductive Reply : Type :=
| RpcReply (alerts : list (string * bool))
| ValidatorReply (alerts : list (string * bool)) (consecutiveMisses : Z)
| Error500.

Section Handler.
(** The environment, and whether a post to a backend succeeds. *)
Variable env : Env.
Variable ok : Event -> bool.

(** One attempted delivery: the call, and its line in [results]. *)
Definition attempt (service : string) (e : Event)
  : M State Event (list (string * bool)) :=
  do emit e in ret [(service, ok e)].

Definition threshold : Js.num :=
  Js.parseInt_str (default "5" (env_value (PAGERDUTY_THRESHOLD env))) 10.

(** [POST], the branch for [rpc_failover] and [rpc_recovered]. *)
Definition POST_rpc (rpcData : RpcAlertRequest.t) : M State Event Reply :=
  let* r1 :=
    match env_value (TELEGRAM_BOT_TOKEN env), env_value (TELEGRAM_CHAT_ID env) with
    | Some telegramToken, Some telegramChat =>
        attempt "telegram" (TelegramRpcMessage telegramToken telegramChat rpcData)
    | _, _ => ret []
    end in
  let* r2 :=
    match env_value (DISCORD_WEBHOOK_URL env) with
    | Some discordWebhook => attempt "discord" (DiscordRpcMessage discordWebhook rpcData)
    | None => ret []
    end in
  ret (RpcReply (r1 ++ r2)).

(** [POST], the branch for validator alerts. *)
Definition POST_validator (validatorData : ValidatorAlertRequest.t)
  : M State Event Reply :=
  let validator := ValidatorAlertRequest.validator validatorData in
  let network := ValidatorAlertRequest.network validatorData in
  let height := ValidatorAlertRequest.height validatorData in
  let round := ValidatorAlertRequest.round validatorData in
  let type := ValidatorAlertRequest.type validatorData in
  let key := validator +:+ "-" +:+ network_string network in
  let* count :=
    match type with
    | missed =>
        let* s := get in
        let current := get_or_0 (consecutiveMisses s) key + 1 in
        do modify (set_consecutiveMisses key current) in
        ret (Some current)
    | recovered =>
        do modify (set_consecutiveMisses key 0) in
        ret (ValidatorAlertRequest.consecutiveMisses validatorData)
    end in
  let payload := AlertPayload.mk validator network height round type count None in
  let* r1 :=
    match env_value (TELEGRAM_BOT_TOKEN env), env_value (TELEGRAM_CHAT_ID env) with
    | Some telegramToken, Some telegramChat =>
        attempt "telegram" (Helper (SendTelegramAlert telegramToken telegramChat payload))
    | _, _ => ret []
    end in
  let* r2 :=
    match env_value (DISCORD_WEBHOOK_URL env) with
    | Some discordWebhook =>
        attempt "discord" (Helper (SendDiscordAlert discordWebhook payload))
    | None => ret []
    end in
  let* r3 :=
    match env_value (PAGERDUTY_ROUTING_KEY env) with
    | Some pagerdutyKey =>
        let* s := get in
        match type with
        | missed =>
            if Js.ge (Js.Num (default 0 count)) threshold then
              if negb (get_flag (pagerdutyTriggered s) key) then
                let* r := attempt "pagerduty" (Helper (SendPagerDutyAlert pagerdutyKey payload)) in
                do modify (set_pagerdutyTriggered key true) in
                ret r
              else ret []
            else ret []
        | recovered =>
            if get_flag (pagerdutyTriggered s) key then
              let* r := attempt "pagerduty" (Helper (SendPagerDutyAlert pagerdutyKey payload)) in
              do modify (set_pagerdutyTriggered key false) in
              ret r
            else ret []
        end
    | None => ret []
    end in
  let* s := get in
  ret (ValidatorReply (r1 ++ r2 ++ r3) (get_or_0 (consecutiveMisses s) key)).

(** [POST(request)]; [None] stands for a body that [request.json()]
    rejects or that is [null], which the handler answers with 500. *)
Definition POST (body : option AlertRequest) : M State Event Reply :=
  match body with
  | None => ret Error500
  | Some (RpcAlert rpcData) => POST_rpc rpcData
  | Some (ValidatorAlert validatorData) => POST_validator validatorData
  end.
End Handler.

End Route.

(** ** The server instrumentation (RPC health, all-offline detection,
       missed-block tracking) *)

Module Instrumentation.
Import Eff Alerts.

Inductive Status : Type := finalized | timeout.

(** [interface ValidatorBlockState] *)
Record ValidatorBlockState : Type := {
  lastRound : Z;
  lastStatus : Status;
  consecutiveMisses : Z;
  alertedForMiss : bool
}.

(** An entry of [rpcHeights]. *)
Record RpcHeight : Type := { height : Js.num; staleCount : Z }.

(** An entry of [allOfflineState]; [since] is a clock reading in
    milliseconds. *)
Record OfflineState : Type := {
  isOffline : bool;
  since : option Z;
  alertSent : bool
}.

(** An object with one member per network. *)
Record PerNetwork (A : Type) : Type := { on_mainnet : A; on_testnet : A }.
Arguments on_mainnet {A} _.
Arguments on_testnet {A} _.

Definition at_network {A : Type} (p : PerNetwork A) (n : Network) : A :=
  match n with
  | mainnet => on_mainnet p
  | testnet => on_testnet p
  end.

Definition set_network {A : Type} (n : Network) (a : A) (p : PerNetwork A) : PerNetwork A :=
  match n with
  | mainnet => {| on_mainnet := a; on_testnet := on_testnet p |}
  | testnet => {| on_mainnet := on_mainnet p; on_testnet := a |}
  end.

(** What [getAlertConfig] returns, as far as the monitors read it. *)
Record AlertConfig : Type := {
  targets : Targets;
  validatorName : option string
}.

(** The module-level variables. *)
Record State : Type := {
  validatorBlockStates : gmap string ValidatorBlockState;
  cachedConfig : option AlertConfig;
  rpcHeights : gmap string RpcHeight;
  allOfflineState : PerNetwork OfflineState;
  lastKnownHeight : PerNetwork Z
}.

Definition set_validatorBlockStates (f : gmap string ValidatorBlockState -> gmap string ValidatorBlockState)
    (s : State) : State :=
  {| validatorBlockStates := f (validatorBlockStates s);
     cachedConfig := cachedConfig s;
     rpcHeights := rpcHeights s;
     allOfflineState := allOfflineState s;
     lastKnownHeight := lastKnownHeight s |}.

Definition set_rpcHeights (m : gmap string RpcHeight) (s : State) : State :=
  {| validatorBlockStates := validatorBlockStates s;
     cachedConfig := cachedConfig s;
     rpcHeights := m;
     allOfflineState := allOfflineState s;
     lastKnownHeight := lastKnownHeight s |}.

Definition set_allOfflineState (n : Network) (o : OfflineState) (s : State) : State :=
  {| validatorBlockStates := validatorBlockStates s;
     cachedConfig := cachedConfig s;
     rpcHeights := rpcHeights s;
     allOfflineState := set_network n o (allOfflineState s);
     lastKnownHeight := lastKnownHeight s |}.

Definition set_lastKnownHeight (n : Network) (h : Z) (s : State) : State :=
  {| validatorBlockStates := validatorBlockStates s;
     cachedConfig := cachedConfig s;
     rpcHeights := rpcHeights s;
     allOfflineState := allOfflineState s;
     lastKnownHeight := set_network n h (lastKnownHeight s) |}.

(** The state the module starts in. *)
Definition initial : State :=
  {| validatorBlockStates := ∅;
     cachedConfig := None;
     rpcHeights := ∅;
     allOfflineState :=
       {| on_mainnet := {| isOffline := false; since := None; alertSent := false |};
          on_testnet := {| isOffline := false; since := None; alertSent := false |} |};
     lastKnownHeight := {| on_mainnet := 0; on_testnet := 0 |} |}.

(** [checkRpcHealth(url)]: the height an endpoint reports, 0 when it
    gives none. *)
Definition checkRpcHealth (r : Http.outcome) : Js.num :=
  match r with
  | Http.Failed => Js.Num 0
  | Http.Response _ b =>
      match b with
      | Http.BodyInvalid => Js.Num 0
      | Http.BodyNull => Js.Num 0
      | Http.BodyData result =>
          if Js.truthy result then Js.parseInt result 16 else Js.Num 0
      end
  end.

(** [isRpcHealthy(url, currentHeight)], over the map it reads and
    writes. *)
Definition isRpcHealthy (url : string) (currentHeight : Js.num)
    (heights : gmap string RpcHeight) : bool * gmap string RpcHeight :=
  if Js.strict_eq currentHeight (Js.Num 0) then (false, heights)
  else
    match heights !! url with
    | None =>
        (true, <[url := {| height := currentHeight; staleCount := 0 |}]> heights)
    | Some prev =>
        if Js.gt currentHeight (height prev) then
          (true, <[url := {| height := currentHeight; staleCount := 0 |}]> heights)
        else
          let newStaleCount := staleCount prev + 1 in
          (newStaleCount <? 2,
           <[url := {| height := currentHeight; staleCount := newStaleCount |}]> heights)
    end.

(** The same as a step of the module state. *)
Definition isRpcHealthyM (url : string) (currentHeight : Js.num) : M State Call bool :=
  let* s := get in
  let '(healthy, heights) := isRpcHealthy url currentHeight (rpcHeights s) in
  do modify (set_rpcHeights heights) in
  ret healthy.

(** What the uptime service answers to [checkChainProgress]:
    [UptimeHeight h] when the answer is a success carrying
    [uptime.last_block_height = h], [UptimeNone] in every other case
    (no answer, an error status, no such member, [null]). *)
Inductive UptimeReply : Type :=
| UptimeNone
| UptimeHeight (h : Z).

(** What the uptime service answers to the history request of
    [checkValidatorMissedBlocks]. *)
Record HistoryEvent : Type := {
  round : Z;
  block_height : option Z;
  status : Status
}.

(** [HistoryThrows]: the request or the decoding of its body throws;
    [HistoryNone]: an error status, [success] false, no [history] or an
    empty one; [HistoryLatest latestBlock]: [data.history[0]]. *)
Inductive HistoryReply : Type :=
| HistoryThrows
| HistoryNone
| HistoryLatest (latestBlock : HistoryEvent).

(** [urls.join(', ')] *)
Fixpoint join (urls : list string) : string :=
  match urls with
  | [] => ""
  | [u] => u
  | u :: rest => u +:+ ", " +:+ join rest
  end.

Section Monitors.
(** The configuration read from the environment: the endpoint lists
    ([MAINNET_RPCS], [TESTNET_RPCS], split, trimmed, empty entries
    dropped) and the first entry of each validator list, trimmed. *)
Variable rpcs : Network -> list string.
Variable firstValidatorId : Network -> string.

(** [checkChainProgress(network)] *)
Definition checkChainProgress (network : Network) (reply : UptimeReply)
  : M State Call bool :=
  if negb (Js.truthy_str (firstValidatorId network)) then ret false
  else
    match reply with
    | UptimeNone => ret false
    | UptimeHeight currentHeight =>
        if negb (currentHeight =? 0) then
          let* s := get in
          let previousHeight := at_network (lastKnownHeight s) network in
          do modify (set_lastKnownHeight network currentHeight) in
          ret ((0 <? previousHeight) && (previousHeight <? currentHeight))%bool
        else ret false
    end.

(** The loop [for (const url of urls) { ... healthy++ }]; [i] is the
    position of the first of [urls] in the configured list and
    [probe] what each position answers in this round. *)
Fixpoint countHealthy (urls : list string) (i : nat)
    (probe : nat -> Http.outcome) : M State Call Z :=
  match urls with
  | [] => ret 0
  | url :: rest =>
      let height := checkRpcHealth (probe i) in
      let* healthy := isRpcHealthyM url height in
      let* n := countHealthy rest (S i) probe in
      ret (if healthy then n + 1 else n)
  end.

(** The block "Check ... all-offline state" of [runRpcHealthCheck],
    which the source writes out once for each network. *)
Definition checkAllOffline (config : AlertConfig) (network : Network)
    (healthy : Z) (now : Z) (reply : UptimeReply) : M State Call unit :=
  let urls := rpcs network in
  if ((healthy =? 0) && (0 <? Z.of_nat (length urls)))%bool then
    let* s := get in
    do when (negb (isOffline (at_network (allOfflineState s) network)))
         (modify (set_allOfflineState network
                    {| isOffline := true; since := Some now; alertSent := false |})) in
    let* s := get in
    let o := at_network (allOfflineState s) network in
    let downtime :=
      match since o with
      | Some t => (now - t) / 60000
      | None => 0
      end in
    when ((3 <=? downtime) && negb (alertSent o))%bool
      (let* chainProgressing := checkChainProgress network reply in
       do emit (ConsoleLog (LogAllOffline network downtime chainProgressing)) in
       do emit (SendRpcAlert (targets config)
                  (RpcAlertPayload.mk all_offline (join urls) network true None None
                     (Some (Js.Z_to_string downtime +:+ " minutes"))
                     (Some chainProgressing))) in
       let* s := get in
       let o := at_network (allOfflineState s) network in
       modify (set_allOfflineState network
                 {| isOffline := isOffline o; since := since o; alertSent := true |}))
  else if 0 <? healthy then
    modify (set_allOfflineState network
              {| isOffline := false; since := None; alertSent := false |})
  else ret tt.

(** What one run of the health check meets: the answer of every
    endpoint, the clock, and the answer of the uptime service. *)
Record Tick : Type := {
  probe : Network -> nat -> Http.outcome;
  now : Network -> Z;
  uptime : Network -> UptimeReply
}.

Definition checkNetwork (config : AlertConfig) (tk : Tick) (network : Network)
  : M State Call unit :=
  let* healthy := countHealthy (rpcs network) 0 (probe tk network) in
  checkAllOffline config network healthy (now tk network) (uptime tk network).

(** [runRpcHealthCheck()] *)
Definition runRpcHealthCheck (tk : Tick) : M State Call unit :=
  let* s := get in
  match cachedConfig s with
  | None => ret tt
  | Some config =>
      do checkNetwork config tk mainnet in
      checkNetwork config tk testnet
  end.
End Monitors.

(** Delivery of a validator alert to the configured chat backends. *)
Definition sendAlerts (config : AlertConfig) (payload : AlertPayload.t)
  : M State Call unit :=
  do whenSome (telegram (targets config)) (fun tg =>
       emit (SendTelegramAlert (botToken tg) (chatId tg) payload)) in
  whenSome (discord (targets config)) (fun dc =>
    emit (SendDiscordAlert (webhookUrl dc) payload)).

Definition is_timeout (s : Status) : bool :=
  match s with
  | timeout => true
  | finalized => false
  end.

(** [checkValidatorMissedBlocks(validatorId, network, validatorName)] *)
Definition checkValidatorMissedBlocks (validatorId : string) (network : Network)
    (validatorName : string) (reply : HistoryReply) : M State Call unit :=
  let* s := get in
  match cachedConfig s with
  | None => ret tt
  | Some config =>
      match reply with
      | HistoryThrows => emit (ConsoleLog LogError)
      | HistoryNone => ret tt
      | HistoryLatest latestBlock =>
          let key := validatorId +:+ "-" +:+ network_string network in
          match validatorBlockStates s !! key with
          | None =>
              do emit (ConsoleLog (LogSeed (is_timeout (status latestBlock)) (round latestBlock))) in
              modify (set_validatorBlockStates (insert key
                {| lastRound := round latestBlock;
                   lastStatus := status latestBlock;
                   consecutiveMisses := if is_timeout (status latestBlock) then 1 else 0;
                   alertedForMiss := false |}))
          | Some prevState =>
              if round latestBlock =? lastRound prevState then ret tt
              else if is_timeout (status latestBlock) then
                let newMisses := consecutiveMisses prevState + 1 in
                do modify (set_validatorBlockStates (insert key
                     {| lastRound := round latestBlock;
                        lastStatus := timeout;
                        consecutiveMisses := newMisses;
                        alertedForMiss := true |})) in
                do emit (ConsoleLog (LogMissed (round latestBlock) newMisses)) in
                sendAlerts config
                  (AlertPayload.mk validatorName network (block_height latestBlock)
                     (round latestBlock) missed (Some newMisses) None)
              else
                let hadMisses :=
                  ((0 <? consecutiveMisses prevState) && alertedForMiss prevState)%bool in
                do modify (set_validatorBlockStates (insert key
                     {| lastRound := round latestBlock;
                        lastStatus := finalized;
                        consecutiveMisses := 0;
                        alertedForMiss := false |})) in
                if hadMisses then
                  let previousStreak := consecutiveMisses prevState in
                  do emit (ConsoleLog (LogRecovered (round latestBlock) previousStreak)) in
                  sendAlerts config
                    (AlertPayload.mk validatorName network (block_height latestBlock)
                       (round latestBlock) recovered None (Some previousStreak))
                else emit (ConsoleLog (LogFinalized (round latestBlock)))
          end
      end
  end.

End Instrumentation.

(** ** The dashboard component: the active endpoint and its failover *)

Module Dashboard.
Import Eff.
Import Alerts(Network, mainnet, testnet).

(** After 30 polls (1 minute) of issues, fail over to a secondary. *)
Definition FAILOVER_THRESHOLD : Z := 30.

(** An entry of [parseRpcConfig(...)]. *)
Record RpcConfig : Type := { url : string; name : string }.

(** [const reason = height === 0 ? 'offline' : `stale (stuck at ${height})`] *)
Inductive Reason : Type :=
| reason_offline
| reason_stale (height : Js.num).

(** Calls the two procedures make besides reading the endpoints. *)
Inductive Event : Type :=
| SendRpcAlert (type : Route.RpcRequestType) (network : Network)
    (fromRpc toRpc : string) (reason : option Reason)
| UpdateRpcDisplayState (network : Network) (failedIndex newActiveIndex : nat)
    (isRecovery : bool).

(** The state kept for one network: the active index (a React state)
    and the three refs.  A new index set by one call is the index the
    next call sees, and calls do not overlap. *)
Record NetState : Type := {
  activeIndex : nat;
  lastHeight : Js.num;
  issueCount : Z;
  alertSent : bool
}.

Definition set_activeIndex (i : nat) (s : NetState) : NetState :=
  {| activeIndex := i; lastHeight := lastHeight s;
     issueCount := issueCount s; alertSent := alertSent s |}.

Definition set_lastHeight (h : Js.num) (s : NetState) : NetState :=
  {| activeIndex := activeIndex s; lastHeight := h;
     issueCount := issueCount s; alertSent := alertSent s |}.

Definition set_issueCount (c : Z) (s : NetState) : NetState :=
  {| activeIndex := activeIndex s; lastHeight := lastHeight s;
     issueCount := c; alertSent := alertSent s |}.

Definition set_alertSent (b : bool) (s : NetState) : NetState :=
  {| activeIndex := activeIndex s; lastHeight := lastHeight s;
     issueCount := issueCount s; alertSent := b |}.

Section Failover.
(** The endpoints of the network, in rank order (index 0 is the
    primary), and the network they belong to. *)
Variable rpcConfigs : list RpcConfig.
Variable network : Network.

Definition name_at (i : nat) : string :=
  match rpcConfigs !! i with
  | Some c => name c
  | None => ""
  end.

(** [isValidFallback] *)
Definition isValidFallback (height fallbackHeight : Js.num) : bool :=
  if Js.strict_eq height (Js.Num 0) then Js.gt fallbackHeight (Js.Num 0)
  else (Js.gt fallbackHeight (Js.Num 0) && Js.gt fallbackHeight height)%bool.

(** The loop [for (let i = 1; i < rpcConfigs.length; i++)] up to its
    early return: the first offset, among [offsets], whose endpoint
    is a valid fallback, with the index and height found there. *)
Fixpoint findFallback (active : nat) (height : Js.num)
    (probe : nat -> Http.outcome) (offsets : list nat) : option (nat * Js.num) :=
  match offsets with
  | [] => None
  | i :: rest =>
      let nextIndex := ((active + i) mod length rpcConfigs)%nat in
      let fallbackHeight := Api.fetchBlockHeight (probe nextIndex) in
      if isValidFallback height fallbackHeight
      then Some (nextIndex, fallbackHeight)
      else findFallback active height probe rest
  end.

(** [fetchCurrentHeight(network)].  [probe i] is what endpoint [i]
    answers during this call; the result is [None] when the call
    throws, which it does when the active index names no endpoint. *)
Definition fetchCurrentHeight (probe : nat -> Http.outcome)
  : M NetState Event (option Js.num) :=
  let* s := get in
  let active := activeIndex s in
  if (length rpcConfigs =? 0)%nat then ret (Some (Js.Num 0))
  else
    match rpcConfigs !! active with
    | None => ret None
    | Some _ =>
        let height := Api.fetchBlockHeight (probe active) in
        let hasIssue :=
          (Js.strict_eq height (Js.Num 0) || Js.strict_eq height (lastHeight s))%bool in
        if hasIssue then
          do modify (fun s => set_issueCount (issueCount s + 1) s) in
          let* s := get in
          if issueCount s <? FAILOVER_THRESHOLD then
            ret (Some (Js.or_num (lastHeight s) height))
          else
            let reason :=
              if Js.strict_eq height (Js.Num 0) then reason_offline
              else reason_stale height in
            match findFallback active height probe
                    (seq 1 (length rpcConfigs - 1)) with
            | Some (nextIndex, fallbackHeight) =>
                do when (negb (alertSent s))
                     (do emit (SendRpcAlert Route.rpc_failover network
                                 (name_at active) (name_at nextIndex) (Some reason)) in
                      modify (set_alertSent true)) in
                do emit (UpdateRpcDisplayState network active nextIndex false) in
                do modify (set_activeIndex nextIndex) in
                do modify (set_lastHeight fallbackHeight) in
                do modify (set_issueCount 0) in
                ret (Some fallbackHeight)
            | None =>
                ret (Some (if Js.strict_eq height (Js.Num 0)
                           then lastHeight s else height))
            end
        else
          do modify (set_issueCount 0) in
          do modify (set_lastHeight height) in
          do when (active =? 0)%nat (modify (set_alertSent false)) in
          ret (Some height)
    end.

(** The block of [checkPrimaryRecovery] for one network; [None] when
    it throws. *)
Definition checkPrimaryRecovery (probe : nat -> Http.outcome)
  : M NetState Event (option unit) :=
  let* s := get in
  let active := activeIndex s in
  if (negb (active =? 0)%nat && (0 <? length rpcConfigs)%nat)%bool then
    let primaryHeight := Api.fetchBlockHeight (probe 0%nat) in
    if (Js.gt primaryHeight (Js.Num 0) && Js.gt primaryHeight (lastHeight s))%bool then
      match rpcConfigs !! active with
      | None => ret None
      | Some from =>
          do emit (SendRpcAlert Route.rpc_recovered network
                     (name from) (name_at 0%nat) None) in
          do emit (UpdateRpcDisplayState network active 0%nat true) in
          do modify (set_activeIndex 0%nat) in
          do modify (set_lastHeight primaryHeight) in
          do modify (set_issueCount 0) in
          do modify (set_alertSent false) in
          ret (Some tt)
      end
    else ret (Some tt)
  else ret (Some tt).

(** One thing that happens to the state of a network: a poll of the
    active endpoint or a run of the recovery check, each against
    what the endpoints answer at that moment. *)
Inductive Action : Type :=
| Poll (probe : nat -> Http.outcome)
| Recovery (probe : nat -> Http.outcome).

(** [step s a s'] when action [a] takes state [s] to [s'] without
    throwing. *)
Inductive step : NetState -> Action -> NetState -> Prop :=
| step_poll probe s h s' t :
    fetchCurrentHeight probe s = (Some h, s', t) ->
    step s (Poll probe) s'
| step_recovery probe s s' t :
    checkPrimaryRecovery probe s = (Some tt, s', t) ->
    step s (Recovery probe) s'.

(** A run of consecutive polls, with the heights they return. *)
Fixpoint pollRun (probes : list (nat -> Http.outcome)) (s : NetState)
  : list (option Js.num) * NetState :=
  match probes with
  | [] => ([], s)
  | p :: rest =>
      let '(r, s1, _) := fetchCurrentHeight p s in
      let '(rs, s2) := pollRun rest s1 in
      (r :: rs, s2)
  end.
End Failover.

End Dashboard.

(** ** Runs of the procedures, used to state the properties *)

Module Runs.
Import Eff Alerts Instrumentation.

(** Successive probes of one endpoint: the verdict of [isRpcHealthy]
    and the record kept for the endpoint after each probe. *)
Fixpoint probeRun (url : string) (hs : list Js.num) (heights : gmap string RpcHeight)
  : list (bool * option RpcHeight) :=
  match hs with
  | [] => []
  | h :: rest =>
      let '(healthy, heights') := isRpcHealthy url h heights in
      (healthy, heights' !! url) :: probeRun url rest heights'
  end.

(** An endpoint is new to [h] when it has no record yet or its recorded
    height is below [h]. *)
Definition below (heights : gmap string RpcHeight) (url : string) (h : Js.num) : Prop :=
  match heights !! url with
  | None => True
  | Some prev => Js.gt h (height prev) = true
  end.

(** Each height is strictly greater (in the sense of [>]) than the one
    before it, the first one than [prev]. *)
Fixpoint increasing_from (prev : Js.num) (hs : list Js.num) : Prop :=
  match hs with
  | [] => True
  | h :: rest => Js.gt h prev = true /\ increasing_from h rest
  end.

Definition increasing (hs : list Js.num) : Prop :=
  match hs with
  | [] => True
  | h :: rest => increasing_from h rest
  end.

(** The calls that deliver a validator alert to the chat backends that
    are configured. *)
Definition chat_calls (tg : option TelegramConfig) (dc : option DiscordConfig)
    (payload : AlertPayload.t) : list Call :=
  match tg with
  | Some c => [SendTelegramAlert (botToken c) (chatId c) payload]
  | None => []
  end ++
  match dc with
  | Some c => [SendDiscordAlert (webhookUrl c) payload]
  | None => []
  end.

(** Successive polls of the history of one validator. *)
Fixpoint trackRun (validatorId : string) (network : Network) (validatorName : string)
    (replies : list HistoryReply) (s : State) : list (list Call) * State :=
  match replies with
  | [] => ([], s)
  | r :: rest =>
      let '(_, s1, t) := checkValidatorMissedBlocks validatorId network validatorName r s in
      let '(ts, s2) := trackRun validatorId network validatorName rest s1 in
      (t :: ts, s2)
  end.

(** *** Dispatchers of validator alerts

    The two dispatchers of the repository ([AlertManager] and the
    handler of route.ts), seen for one validator and network: what a
    missed and a recovered event do to the state and which helper
    calls they make, the consecutive-miss count and the PagerDuty
    guard kept for the key. *)
Record Dispatcher (St : Type) : Type := {
  on_missed : option Z -> Z -> St -> St * list Call;
  on_recovered : option Z -> Z -> St -> St * list Call;
  misses_of : St -> Z;
  triggered_of : St -> bool
}.
Arguments on_missed {St} _ _ _ _.
Arguments on_recovered {St} _ _ _ _.
Arguments misses_of {St} _ _.
Arguments triggered_of {St} _ _.

Definition manager (config : AlertManagerConfig) (validator : string) (network : Network)
  : Dispatcher AlertManager :=
  {| on_missed height round am :=
       let '(_, am', t) := handleMissedBlock config validator network height round am in
       (am', t);
     on_recovered height round am :=
       let '(_, am', t) := handleRecovery config validator network height round am in
       (am', t);
     misses_of am := get_or_0 (Alerts.consecutiveMisses am) (getKey validator network);
     triggered_of am := get_flag (Alerts.pagerdutyTriggered am) (getKey validator network) |}.

(** The helper calls among the events of the handler. *)
Definition helper_calls (t : list Route.Event) : list Call :=
  flat_map (fun e => match e with Route.Helper c => [c] | _ => [] end) t.

(** Requests carry [claimed] as their own [consecutiveMisses] member. *)
Definition route (env : Route.Env) (ok : Route.Event -> bool) (claimed : option Z)
    (validator : string) (network : Network) : Dispatcher Route.State :=
  {| on_missed height round s :=
       let '(_, s', t) :=
         Route.POST env ok
           (Some (Route.ValidatorAlert
                    (Route.ValidatorAlertRequest.mk validator network height round
                       missed claimed))) s in
       (s', helper_calls t);
     on_recovered height round s :=
       let '(_, s', t) :=
         Route.POST env ok
           (Some (Route.ValidatorAlert
                    (Route.ValidatorAlertRequest.mk validator network height round
                       recovered claimed))) s in
       (s', helper_calls t);
     misses_of s := get_or_0 (Route.consecutiveMisses s) (getKey validator network);
     triggered_of s := get_flag (Route.pagerdutyTriggered s) (getKey validator network) |}.

(** The actions of the PagerDuty calls of a trace, in order. *)
Definition pagerduty_actions (t : list Call) : list EventAction :=
  flat_map (fun c => match c with
                     | SendPagerDutyAlert _ payload => [event_action payload]
                     | _ => []
                     end) t.

(** Consecutive missed events, each with its height and round. *)
Fixpoint missRun {St : Type} (d : Dispatcher St) (blocks : list (option Z * Z)) (s : St)
  : St * list Call :=
  match blocks with
  | [] => (s, [])
  | (height, round) :: rest =>
      let '(s1, t1) := on_missed d height round s in
      let '(s2, t2) := missRun d rest s1 in
      (s2, t1 ++ t2)
  end.

(** The escalation scenario from state [s0]: four misses, a fifth, a
    recovery, then at most four further misses. *)
Definition escalation {St : Type} (d : Dispatcher St) (s0 : St) : Prop :=
  forall (first4 : list (option Z * Z)) (fifth recovery : option Z * Z)
         (later : list (option Z * Z)),
    length first4 = 4%nat ->
    (length later <= 4)%nat ->
    let '(s4, t4) := missRun d first4 s0 in
    let '(s5, t5) := on_missed d (fst fifth) (snd fifth) s4 in
    let '(s6, t6) := on_recovered d (fst recovery) (snd recovery) s5 in
    let '(s7, t7) := missRun d later s6 in
    pagerduty_actions t4 = []
    /\ pagerduty_actions t5 = [trigger]
    /\ pagerduty_actions t6 = [resolve]
    /\ triggered_of d s6 = false
    /\ pagerduty_actions t7 = [].

(** Does a missed event page: the count reaches the threshold and the
    guard is down. *)
Definition pages (pd : option Js.num) (misses : Z) (guard : bool) : bool :=
  match pd with
  | Some threshold => (Js.ge (Js.Num misses) threshold && negb guard)%bool
  | None => false
  end.

(** Does a recovery resolve: paging is configured and the guard is up. *)
Definition resolves {A : Type} (pd : option A) (guard : bool) : bool :=
  match pd with
  | Some _ => guard
  | None => false
  end.

(** The PagerDuty call made with [payload] when [b] holds. *)
Definition pagerduty_call (b : bool) (routingKey : option string)
    (payload : AlertPayload.t) : list Call :=
  match routingKey with
  | Some k => if b then [SendPagerDutyAlert k payload] else []
  | None => []
  end.

(** The chat backends the handler of route.ts finds in its
    environment. *)
Definition route_telegram (env : Route.Env) : option TelegramConfig :=
  match Route.env_value (Route.TELEGRAM_BOT_TOKEN env),
        Route.env_value (Route.TELEGRAM_CHAT_ID env) with
  | Some t, Some c => Some {| botToken := t; chatId := c |}
  | _, _ => None
  end.

Definition route_discord (env : Route.Env) : option DiscordConfig :=
  match Route.env_value (Route.DISCORD_WEBHOOK_URL env) with
  | Some w => Some {| webhookUrl := w |}
  | None => None
  end.

(** *** Runs of the RPC health check *)

Definition network_eqb (a b : Network) : bool :=
  match a, b with
  | mainnet, mainnet => true
  | testnet, testnet => true
  | _, _ => false
  end.

(** The [all_offline] alerts of a trace that concern [net]. *)
Definition all_offline_alerts (net : Network) (t : list Call) : list RpcAlertPayload.t :=
  flat_map (fun c =>
    match c with
    | SendRpcAlert _ payload =>
        match RpcAlertPayload.type payload with
        | all_offline =>
            if network_eqb (RpcAlertPayload.network payload) net then [payload] else []
        | _ => []
        end
    | _ => []
    end) t.

(** [downtime] as [runRpcHealthCheck] computes it, in minutes. *)
Definition downtime_of (now : Z) (o : OfflineState) : Z :=
  match since o with
  | Some t => (now - t) / 60000
  | None => 0
  end.

Section HealthRuns.
Variable rpcs : Network -> list string.
Variable firstValidatorId : Network -> string.

(** Successive runs of [runRpcHealthCheck], one per tick. *)
Fixpoint healthRun (ticks : list Tick) (s : State) : State * list Call :=
  match ticks with
  | [] => (s, [])
  | tk :: rest =>
      let '(_, s1, t1) := runRpcHealthCheck rpcs firstValidatorId tk s in
      let '(s2, t2) := healthRun rest s1 in
      (s2, t1 ++ t2)
  end.

(** The number of endpoints of [net] that the run for tick [tk], started
    in state [s], counts as healthy. *)
Definition healthyIn (config : AlertConfig) (tk : Tick) (net : Network) (s : State) : Z :=
  let before :=
    match net with
    | mainnet => s
    | testnet => Eff.state_of (checkNetwork rpcs firstValidatorId config tk mainnet s)
    end in
  Eff.value_of (countHealthy (rpcs net) 0 (probe tk net) before).

(** Every tick of the run finds all endpoints of [net] unhealthy. *)
Fixpoint allUnhealthy (config : AlertConfig) (net : Network) (ticks : list Tick) (s : State)
  : Prop :=
  match ticks with
  | [] => True
  | tk :: rest =>
      healthyIn config tk net s = 0
      /\ allUnhealthy config net rest
           (Eff.state_of (runRpcHealthCheck rpcs firstValidatorId tk s))
  end.
End HealthRuns.

(** Tick [tk] comes three minutes or more after the clock reading [t0]. *)
Definition crossed (net : Network) (t0 : Z) (tk : Tick) : bool :=
  180000 <=? now tk net - t0.

End Runs.

(** ** src/lib/config.ts: lists read from the environment *)

Module Config.

(** [s.split(',')]: the pieces between the commas, empty pieces
    included; never an empty list. *)
Fixpoint split_comma (s : string) : list string :=
  match s with
  | EmptyString => [EmptyString]
  | String c s' =>
      if Ascii.eqb c ","%char then EmptyString :: split_comma s'
      else
        match split_comma s' with
        | piece :: rest => String c piece :: rest
        | [] => [String c EmptyString]
        end
  end.

(** White space removed from the end of a string. *)
Fixpoint trim_end (s : string) : string :=
  match s with
  | EmptyString => EmptyString
  | String c s' =>
      match trim_end s' with
      | EmptyString => if Js.is_space c then EmptyString else String c EmptyString
      | t => String c t
      end
  end.

(** [s.trim()] (the ASCII part of the white space). *)
Definition trim (s : string) : string := trim_end (Js.trim_start s).

(** [envValue.split(',').map(v => v.trim()).filter(Boolean)] *)
Definition entries (envValue : string) : list string :=
  filter (fun v => Js.truthy_str v = true) (map trim (split_comma envValue)).


(** [interface RpcConfig] of config.ts *)
Record RpcConfig : Type := {
  url : string;
  name : string;
  isPrimary : bool
}.





End Config.

(** ** The rest of the server instrumentation *)

Module Monitor.
Import Eff Alerts Instrumentation.


(** [(process.env.X || '').split(',').map(s => s.trim()).filter(Boolean)] *)
Definition envList (envValue : option string) : list string :=
  Config.entries (default "" envValue).

(** [cachedConfig.validatorName || validatorId] *)
Definition displayName (config : AlertConfig) (validatorId : string) : string :=
  match validatorName config with
  | Some n => if Js.truthy_str n then n else validatorId
  | None => validatorId
  end.

(** The loop [for (const validatorId of validators) await
    checkValidatorMissedBlocks(...)]; [config] is the cached
    configuration, which no modelled procedure changes once it is set,
    [i] the position of the first of [validators] in the list and
    [reply] what the uptime service answers for each position. *)
Fixpoint checkEach (config : AlertConfig) (network : Network) (validators : list string)
    (i : nat) (reply : nat -> HistoryReply) : M State Call unit :=
  match validators with
  | [] => ret tt
  | validatorId :: rest =>
      do checkValidatorMissedBlocks validatorId network
           (displayName config validatorId) (reply i) in
      checkEach config network rest (S i) reply
  end.

(** [runMissedBlockCheck()] *)
Definition runMissedBlockCheck (MAINNET_VALIDATORS TESTNET_VALIDATORS : option string)
    (reply : Network -> nat -> HistoryReply) : M State Call unit :=
  let* s := get in
  match cachedConfig s with
  | None => ret tt
  | Some config =>
      do checkEach config mainnet (envList MAINNET_VALIDATORS) 0 (reply mainnet) in
      checkEach config testnet (envList TESTNET_VALIDATORS) 0 (reply testnet)
  end.

End Monitor.

(** ** The dashboard component: what it displays *)

Module Display.
Import Alerts(Network, mainnet, testnet).

(** [interface RpcState] *)
Record RpcState : Type := {
  url : string;
  name : string;
  isOnline : bool;
  isPrimary : bool
}.

(** The list of one network in [updateRpcDisplayState]:
    [oldRpcs.map((rpc, i) => ...)]. *)
Definition updateRpcs (failedIndex newActiveIndex : nat) (isRecovery : bool)
    (oldRpcs : list RpcState) : list RpcState :=
  imap (fun i rpc =>
          let isOnline :=
            if isRecovery then
              if (i =? newActiveIndex)%nat then true else isOnline rpc
            else
              if (i =? failedIndex)%nat then false else isOnline rpc in
          {| url := url rpc; name := name rpc; isOnline := isOnline;
             isPrimary := (i =? newActiveIndex)%nat |})
       oldRpcs.

Section State.
(** The members of [DashboardState] other than the two endpoint lists
    ([validators], [loading], [error]). *)
Variable Other : Type.

(** [interface DashboardState] *)
Record DashboardState : Type := {
  mainnetRpcs : list RpcState;
  testnetRpcs : list RpcState;
  others : Other
}.

(** [updateRpcDisplayState(network, failedIndex, newActiveIndex,
    isRecovery)], as the update it passes to [setState]. *)
Definition updateRpcDisplayState (network : Network) (failedIndex newActiveIndex : nat)
    (isRecovery : bool) (prev : DashboardState) : DashboardState :=
  match network with
  | mainnet =>
      {| mainnetRpcs := updateRpcs failedIndex newActiveIndex isRecovery (mainnetRpcs prev);
         testnetRpcs := testnetRpcs prev;
         others := others prev |}
  | testnet =>
      {| mainnetRpcs := mainnetRpcs prev;
         testnetRpcs := updateRpcs failedIndex newActiveIndex isRecovery (testnetRpcs prev);
         others := others prev |}
  end.
End State.
Arguments mainnetRpcs {Other} _.
Arguments testnetRpcs {Other} _.
Arguments others {Other} _.
Arguments updateRpcDisplayState {Other} _ _ _ _ _.

(** [type BlockStatus] *)
Inductive BlockStatus : Type := finalized | missed | no_data.

(** [interface Block] *)
Record Block : Type := {
  height : option Z;
  round : Z;
  status : BlockStatus
}.

(** [interface HistoryEvent] of api.ts; the newest event comes first
    in a history. *)
Record HistoryEvent : Type := {
  h_round : Z;
  h_height : option Z;
  h_status : Instrumentation.Status
}.

(** The blocks [fetchData] makes of what [fetchHistory] returns
    ([None] when it returns [null]):
    [histData?.history ? [...histData.history].reverse().map(h => ...) : []]. *)
Definition toBlocks (histData : option (list HistoryEvent)) : list Block :=
  match histData with
  | Some history =>
      map (fun h =>
             {| height := h_height h;
                round := h_round h;
                status := if Instrumentation.is_timeout (h_status h)
                          then missed else finalized |})
          (reverse history)
  | None => []
  end.

Definition DISPLAY_BLOCKS : nat := 50.

Definition is_finalized (b : Block) : bool :=
  match status b with
  | finalized => true
  | _ => false
  end.

(** [display] of [UptimeBar]: the blocks, padded on the left with
    no-data cells up to [DISPLAY_BLOCKS]. *)
Definition display (blocks : list Block) : list Block :=
  replicate (DISPLAY_BLOCKS - length blocks)
    {| height := None; round := 0; status := no_data |}
  ++ blocks.

(** The loop [for (let i = display.length - 1; i >= 0; i--)] with its
    [break]: cells [i - 1], [i - 2], ... down to 0 are examined. *)
Fixpoint scanDown (cells : list Block) (i : nat) : Z :=
  match i with
  | O => -1
  | S j =>
      match cells !! j with
      | Some b => if is_finalized b then Z.of_nat j else scanDown cells j
      | None => scanDown cells j
      end
  end.

(** [lastFinalizedIndex] of [UptimeBar]. *)
Definition lastFinalizedIndex (showLastFinalized : bool) (cells : list Block) : Z :=
  if showLastFinalized then scanDown cells (length cells) else -1.

(** [UptimeBar]: nothing for no blocks, else the cells shown and the
    index of the cell marked as last finalized ([-1] for none). *)
Definition UptimeBar (blocks : list Block) (showLastFinalized : bool)
  : option (list Block * Z) :=
  if (length blocks =? 0)%nat then None
  else Some (display blocks, lastFinalizedIndex showLastFinalized (display blocks)).

(** The four appearances of [ValidatorStatusIndicator]. *)
Inductive Indicator : Type := gray | red | yellow | green.

(** [ValidatorStatusIndicator]: the colour it shows for the blocks,
    height and missed count of a validator. *)
Definition indicator (blocks : list Block) (height : Js.num) (missed : Z) : Indicator :=
  let isCurrentlyOnline :=
    match last blocks with
    | Some lastBlock => is_finalized lastBlock
    | None => false
    end in
  if ((length blocks =? 0)%nat || Js.strict_eq height (Js.Num 0))%bool then gray
  else if (negb isCurrentlyOnline && (50 <=? missed))%bool then red
  else if negb isCurrentlyOnline then yellow
  else green.

End Display.

(** ** Further runs and predicates, used to state properties of the
       procedures above *)

Module Scenarios.
Import Eff Alerts Instrumentation Runs.

(** *** Dispatchers *)

(** A validator alert as a dispatcher receives it: its type, height and
    round. *)
Definition AlertEvent : Type := (AlertType * option Z * Z)%type.

Definition dispatch {St : Type} (d : Dispatcher St) (e : AlertEvent) (s : St)
  : St * list Call :=
  match e with
  | (missed, height, round) => on_missed d height round s
  | (recovered, height, round) => on_recovered d height round s
  end.

(** Any sequence of missed and recovered events, in order. *)
Fixpoint eventRun {St : Type} (d : Dispatcher St) (events : list AlertEvent) (s : St)
  : St * list Call :=
  match events with
  | [] => (s, [])
  | e :: rest =>
      let '(s1, t1) := dispatch d e s in
      let '(s2, t2) := eventRun d rest s1 in
      (s2, t1 ++ t2)
  end.

Definition flip_action (a : EventAction) : EventAction :=
  match a with
  | trigger => resolve
  | resolve => trigger
  end.

(** The actions alternate, the first one being [next]. *)
Fixpoint alternates (next : EventAction) (actions : list EventAction) : Prop :=
  match actions with
  | [] => True
  | a :: rest => a = next /\ alternates (flip_action next) rest
  end.

Definition is_missed (e : AlertEvent) : bool :=
  match e with
  | (missed, _, _) => true
  | (recovered, _, _) => false
  end.

(** The number of missed events at the end of a sequence, after its last
    recovered event. *)
Fixpoint trailing_misses (events : list AlertEvent) : Z :=
  match events with
  | [] => 0
  | e :: rest =>
      if (is_missed e && forallb is_missed rest)%bool
      then 1 + trailing_misses rest
      else trailing_misses rest
  end.

(** The threshold a dispatcher pages at: [None] when paging is not
    configured. *)
Definition manager_threshold (config : AlertManagerConfig) : option Js.num :=
  threshold <$> am_pagerduty config.

Definition route_threshold (env : Route.Env) : option Js.num :=
  match Route.env_value (Route.PAGERDUTY_ROUTING_KEY env) with
  | Some _ => Some (Route.threshold env)
  | None => None
  end.

(** The threshold is a number and [m] is at least that number. *)
Definition at_least (th : option Js.num) (m : Z) : bool :=
  match th with
  | Some (Js.Num n) => n <=? m
  | _ => false
  end.

(** The service a delivery of the handler of route.ts is reported
    under. *)
Definition service_of (e : Route.Event) : string :=
  match e with
  | Route.Helper (SendTelegramAlert _ _ _) => "telegram"
  | Route.Helper (SendDiscordAlert _ _) => "discord"
  | Route.Helper (SendPagerDutyAlert _ _) => "pagerduty"
  | Route.Helper _ => ""
  | Route.TelegramRpcMessage _ _ _ => "telegram"
  | Route.DiscordRpcMessage _ _ => "discord"
  end.

End Scenarios.

(** ** Predicates on the state of the monitors *)

Module Invariants.
Import Eff Alerts Instrumentation.

(** An all-offline record that the health check can have produced: it
    is offline exactly when it holds the time the outage began, and an
    alert is marked as sent only during an outage. *)
Definition offline_wf (o : OfflineState) : Prop :=
  (isOffline o = true <-> since o <> None)
  /\ (alertSent o = true -> isOffline o = true).

(** The text [`${downtime} minutes`] of an alert. *)
Definition minutes (d : Z) : string := Js.Z_to_string d +:+ " minutes".

(** What an [all_offline] alert for the endpoints [urls] looks like. *)
Definition alert_shape (urls : list string) (p : RpcAlertPayload.t) : Prop :=
  RpcAlertPayload.rpcUrl p = join urls
  /\ RpcAlertPayload.isPrimary p = true
  /\ RpcAlertPayload.failoverFrom p = None
  /\ RpcAlertPayload.failoverTo p = None
  /\ exists d, 3 <= d /\ RpcAlertPayload.downtime p = Some (minutes d).

(** A record of the missed-block tracker that the tracker can have
    produced. *)
Definition tracker_wf (st : ValidatorBlockState) : Prop :=
  0 <= consecutiveMisses st
  /\ (lastStatus st = timeout <-> 0 < consecutiveMisses st)
  /\ (alertedForMiss st = true -> lastStatus st = timeout).

(** The payloads of the validator alerts of a trace that go to the chat
    backends. *)
Definition chat_payloads (t : list Call) : list AlertPayload.t :=
  flat_map (fun c =>
    match c with
    | SendTelegramAlert _ _ payload => [payload]
    | SendDiscordAlert _ payload => [payload]
    | _ => []
    end) t.

(** An alert that reports a streak of one or more, in the member that
    goes with its type. *)
Definition counted (p : AlertPayload.t) : Prop :=
  match AlertPayload.type p with
  | missed =>
      AlertPayload.previousStreak p = None
      /\ exists n, AlertPayload.consecutiveMisses p = Some n /\ 1 <= n
  | recovered =>
      AlertPayload.consecutiveMisses p = None
      /\ exists n, AlertPayload.previousStreak p = Some n /\ 1 <= n
  end.

(** Each round differs from the one before it, the first one from
    [last]. *)
Fixpoint fresh_rounds (last : Z) (rounds : list Z) : Prop :=
  match rounds with
  | [] => True
  | r :: rest => r <> last /\ fresh_rounds r rest
  end.

(** A history answer whose latest entry is a timeout, or a finalized
    block, of round [r] with height [h]. *)
Definition timeout_at (rh : Z * option Z) : HistoryReply :=
  HistoryLatest {| round := fst rh; block_height := snd rh; status := timeout |}.

Definition finalized_at (rh : Z * option Z) : HistoryReply :=
  HistoryLatest {| round := fst rh; block_height := snd rh; status := finalized |}.




(** The result of a procedure with [f] applied to the state it ends
    in. *)
Definition on_state {St Ev A : Type} (f : St -> St) (r : A * St * list Ev)
  : A * St * list Ev :=
  (Eff.value_of r, f (Eff.state_of r), Eff.trace_of r).

End Invariants.

(** ** Sessions of the dashboard *)

Module Sessions.
Import Eff Dashboard.
Import Alerts(Network, mainnet, testnet).

Section Session.
Variable rpcConfigs : list RpcConfig.
Variable network : Network.

(** One action on the state of a network: the state and the events it
    leaves, [None] when it throws. *)
Definition act (a : Action) (s : NetState) : option (NetState * list Event) :=
  match a with
  | Poll probe =>
      let '(r, s', t) := fetchCurrentHeight rpcConfigs network probe s in
      match r with
      | Some _ => Some (s', t)
      | None => None
      end
  | Recovery probe =>
      let '(r, s', t) := checkPrimaryRecovery rpcConfigs network probe s in
      match r with
      | Some _ => Some (s', t)
      | None => None
      end
  end.

(** Any sequence of polls and recovery checks, in order. *)
Fixpoint session (actions : list Action) (s : NetState) : option (NetState * list Event) :=
  match actions with
  | [] => Some (s, [])
  | a :: rest =>
      match act a s with
      | None => None
      | Some (s1, t1) =>
          match session rest s1 with
          | None => None
          | Some (s2, t2) => Some (s2, t1 ++ t2)
          end
      end
  end.
End Session.

(** The effect of an event on what the dashboard displays. *)
Definition show {Other : Type} (e : Event) (d : Display.DashboardState Other)
  : Display.DashboardState Other :=
  match e with
  | UpdateRpcDisplayState network failedIndex newActiveIndex isRecovery =>
      Display.updateRpcDisplayState network failedIndex newActiveIndex isRecovery d
  | SendRpcAlert _ _ _ _ _ => d
  end.

Definition showAll {Other : Type} (t : list Event) (d : Display.DashboardState Other)
  : Display.DashboardState Other :=
  fold_left (fun d e => show e d) t d.

Definition rpcs_of {Other : Type} (network : Network) (d : Display.DashboardState Other)
  : list Display.RpcState :=
  match network with
  | mainnet => Display.mainnetRpcs d
  | testnet => Display.testnetRpcs d
  end.

(** The displayed list marks endpoint [i], and no other, as the one in
    use. *)
Definition marks (i : nat) (rpcs : list Display.RpcState) : Prop :=
  forall j r, rpcs !! j = Some r -> Display.isPrimary r = (j =? i)%nat.

(** Display [d'] shows the same endpoints as [d]: only the flags of the
    endpoints of [network] may differ. *)
Definition same_endpoints {Other : Type} (network : Network)
    (d d' : Display.DashboardState Other) : Prop :=
  (forall other, other <> network -> rpcs_of other d' = rpcs_of other d)
  /\ map Display.url (rpcs_of network d') = map Display.url (rpcs_of network d)
  /\ map Display.name (rpcs_of network d') = map Display.name (rpcs_of network d)
  /\ Display.others d' = Display.others d.

Definition is_alert (e : Event) : bool :=
  match e with
  | SendRpcAlert _ _ _ _ _ => true
  | UpdateRpcDisplayState _ _ _ _ => false
  end.

(** The alerts among the events. *)
Definition alerts (t : list Event) : list Event :=
  filter (fun e => is_alert e = true) t.

End Sessions.

(** * Properties *)

(** ** The monad of traces *)

Ltac eff_unfold :=
  unfold Eff.bind, Eff.ret, Eff.get, Eff.modify, Eff.emit, Eff.when, Eff.whenSome,
    Eff.state_of, Eff.value_of, Eff.trace_of in *.

(** ** Probing an endpoint *)

Example parseInt_hex : Js.parseInt (Js.VStr "0x1f") 16 = Js.Num 31.
Proof. reflexivity. Qed.

Example parseInt_hex_upper : Js.parseInt (Js.VStr "  -0XAb,") 16 = Js.Num (-171).
Proof. reflexivity. Qed.

Example parseInt_dec : Js.parseInt (Js.VStr "5") 10 = Js.Num 5.
Proof. reflexivity. Qed.

Example parseInt_dec_letters : Js.parseInt (Js.VStr "12ab") 10 = Js.Num 12.
Proof. reflexivity. Qed.

Example parseInt_num : Js.parseInt (Js.VNum 255) 16 = Js.Num 597.
Proof. reflexivity. Qed.

Example parseInt_zero : Js.parseInt (Js.VNum 0) 16 = Js.Num 0.
Proof. reflexivity. Qed.

Example parseInt_false : Js.parseInt (Js.VBool false) 16 = Js.Num 250.
Proof. reflexivity. Qed.

Example parseInt_undefined : Js.parseInt Js.VUndefined 16 = Js.NaN.
Proof. reflexivity. Qed.

Example parseInt_empty : Js.parseInt (Js.VStr "0x") 16 = Js.NaN.
Proof. reflexivity. Qed.

Section ProbeFacts.
Import Js Http.

Lemma fetchBlockHeight_failed : Api.fetchBlockHeight Failed = Num 0.
Proof. reflexivity. Qed.

Lemma fetchBlockHeight_error_status (b : body) :
  Api.fetchBlockHeight (Response false b) = Num 0.
Proof. reflexivity. Qed.

(** The health monitor's own probe guards the member before parsing it. *)
Lemma checkRpcHealth_missing_result (ok : bool) :
  Instrumentation.checkRpcHealth (Response ok (BodyData VUndefined)) = Num 0.
Proof. reflexivity. Qed.

Lemma checkRpcHealth_failed : Instrumentation.checkRpcHealth Failed = Num 0.
Proof. reflexivity. Qed.
End ProbeFacts.

(** C5. A successful answer whose body has no [result] member: the probe
    of the health monitor reads it as height 0 and [checkRpcHealth] of
    api.ts as "no result", but [fetchBlockHeight] of api.ts returns
    [parseInt(undefined, 16)], which is [NaN] and not 0. *)
Theorem fetchBlockHeight_missing_result_is_NaN :
  let answer := Http.Response true (Http.BodyData Js.VUndefined) in
  Api.fetchBlockHeight answer = Js.NaN
  /\ Api.fetchBlockHeight answer <> Js.Num 0
  /\ Instrumentation.checkRpcHealth answer = Js.Num 0
  /\ Api.checkRpcHealth answer = false.
Proof.
  cbv zeta. split; [reflexivity|]. split; [discriminate|]. split; reflexivity.
Qed.

(** ** Stale classification of an endpoint *)

Section StaleFacts.
Import Js Instrumentation Runs.

Implicit Types (heights : gmap string RpcHeight) (url : string) (h : num).

Lemma gt_irrefl h : gt h h = false.
Proof. destruct h as [|z]; simpl; [reflexivity | apply Z.ltb_irrefl]. Qed.

Lemma isRpcHealthy_zero url heights :
  isRpcHealthy url (Num 0) heights = (false, heights).
Proof. reflexivity. Qed.

Lemma isRpcHealthy_first url h heights :
  strict_eq h (Num 0) = false ->
  heights !! url = None ->
  isRpcHealthy url h heights
  = (true, <[url := {| height := h; staleCount := 0 |}]> heights).
Proof. intros Hz Hnone. unfold isRpcHealthy. rewrite Hz, Hnone. reflexivity. Qed.

Lemma isRpcHealthy_advance url h heights prev :
  strict_eq h (Num 0) = false ->
  heights !! url = Some prev ->
  gt h (height prev) = true ->
  isRpcHealthy url h heights
  = (true, <[url := {| height := h; staleCount := 0 |}]> heights).
Proof.
  intros Hz Hsome Hgt. unfold isRpcHealthy. rewrite Hz, Hsome, Hgt. reflexivity.
Qed.

Lemma isRpcHealthy_stale url h heights prev :
  strict_eq h (Num 0) = false ->
  heights !! url = Some prev ->
  gt h (height prev) = false ->
  isRpcHealthy url h heights
  = (staleCount prev + 1 <? 2,
     <[url := {| height := h; staleCount := staleCount prev + 1 |}]> heights).
Proof.
  intros Hz Hsome Hgt. unfold isRpcHealthy. rewrite Hz, Hsome, Hgt. reflexivity.
Qed.

(** A probe above the record, or the first probe, resets the record. *)
Lemma isRpcHealthy_below url h heights :
  strict_eq h (Num 0) = false ->
  below heights url h ->
  isRpcHealthy url h heights
  = (true, <[url := {| height := h; staleCount := 0 |}]> heights).
Proof.
  unfold below. intros Hz Hb.
  destruct (heights !! url) as [prev|] eqn:E.
  - eapply isRpcHealthy_advance; eauto.
  - apply isRpcHealthy_first; assumption.
Qed.

(** Along strictly increasing non-zero heights every probe is healthy
    and leaves a stale count of 0. *)
Lemma probeRun_increasing url hs :
  forall heights h0,
    below heights url h0 ->
    increasing_from h0 hs ->
    Forall (fun h => strict_eq h (Num 0) = false) (h0 :: hs) ->
    Forall (fun r => fst r = true /\ staleCount <$> snd r = Some 0)
           (probeRun url (h0 :: hs) heights).
Proof.
  induction hs as [|h1 hs IH]; intros heights h0 Hb Hinc Hnz.
  - inversion Hnz as [|? ? Hz _]; subst.
    simpl. rewrite (isRpcHealthy_below _ _ _ Hz Hb).
    constructor; [|constructor].
    simpl. rewrite lookup_insert_eq. split; reflexivity.
  - inversion Hnz as [|? ? Hz Hnz']; subst.
    destruct Hinc as [Hgt Hinc].
    change (probeRun url (h0 :: h1 :: hs) heights)
      with (let '(healthy, heights') := isRpcHealthy url h0 heights in
            (healthy, heights' !! url) :: probeRun url (h1 :: hs) heights').
    rewrite (isRpcHealthy_below _ _ _ Hz Hb).
    constructor.
    + simpl. rewrite lookup_insert_eq. split; reflexivity.
    + apply IH; try assumption.
      unfold below. rewrite lookup_insert_eq. exact Hgt.
Qed.
End StaleFacts.

(** C1, as stated, fails: on an endpoint probed for the first time, two
    consecutive probes returning the same non-zero height 100 leave it
    healthy with a stale count of 1, not unhealthy with a stale count
    of 2.  (And the strictly increasing heights 0, 5 do not keep it
    healthy throughout: the probe that returns 0 is classified
    unhealthy and records nothing.) *)
Lemma two_equal_probes_still_healthy :
  Runs.probeRun "https://rpc.monad.xyz" [Js.Num 100; Js.Num 100] ∅
  = [(true, Some {| Instrumentation.height := Js.Num 100; Instrumentation.staleCount := 0 |});
     (true, Some {| Instrumentation.height := Js.Num 100; Instrumentation.staleCount := 1 |})]
  /\ ~ (exists r,
         last (Runs.probeRun "https://rpc.monad.xyz" [Js.Num 100; Js.Num 100] ∅) = Some r
         /\ fst r = false
         /\ Instrumentation.staleCount <$> snd r = Some 2)
  /\ Runs.probeRun "https://rpc.monad.xyz" [Js.Num 0; Js.Num 5] ∅
     = [(false, None);
        (true, Some {| Instrumentation.height := Js.Num 5; Instrumentation.staleCount := 0 |})].
Proof.
  split; [reflexivity|]. split; [|reflexivity].
  intros [r [Hlast [Hunhealthy _]]].
  vm_compute in Hlast. injection Hlast as <-. discriminate Hunhealthy.
Qed.

(** C1, amended.  For an endpoint that has no record yet, or whose
    recorded height is below [h], three consecutive probes returning the
    same non-zero height [h] are classified healthy (stale count 0),
    healthy (stale count 1) and unhealthy (stale count 2): it takes two
    stale readings after the one that recorded [h].  And along non-zero
    strictly increasing heights, every probe is classified healthy and
    leaves the stale count at 0. *)
Theorem stale_classification (url : string) (heights : gmap string Instrumentation.RpcHeight) :
  (forall h,
      Js.strict_eq h (Js.Num 0) = false ->
      Runs.below heights url h ->
      Runs.probeRun url [h; h; h] heights
      = [(true, Some {| Instrumentation.height := h; Instrumentation.staleCount := 0 |});
         (true, Some {| Instrumentation.height := h; Instrumentation.staleCount := 1 |});
         (false, Some {| Instrumentation.height := h; Instrumentation.staleCount := 2 |})])
  /\ (forall h0 hs,
      Runs.below heights url h0 ->
      Runs.increasing (h0 :: hs) ->
      Forall (fun h => Js.strict_eq h (Js.Num 0) = false) (h0 :: hs) ->
      Forall (fun r => fst r = true /\ Instrumentation.staleCount <$> snd r = Some 0)
             (Runs.probeRun url (h0 :: hs) heights)).
Proof.
  split.
  - intros h Hz Hb. cbn [Runs.probeRun].
    rewrite (isRpcHealthy_below _ _ _ Hz Hb).
    erewrite isRpcHealthy_stale;
      [| assumption | apply lookup_insert_eq | apply gt_irrefl].
    erewrite isRpcHealthy_stale;
      [| assumption | apply lookup_insert_eq | apply gt_irrefl].
    cbn. rewrite !lookup_insert_eq. reflexivity.
  - intros h0 hs Hb Hinc Hnz. apply probeRun_increasing; assumption.
Qed.

Lemma stale_classification_witness :
  Runs.probeRun "https://rpc.monad.xyz" [Js.Num 7; Js.Num 7; Js.Num 7] ∅
  = [(true, Some {| Instrumentation.height := Js.Num 7; Instrumentation.staleCount := 0 |});
     (true, Some {| Instrumentation.height := Js.Num 7; Instrumentation.staleCount := 1 |});
     (false, Some {| Instrumentation.height := Js.Num 7; Instrumentation.staleCount := 2 |})]
  /\ Forall (fun r => fst r = true /\ Instrumentation.staleCount <$> snd r = Some 0)
            (Runs.probeRun "https://rpc.monad.xyz" [Js.Num 7; Js.Num 8; Js.Num 12] ∅).
Proof.
  split.
  - apply (proj1 (stale_classification "https://rpc.monad.xyz" ∅) (Js.Num 7)).
    + reflexivity.
    + exact I.
  - apply (proj2 (stale_classification "https://rpc.monad.xyz" ∅) (Js.Num 7)
             [Js.Num 8; Js.Num 12]).
    + exact I.
    + simpl. repeat split.
    + repeat constructor.
Defined.

(** ** The record of an endpoint across probes *)

(** C6, as stated, fails: a probe returning height 0 does not touch the
    record.  With a record of height 100 and stale count 0, the probe
    leaves the map as it is: the record still holds height 100 and
    stale count 0, which was not incremented to 1 although the probed
    height does not exceed 100. *)
Lemma zero_probe_keeps_record :
  let heights : gmap string Instrumentation.RpcHeight :=
    {[ "https://rpc.monad.xyz" :=
         {| Instrumentation.height := Js.Num 100; Instrumentation.staleCount := 0 |} ]} in
  let after := snd (Instrumentation.isRpcHealthy "https://rpc.monad.xyz" (Js.Num 0) heights) in
  Js.gt (Js.Num 0) (Js.Num 100) = false
  /\ after = heights
  /\ after !! "https://rpc.monad.xyz"
     = Some {| Instrumentation.height := Js.Num 100; Instrumentation.staleCount := 0 |}
  /\ Instrumentation.staleCount <$> after !! "https://rpc.monad.xyz" <> Some (0 + 1).
Proof.
  cbv zeta. split; [reflexivity|]. split; [reflexivity|].
  cbn [Instrumentation.isRpcHealthy Js.strict_eq Z.eqb snd].
  rewrite lookup_singleton_eq. split; [reflexivity | discriminate].
Qed.

(** C6, amended.  For an endpoint with a record [prev]: a probe
    returning height 0 leaves the whole map unchanged; every other probe
    replaces the record by one holding the probed height, with stale
    count 0 when that height strictly exceeds the previous one and the
    previous stale count plus 1 otherwise (so, stale counts being
    non-negative, the new count is 0 exactly when the height strictly
    increased), and touches the record of no other endpoint. *)
Theorem record_update (url : string) (heights : gmap string Instrumentation.RpcHeight)
    (prev : Instrumentation.RpcHeight) (h : Js.num) :
  heights !! url = Some prev ->
  0 <= Instrumentation.staleCount prev ->
  let after := snd (Instrumentation.isRpcHealthy url h heights) in
  (Js.strict_eq h (Js.Num 0) = true -> after = heights)
  /\ (Js.strict_eq h (Js.Num 0) = false ->
      exists rec,
        after !! url = Some rec
        /\ Instrumentation.height rec = h
        /\ Instrumentation.staleCount rec
           = (if Js.gt h (Instrumentation.height prev) then 0
              else Instrumentation.staleCount prev + 1)
        /\ (Instrumentation.staleCount rec = 0
            <-> Js.gt h (Instrumentation.height prev) = true)
        /\ forall other, other <> url -> after !! other = heights !! other).
Proof.
  intros Hprev Hnonneg after. subst after. split.
  - intros Hz. unfold Instrumentation.isRpcHealthy. rewrite Hz. reflexivity.
  - intros Hz. unfold Instrumentation.isRpcHealthy. rewrite Hz, Hprev.
    destruct (Js.gt h (Instrumentation.height prev)) eqn:Hgt; cbn [snd].
    + eexists. split; [apply lookup_insert_eq|]. cbn.
      repeat split; try reflexivity.
      intros other Hne. apply lookup_insert_ne. congruence.
    + eexists. split; [apply lookup_insert_eq|]. cbn.
      split; [reflexivity|]. split; [reflexivity|]. split.
      * split; [lia | discriminate].
      * intros other Hne. apply lookup_insert_ne. congruence.
Qed.

Lemma record_update_witness :
  let heights : gmap string Instrumentation.RpcHeight :=
    {[ "https://rpc.monad.xyz" :=
         {| Instrumentation.height := Js.Num 100; Instrumentation.staleCount := 0 |} ]} in
  let after := snd (Instrumentation.isRpcHealthy "https://rpc.monad.xyz" (Js.Num 100) heights) in
  (Js.strict_eq (Js.Num 100) (Js.Num 0) = true -> after = heights)
  /\ (Js.strict_eq (Js.Num 100) (Js.Num 0) = false ->
      exists rec,
        after !! "https://rpc.monad.xyz" = Some rec
        /\ Instrumentation.height rec = Js.Num 100
        /\ Instrumentation.staleCount rec
           = (if Js.gt (Js.Num 100) (Js.Num 100) then 0 else 0 + 1)
        /\ (Instrumentation.staleCount rec = 0 <-> Js.gt (Js.Num 100) (Js.Num 100) = true)
        /\ forall other, other <> "https://rpc.monad.xyz" ->
             after !! other = heights !! other).
Proof.
  intros heights.
  apply (record_update "https://rpc.monad.xyz" heights
           {| Instrumentation.height := Js.Num 100; Instrumentation.staleCount := 0 |}
           (Js.Num 100)).
  - apply lookup_singleton_eq.
  - simpl. lia.
Defined.

(** ** The dispatchers *)

Section DispatcherLaws.
Import Alerts Runs.

Context {St : Type} (d : Dispatcher St).

(** A missed event adds one to the count, and pages exactly when the
    count reaches 5 with the guard down, raising the guard. *)
Hypothesis missed_law : forall height round s,
  let '(s', t) := on_missed d height round s in
  misses_of d s' = misses_of d s + 1
  /\ triggered_of d s' = (triggered_of d s || (5 <=? misses_of d s + 1))%bool
  /\ pagerduty_actions t
     = if (negb (triggered_of d s) && (5 <=? misses_of d s + 1))%bool
       then [trigger] else [].

(** A recovery after misses clears the count and the guard, and
    resolves exactly when the guard was up. *)
Hypothesis recovered_law : forall height round s,
  0 < misses_of d s ->
  let '(s', t) := on_recovered d height round s in
  misses_of d s' = 0
  /\ triggered_of d s' = false
  /\ pagerduty_actions t = if triggered_of d s then [resolve] else [].

Lemma pagerduty_actions_app (t1 t2 : list Call) :
  pagerduty_actions (t1 ++ t2) = pagerduty_actions t1 ++ pagerduty_actions t2.
Proof. unfold pagerduty_actions. apply flat_map_app. Qed.

(** Misses that keep the count below 5 page nobody. *)
Lemma missRun_below blocks : forall s,
  triggered_of d s = false ->
  misses_of d s + Z.of_nat (length blocks) < 5 ->
  let '(s', t) := missRun d blocks s in
  misses_of d s' = misses_of d s + Z.of_nat (length blocks)
  /\ triggered_of d s' = false
  /\ pagerduty_actions t = [].
Proof.
  induction blocks as [|[height round] rest IH]; intros s Hguard Hlt.
  - cbn [missRun length]. split; [lia|]. split; [assumption | reflexivity].
  - cbn [missRun].
    pose proof (missed_law height round s) as Hm.
    destruct (on_missed d height round s) as [s1 t1].
    destruct Hm as (Hc & Hg & Ht).
    cbn [length] in Hlt.
    assert (Hno : (5 <=? misses_of d s + 1) = false) by (apply Z.leb_gt; lia).
    rewrite Hguard, Hno in Hg, Ht. cbn in Hg, Ht.
    specialize (IH s1 Hg).
    destruct (missRun d rest s1) as [s2 t2].
    destruct IH as (Hc2 & Hg2 & Ht2); [lia|].
    rewrite pagerduty_actions_app, Ht, Ht2.
    repeat split; [|assumption]. cbn [length]. lia.
Qed.

Lemma escalation_from_laws (s0 : St) :
  misses_of d s0 = 0 ->
  triggered_of d s0 = false ->
  escalation d s0.
Proof.
  intros Hc0 Hg0 first4 fifth recovery later Hlen4 Hlater.
  pose proof (missRun_below first4 s0 Hg0) as H4.
  destruct (missRun d first4 s0) as [s4 t4].
  destruct H4 as (Hc4 & Hg4 & Ht4); [lia|].
  pose proof (missed_law (fst fifth) (snd fifth) s4) as H5.
  destruct (on_missed d (fst fifth) (snd fifth) s4) as [s5 t5].
  destruct H5 as (Hc5 & Hg5 & Ht5).
  assert (Hyes : (5 <=? misses_of d s4 + 1) = true) by (apply Z.leb_le; lia).
  rewrite Hg4, Hyes in Hg5, Ht5. cbn in Hg5, Ht5.
  pose proof (recovered_law (fst recovery) (snd recovery) s5) as H6.
  destruct (on_recovered d (fst recovery) (snd recovery) s5) as [s6 t6].
  destruct H6 as (Hc6 & Hg6 & Ht6); [lia|].
  rewrite Hg5 in Ht6.
  pose proof (missRun_below later s6 Hg6) as H7.
  destruct (missRun d later s6) as [s7 t7].
  destruct H7 as (_ & _ & Ht7); [lia|].
  repeat split; assumption.
Qed.
End DispatcherLaws.

Ltac eff_cases :=
  eff_unfold; cbn in *;
  repeat (case_match; eff_unfold; cbn in *; simplify_eq);
  try reflexivity; try congruence.

Section DispatcherEquations.
Import Alerts Runs.

(** [handleMissedBlock] as one state update and one list of calls. *)
Lemma handleMissedBlock_eq config validator network height round am :
  let key := getKey validator network in
  let misses := get_or_0 (consecutiveMisses am) key + 1 in
  let payload :=
    AlertPayload.mk validator network height round missed (Some misses) None in
  let page :=
    pages (threshold <$> am_pagerduty config) misses
          (get_flag (pagerdutyTriggered am) key) in
  handleMissedBlock config validator network height round am
  = (tt,
     {| consecutiveMisses := <[key := misses]> (consecutiveMisses am);
        pagerdutyTriggered :=
          if page then <[key := true]> (pagerdutyTriggered am)
          else pagerdutyTriggered am |},
     chat_calls (am_telegram config) (am_discord config) payload
     ++ pagerduty_call page (routingKey <$> am_pagerduty config) payload).
Proof.
  intros key misses payload page. subst key misses payload page.
  unfold handleMissedBlock, pages, pagerduty_call, chat_calls.
  destruct (am_pagerduty config) as [pd|]; cbn [fmap option_fmap option_map];
    eff_cases.
Qed.

(** [handleRecovery] likewise. *)
Lemma handleRecovery_eq config validator network height round am :
  let key := getKey validator network in
  let previousStreak := get_or_0 (consecutiveMisses am) key in
  let payload :=
    AlertPayload.mk validator network height round recovered None (Some previousStreak) in
  let resolve := resolves (am_pagerduty config) (get_flag (pagerdutyTriggered am) key) in
  handleRecovery config validator network height round am
  = if 0 <? previousStreak then
      (tt,
       {| consecutiveMisses := <[key := 0]> (consecutiveMisses am);
          pagerdutyTriggered :=
            if resolve then <[key := false]> (pagerdutyTriggered am)
            else pagerdutyTriggered am |},
       pagerduty_call resolve (routingKey <$> am_pagerduty config) payload)
    else (tt, am, []).
Proof.
  intros key previousStreak payload resolve. subst key previousStreak payload resolve.
  unfold handleRecovery, resolves, pagerduty_call.
  destruct (am_pagerduty config) as [pd|]; cbn [fmap option_fmap option_map];
    eff_cases.
Qed.

(** The validator branch of [POST]: its state update and the helper
    calls it makes. *)
Lemma POST_validator_eq env ok validator network height round type claimed s :
  let key := getKey validator network in
  let misses := get_or_0 (Route.consecutiveMisses s) key + 1 in
  let count := match type with missed => Some misses | recovered => claimed end in
  let payload := AlertPayload.mk validator network height round type count None in
  let guard := get_flag (Route.pagerdutyTriggered s) key in
  let pagerdutyKey := Route.env_value (Route.PAGERDUTY_ROUTING_KEY env) in
  let page :=
    match type with
    | missed => pages (Some (Route.threshold env)) misses guard
    | recovered => guard
    end in
  let r :=
    Route.POST env ok
      (Some (Route.ValidatorAlert
               (Route.ValidatorAlertRequest.mk validator network height round type claimed)))
      s in
  Eff.state_of r
  = {| Route.consecutiveMisses :=
         <[key := match type with missed => misses | recovered => 0 end]>
           (Route.consecutiveMisses s);
       Route.pagerdutyTriggered :=
         if resolves pagerdutyKey page
         then <[key := match type with missed => true | recovered => false end]>
                (Route.pagerdutyTriggered s)
         else Route.pagerdutyTriggered s |}
  /\ helper_calls (Eff.trace_of r)
     = chat_calls (route_telegram env) (route_discord env) payload
       ++ pagerduty_call page pagerdutyKey payload.
Proof.
  intros key misses count payload guard pagerdutyKey page r.
  subst key misses count payload guard pagerdutyKey page r.
  unfold Route.POST, Route.POST_validator, Route.attempt, pages, resolves,
    pagerduty_call, chat_calls, route_telegram, route_discord, getKey.
  cbn [Route.ValidatorAlertRequest.validator Route.ValidatorAlertRequest.network
       Route.ValidatorAlertRequest.height Route.ValidatorAlertRequest.round
       Route.ValidatorAlertRequest.type Route.ValidatorAlertRequest.consecutiveMisses].
  destruct type;
    destruct (Route.env_value (Route.TELEGRAM_BOT_TOKEN env)),
             (Route.env_value (Route.TELEGRAM_CHAT_ID env)),
             (Route.env_value (Route.DISCORD_WEBHOOK_URL env)),
             (Route.env_value (Route.PAGERDUTY_ROUTING_KEY env));
    eff_cases; split; reflexivity.
Qed.
End DispatcherEquations.

Section DispatcherInstances.
Import Alerts Runs.

Lemma get_or_0_insert (m : gmap string Z) (key : string) (v : Z) :
  get_or_0 (<[key := v]> m) key = v.
Proof. unfold get_or_0. rewrite lookup_insert_eq. reflexivity. Qed.

Lemma get_flag_insert (m : gmap string bool) (key : string) (v : bool) :
  get_flag (<[key := v]> m) key = v.
Proof. unfold get_flag. rewrite lookup_insert_eq. reflexivity. Qed.

(** What [sendPagerDutyAlert] posts for a call: with a routing key, the
    action of the call under the dedup key of the validator. *)
Lemma sendPagerDutyAlert_event_action k payload :
  Js.truthy_str k = true ->
  fst <$> sendPagerDutyAlert_event k payload = Some (event_action payload).
Proof. unfold sendPagerDutyAlert_event. intros ->. reflexivity. Qed.

Lemma pagerduty_actions_chat_calls tg dc payload :
  pagerduty_actions (chat_calls tg dc payload) = [].
Proof. destruct tg, dc; reflexivity. Qed.

Lemma pagerduty_actions_call b k payload :
  pagerduty_actions (pagerduty_call b (Some k) payload)
  = if b then [event_action payload] else [].
Proof. destruct b; reflexivity. Qed.

Section Manager.
Variables (config : AlertManagerConfig) (pd : PagerDutyConfig).
Variables (validator : string) (network : Network).
Hypothesis Hpd : am_pagerduty config = Some pd.
Hypothesis Hthreshold : threshold pd = Js.Num 5.

Lemma manager_missed_law height round am :
  let d := manager config validator network in
  let '(am', t) := on_missed d height round am in
  misses_of d am' = misses_of d am + 1
  /\ triggered_of d am' = (triggered_of d am || (5 <=? misses_of d am + 1))%bool
  /\ pagerduty_actions t
     = if (negb (triggered_of d am) && (5 <=? misses_of d am + 1))%bool
       then [trigger] else [].
Proof.
  cbn [manager on_missed misses_of triggered_of].
  rewrite handleMissedBlock_eq.
  cbn [consecutiveMisses pagerdutyTriggered].
  rewrite Hpd. cbn [fmap option_fmap option_map]. unfold pages.
  rewrite Hthreshold. cbn [Js.ge].
  rewrite get_or_0_insert, pagerduty_actions_app, pagerduty_actions_chat_calls,
    pagerduty_actions_call.
  destruct (5 <=? _), (get_flag (pagerdutyTriggered am) _) eqn:Hflag; cbn;
    rewrite ?get_flag_insert, ?Hflag; repeat split; reflexivity.
Qed.

Lemma manager_recovered_law height round am :
  let d := manager config validator network in
  0 < misses_of d am ->
  let '(am', t) := on_recovered d height round am in
  misses_of d am' = 0
  /\ triggered_of d am' = false
  /\ pagerduty_actions t = if triggered_of d am then [resolve] else [].
Proof.
  cbn [manager on_recovered misses_of triggered_of]. intros Hpos.
  apply Z.ltb_lt in Hpos.
  rewrite handleRecovery_eq, Hpos.
  cbn [consecutiveMisses pagerdutyTriggered].
  rewrite Hpd. cbn [fmap option_fmap option_map resolves].
  rewrite get_or_0_insert, pagerduty_actions_call.
  destruct (get_flag (pagerdutyTriggered am) _) eqn:Hflag; cbn;
    rewrite ?get_flag_insert, ?Hflag; repeat split; reflexivity.
Qed.
End Manager.

Section RouteHandler.
Variables (env : Route.Env) (ok : Route.Event -> bool) (claimed : option Z).
Variables (validator : string) (network : Network) (pagerdutyKey : string).
Hypothesis Hkey : Route.env_value (Route.PAGERDUTY_ROUTING_KEY env) = Some pagerdutyKey.
Hypothesis Hthreshold : Route.threshold env = Js.Num 5.

Lemma route_missed_law height round s :
  let d := route env ok claimed validator network in
  let '(s', t) := on_missed d height round s in
  misses_of d s' = misses_of d s + 1
  /\ triggered_of d s' = (triggered_of d s || (5 <=? misses_of d s + 1))%bool
  /\ pagerduty_actions t
     = if (negb (triggered_of d s) && (5 <=? misses_of d s + 1))%bool
       then [trigger] else [].
Proof.
  cbn [route on_missed misses_of triggered_of].
  pose proof (POST_validator_eq env ok validator network height round missed claimed s)
    as Heq.
  cbv zeta in Heq.
  destruct (Route.POST _ _ _ s) as [[reply s'] t].
  unfold Eff.state_of, Eff.trace_of in Heq. cbn [fst snd] in Heq.
  destruct Heq as [-> ->].
  cbn [Route.consecutiveMisses Route.pagerdutyTriggered].
  rewrite Hkey, Hthreshold. unfold pages. cbn [Js.ge resolves].
  rewrite get_or_0_insert, pagerduty_actions_app, pagerduty_actions_chat_calls,
    pagerduty_actions_call.
  destruct (5 <=? _), (get_flag (Route.pagerdutyTriggered s) _) eqn:Hflag; cbn;
    rewrite ?get_flag_insert, ?Hflag; repeat split; reflexivity.
Qed.

Lemma route_recovered_law height round s :
  let d := route env ok claimed validator network in
  0 < misses_of d s ->
  let '(s', t) := on_recovered d height round s in
  misses_of d s' = 0
  /\ triggered_of d s' = false
  /\ pagerduty_actions t = if triggered_of d s then [resolve] else [].
Proof.
  cbn [route on_recovered misses_of triggered_of]. intros _.
  pose proof (POST_validator_eq env ok validator network height round recovered claimed s)
    as Heq.
  cbv zeta in Heq.
  destruct (Route.POST _ _ _ s) as [[reply s'] t].
  unfold Eff.state_of, Eff.trace_of in Heq. cbn [fst snd] in Heq.
  destruct Heq as [-> ->].
  cbn [Route.consecutiveMisses Route.pagerdutyTriggered].
  rewrite Hkey. cbn [resolves].
  rewrite get_or_0_insert, pagerduty_actions_app, pagerduty_actions_chat_calls,
    pagerduty_actions_call.
  destruct (get_flag (Route.pagerdutyTriggered s) _) eqn:Hflag; cbn;
    rewrite ?get_flag_insert, ?Hflag; repeat split; reflexivity.
Qed.
End RouteHandler.
End DispatcherInstances.

(** C8. With a PagerDuty threshold of 5, in both dispatchers and for any
    validator and network whose count is zero (or absent) and whose guard
    is down: misses 1 to 4 make no PagerDuty call, the fifth makes exactly
    one, a trigger; the recovery that follows makes exactly one, a
    resolve, and lowers the guard; and up to four further misses make
    none. *)
Theorem pagerduty_escalation :
  (forall config pd validator network am,
      Alerts.am_pagerduty config = Some pd ->
      Alerts.threshold pd = Js.Num 5 ->
      Runs.misses_of (Runs.manager config validator network) am = 0 ->
      Runs.triggered_of (Runs.manager config validator network) am = false ->
      Runs.escalation (Runs.manager config validator network) am)
  /\ (forall env ok claimed validator network pagerdutyKey s,
      Route.env_value (Route.PAGERDUTY_ROUTING_KEY env) = Some pagerdutyKey ->
      Route.threshold env = Js.Num 5 ->
      Runs.misses_of (Runs.route env ok claimed validator network) s = 0 ->
      Runs.triggered_of (Runs.route env ok claimed validator network) s = false ->
      Runs.escalation (Runs.route env ok claimed validator network) s).
Proof.
  split.
  - intros config pd validator network am Hpd Hth Hc Hg.
    apply escalation_from_laws; try assumption.
    + intros height round s. apply (manager_missed_law config pd); assumption.
    + intros height round s. apply (manager_recovered_law config pd); assumption.
  - intros env ok claimed validator network pagerdutyKey s Hkey Hth Hc Hg.
    apply escalation_from_laws; try assumption.
    + intros height round s'. apply (route_missed_law env ok claimed _ _ pagerdutyKey);
        assumption.
    + intros height round s'. apply (route_recovered_law env ok claimed _ _ pagerdutyKey);
        assumption.
Qed.

Lemma pagerduty_escalation_witness :
  Runs.escalation
    (Runs.manager
       {| Alerts.am_telegram := None; Alerts.am_discord := None;
          Alerts.am_pagerduty :=
            Some {| Alerts.routingKey := "R0UT1NGKEY"; Alerts.threshold := Js.Num 5 |} |}
       "validator-1" Alerts.mainnet)
    {| Alerts.consecutiveMisses := ∅; Alerts.pagerdutyTriggered := ∅ |}
  /\ Runs.escalation
       (Runs.route
          {| Route.TELEGRAM_BOT_TOKEN := None; Route.TELEGRAM_CHAT_ID := None;
             Route.DISCORD_WEBHOOK_URL := None;
             Route.PAGERDUTY_ROUTING_KEY := Some "R0UT1NGKEY";
             Route.PAGERDUTY_THRESHOLD := None |}
          (fun _ => true) None "validator-1" Alerts.mainnet)
       {| Route.consecutiveMisses := ∅; Route.pagerdutyTriggered := ∅ |}.
Proof.
  split.
  - eapply (proj1 pagerduty_escalation); reflexivity.
  - eapply (proj2 pagerduty_escalation); reflexivity.
Defined.

(** The escalation scenario run on the class with paging alone
    configured: the calls of each stage, a sixth miss included. *)
Example escalation_trace :
  let config :=
    {| Alerts.am_telegram := None; Alerts.am_discord := None;
       Alerts.am_pagerduty :=
         Some {| Alerts.routingKey := "R0UT1NGKEY"; Alerts.threshold := Js.Num 5 |} |} in
  let d := Runs.manager config "validator-1" Alerts.mainnet in
  let s0 := {| Alerts.consecutiveMisses := ∅; Alerts.pagerdutyTriggered := ∅ |} in
  let '(s4, t4) := Runs.missRun d [(Some 10, 1); (Some 11, 2); (None, 3); (Some 13, 4)] s0 in
  let '(s5, t5) := Runs.on_missed d (Some 14) 5 s4 in
  let '(s6, t6) := Runs.on_missed d (Some 15) 6 s5 in
  let '(s7, t7) := Runs.on_recovered d (Some 16) 7 s6 in
  t4 = []
  /\ t5 = [Alerts.SendPagerDutyAlert "R0UT1NGKEY"
             (Alerts.AlertPayload.mk "validator-1" Alerts.mainnet (Some 14) 5
                Alerts.missed (Some 5) None)]
  /\ t6 = []
  /\ t7 = [Alerts.SendPagerDutyAlert "R0UT1NGKEY"
             (Alerts.AlertPayload.mk "validator-1" Alerts.mainnet (Some 16) 7
                Alerts.recovered None (Some 6))].
Proof. vm_compute. repeat split. Qed.

(** ** The recovery handler of the class *)

(** C10. When the consecutive-miss count recorded for the key is zero or
    absent, [handleRecovery] makes no call and returns the state it was
    given: both maps are unchanged at every key. *)
Theorem handleRecovery_without_misses
    (config : Alerts.AlertManagerConfig) (validator : string) (network : Alerts.Network)
    (height : option Z) (round : Z) (am : Alerts.AlertManager) :
  Alerts.consecutiveMisses am !! Alerts.getKey validator network = None
  \/ Alerts.consecutiveMisses am !! Alerts.getKey validator network = Some 0 ->
  Alerts.handleRecovery config validator network height round am = (tt, am, []).
Proof.
  intros Hcount. rewrite handleRecovery_eq. unfold Alerts.get_or_0.
  destruct Hcount as [-> | ->]; reflexivity.
Qed.

Lemma handleRecovery_without_misses_witness :
  Alerts.handleRecovery
    {| Alerts.am_telegram := Some {| Alerts.botToken := "T0KEN"; Alerts.chatId := "42" |};
       Alerts.am_discord := None;
       Alerts.am_pagerduty :=
         Some {| Alerts.routingKey := "R0UT1NGKEY"; Alerts.threshold := Js.Num 5 |} |}
    "validator-1" Alerts.testnet (Some 100) 7
    {| Alerts.consecutiveMisses := {[ "validator-1-testnet" := 0 ]};
       Alerts.pagerdutyTriggered := {[ "validator-2-testnet" := true ]} |}
  = (tt,
     {| Alerts.consecutiveMisses := {[ "validator-1-testnet" := 0 ]};
        Alerts.pagerdutyTriggered := {[ "validator-2-testnet" := true ]} |},
     []).
Proof.
  apply handleRecovery_without_misses. right. reflexivity.
Defined.

(** The recovery handler of the class makes no call but to PagerDuty. *)
Lemma handleRecovery_only_pages config validator network height round am :
  Forall (fun c => exists k payload, c = Alerts.SendPagerDutyAlert k payload)
         (Eff.trace_of (Alerts.handleRecovery config validator network height round am)).
Proof.
  rewrite handleRecovery_eq. cbv zeta.
  destruct (0 <? _); [|constructor].
  unfold Eff.trace_of, Runs.pagerduty_call. cbn [snd].
  destruct (Alerts.am_pagerduty config) as [pd|]; cbn; [|constructor].
  destruct (Alerts.get_flag _ _); repeat constructor. eauto.
Qed.

(** The handler of route.ts delivers every recovered event to the chat
    backends found in its environment. *)
Lemma POST_recovered_reaches_chat env ok validator network height round claimed s :
  exists rest,
    Runs.helper_calls
      (Eff.trace_of
         (Route.POST env ok
            (Some (Route.ValidatorAlert
                     (Route.ValidatorAlertRequest.mk validator network height round
                        Alerts.recovered claimed))) s))
    = Runs.chat_calls (Runs.route_telegram env) (Runs.route_discord env)
        (Alerts.AlertPayload.mk validator network height round Alerts.recovered claimed None)
      ++ rest.
Proof.
  eexists. apply (POST_validator_eq env ok validator network height round Alerts.recovered).
Qed.

(** C4.  A recovered event after two misses, with Telegram, Discord and
    PagerDuty all configured: [AlertManager.handleRecovery] clears the
    count and calls neither chat backend (its trace is empty), while the
    handler of route.ts, given the same event and the same backends,
    calls both. *)
Theorem handleRecovery_skips_chat_backends :
  let tg := {| Alerts.botToken := "T0KEN"; Alerts.chatId := "42" |} in
  let dc := {| Alerts.webhookUrl := "https://discord.example/hook" |} in
  let config :=
    {| Alerts.am_telegram := Some tg; Alerts.am_discord := Some dc;
       Alerts.am_pagerduty :=
         Some {| Alerts.routingKey := "R0UT1NGKEY"; Alerts.threshold := Js.Num 5 |} |} in
  let env :=
    {| Route.TELEGRAM_BOT_TOKEN := Some "T0KEN"; Route.TELEGRAM_CHAT_ID := Some "42";
       Route.DISCORD_WEBHOOK_URL := Some "https://discord.example/hook";
       Route.PAGERDUTY_ROUTING_KEY := Some "R0UT1NGKEY";
       Route.PAGERDUTY_THRESHOLD := Some "5" |} in
  Alerts.handleRecovery config "validator-1" Alerts.mainnet (Some 100) 7
    {| Alerts.consecutiveMisses := {[ "validator-1-mainnet" := 2 ]};
       Alerts.pagerdutyTriggered := ∅ |}
  = (tt,
     {| Alerts.consecutiveMisses := {[ "validator-1-mainnet" := 0 ]};
        Alerts.pagerdutyTriggered := ∅ |},
     [])
  /\ Runs.helper_calls
       (Eff.trace_of
          (Route.POST env (fun _ => true)
             (Some (Route.ValidatorAlert
                      (Route.ValidatorAlertRequest.mk "validator-1" Alerts.mainnet
                         (Some 100) 7 Alerts.recovered None)))
             {| Route.consecutiveMisses := {[ "validator-1-mainnet" := 2 ]};
                Route.pagerdutyTriggered := ∅ |}))
     = [Alerts.SendTelegramAlert "T0KEN" "42"
          (Alerts.AlertPayload.mk "validator-1" Alerts.mainnet (Some 100) 7
             Alerts.recovered None None);
        Alerts.SendDiscordAlert "https://discord.example/hook"
          (Alerts.AlertPayload.mk "validator-1" Alerts.mainnet (Some 100) 7
             Alerts.recovered None None)].
Proof.
  split.
  - rewrite handleRecovery_eq. cbn. rewrite insert_singleton_eq. reflexivity.
  - reflexivity.
Qed.

(** ** The missed-block tracker *)

Section TrackerFacts.
Import Alerts Instrumentation Runs.

Variables (validatorId : string) (network : Network) (validatorName : string).
Variable config : AlertConfig.

Let key : string := validatorId +:+ "-" +:+ network_string network.

Let check (reply : HistoryReply) (s : State) : unit * State * list Call :=
  checkValidatorMissedBlocks validatorId network validatorName reply s.

Lemma sendAlerts_eq payload s :
  sendAlerts config payload s
  = (tt, s, chat_calls (telegram (targets config)) (discord (targets config)) payload).
Proof.
  unfold sendAlerts, chat_calls.
  destruct (telegram (targets config)), (discord (targets config)); reflexivity.
Qed.

(** First observation of a key: the state is seeded, no alert is sent. *)
Lemma check_seed s latest :
  cachedConfig s = Some config ->
  validatorBlockStates s !! key = None ->
  check (HistoryLatest latest) s
  = (tt,
     set_validatorBlockStates (insert key
       {| lastRound := round latest;
          lastStatus := status latest;
          consecutiveMisses := if is_timeout (status latest) then 1 else 0;
          alertedForMiss := false |}) s,
     [ConsoleLog (LogSeed (is_timeout (status latest)) (round latest))]).
Proof.
  intros Hcfg Hnone. subst check key. cbv beta.
  unfold checkValidatorMissedBlocks. eff_unfold. rewrite Hcfg, Hnone. reflexivity.
Qed.

(** The latest round is the one already seen: nothing happens. *)
Lemma check_same_round s prev latest :
  cachedConfig s = Some config ->
  validatorBlockStates s !! key = Some prev ->
  round latest = lastRound prev ->
  check (HistoryLatest latest) s = (tt, s, []).
Proof.
  intros Hcfg Hprev Hround. subst check key. cbv beta.
  unfold checkValidatorMissedBlocks. eff_unfold. rewrite Hcfg, Hprev, Hround, Z.eqb_refl.
  reflexivity.
Qed.

(** A new round that timed out. *)
Lemma check_missed s prev latest :
  cachedConfig s = Some config ->
  validatorBlockStates s !! key = Some prev ->
  round latest <> lastRound prev ->
  status latest = timeout ->
  check (HistoryLatest latest) s
  = (tt,
     set_validatorBlockStates (insert key
       {| lastRound := round latest;
          lastStatus := timeout;
          consecutiveMisses := consecutiveMisses prev + 1;
          alertedForMiss := true |}) s,
     ConsoleLog (LogMissed (round latest) (consecutiveMisses prev + 1))
     :: chat_calls (telegram (targets config)) (discord (targets config))
          (AlertPayload.mk validatorName network (block_height latest) (round latest)
             missed (Some (consecutiveMisses prev + 1)) None)).
Proof.
  intros Hcfg Hprev Hround Hstatus. subst check key. cbv beta.
  unfold checkValidatorMissedBlocks.
  apply Z.eqb_neq in Hround.
  unfold Eff.bind at 1. unfold Eff.get at 1. rewrite Hcfg, Hprev, Hround, Hstatus.
  cbn [is_timeout]. unfold Eff.bind, Eff.modify, Eff.emit.
  rewrite sendAlerts_eq. reflexivity.
Qed.

(** A new round that was finalized, after alerted misses. *)
Lemma check_recovered s prev latest :
  cachedConfig s = Some config ->
  validatorBlockStates s !! key = Some prev ->
  round latest <> lastRound prev ->
  status latest = finalized ->
  0 < consecutiveMisses prev ->
  alertedForMiss prev = true ->
  check (HistoryLatest latest) s
  = (tt,
     set_validatorBlockStates (insert key
       {| lastRound := round latest;
          lastStatus := finalized;
          consecutiveMisses := 0;
          alertedForMiss := false |}) s,
     ConsoleLog (LogRecovered (round latest) (consecutiveMisses prev))
     :: chat_calls (telegram (targets config)) (discord (targets config))
          (AlertPayload.mk validatorName network (block_height latest) (round latest)
             recovered None (Some (consecutiveMisses prev)))).
Proof.
  intros Hcfg Hprev Hround Hstatus Hpos Halerted. subst check key. cbv beta.
  unfold checkValidatorMissedBlocks.
  apply Z.eqb_neq in Hround. apply Z.ltb_lt in Hpos.
  unfold Eff.bind at 1. unfold Eff.get at 1.
  rewrite Hcfg, Hprev, Hround, Hstatus, Hpos, Halerted.
  cbn [is_timeout andb]. unfold Eff.bind, Eff.modify, Eff.emit.
  rewrite sendAlerts_eq. reflexivity.
Qed.

(** A new round that was finalized, with no alerted miss before it. *)
Lemma check_finalized s prev latest :
  cachedConfig s = Some config ->
  validatorBlockStates s !! key = Some prev ->
  round latest <> lastRound prev ->
  status latest = finalized ->
  (0 <? consecutiveMisses prev) && alertedForMiss prev = false ->
  check (HistoryLatest latest) s
  = (tt,
     set_validatorBlockStates (insert key
       {| lastRound := round latest;
          lastStatus := finalized;
          consecutiveMisses := 0;
          alertedForMiss := false |}) s,
     [ConsoleLog (LogFinalized (round latest))]).
Proof.
  intros Hcfg Hprev Hround Hstatus Hno. subst check key. cbv beta.
  unfold checkValidatorMissedBlocks.
  apply Z.eqb_neq in Hround.
  unfold Eff.bind at 1. unfold Eff.get at 1.
  rewrite Hcfg, Hprev, Hround, Hstatus, Hno.
  reflexivity.
Qed.

(** After any observation of a latest entry, the key is recorded with
    the round of that entry. *)
Lemma check_records_round s latest :
  cachedConfig s = Some config ->
  let s1 := Eff.state_of (check (HistoryLatest latest) s) in
  cachedConfig s1 = Some config
  /\ exists st, validatorBlockStates s1 !! key = Some st /\ lastRound st = round latest.
Proof.
  intros Hcfg.
  destruct (validatorBlockStates s !! key) as [prev|] eqn:Hprev.
  - destruct (Z.eq_dec (round latest) (lastRound prev)) as [Heq|Hne].
    + rewrite (check_same_round s prev latest Hcfg Hprev Heq). cbn.
      split; [assumption|]. eauto.
    + destruct (status latest) eqn:Hstatus.
      * destruct ((0 <? consecutiveMisses prev) && alertedForMiss prev) eqn:Hhad.
        -- apply andb_true_iff in Hhad. destruct Hhad as [Hpos Hal].
           apply Z.ltb_lt in Hpos.
           rewrite (check_recovered s prev latest Hcfg Hprev Hne Hstatus Hpos Hal). cbn.
           split; [assumption|]. rewrite lookup_insert_eq. eauto.
        -- rewrite (check_finalized s prev latest Hcfg Hprev Hne Hstatus Hhad). cbn.
           split; [assumption|]. rewrite lookup_insert_eq. eauto.
      * rewrite (check_missed s prev latest Hcfg Hprev Hne Hstatus). cbn.
        split; [assumption|]. rewrite lookup_insert_eq. eauto.
  - rewrite (check_seed s latest Hcfg Hprev). cbn.
    split; [assumption|]. rewrite lookup_insert_eq. eauto.
Qed.
End TrackerFacts.

(** C2. For a key the tracker has not seen, the latest entries
    finalized(r1), timeout(r2), timeout(r3), finalized(r4), each round
    different from the one before it, produce in turn: the seeding line
    and no alert; a missed alert with streak 1; a missed alert with streak
    2; a recovered alert with previous streak 2, each alert going to the
    chat backends that are configured.  And once an entry has been
    observed, observing its round again, twice, makes no call and leaves
    the state as it is. *)
Theorem missed_recovered_pairing
    (validatorId : string) (network : Alerts.Network) (validatorName : string)
    (config : Instrumentation.AlertConfig) :
  let tg := Alerts.telegram (Instrumentation.targets config) in
  let dc := Alerts.discord (Instrumentation.targets config) in
  let entry r h st :=
    Instrumentation.HistoryLatest
      {| Instrumentation.round := r; Instrumentation.block_height := h;
         Instrumentation.status := st |} in
  (forall s r1 r2 r3 r4 h1 h2 h3 h4,
      Instrumentation.cachedConfig s = Some config ->
      Instrumentation.validatorBlockStates s
        !! (validatorId +:+ "-" +:+ Alerts.network_string network) = None ->
      r1 <> r2 -> r2 <> r3 -> r3 <> r4 ->
      fst (Runs.trackRun validatorId network validatorName
             [entry r1 h1 Instrumentation.finalized; entry r2 h2 Instrumentation.timeout;
              entry r3 h3 Instrumentation.timeout; entry r4 h4 Instrumentation.finalized] s)
      = [ [Alerts.ConsoleLog (Alerts.LogSeed false r1)];
          Alerts.ConsoleLog (Alerts.LogMissed r2 1)
          :: Runs.chat_calls tg dc
               (Alerts.AlertPayload.mk validatorName network h2 r2 Alerts.missed (Some 1) None);
          Alerts.ConsoleLog (Alerts.LogMissed r3 2)
          :: Runs.chat_calls tg dc
               (Alerts.AlertPayload.mk validatorName network h3 r3 Alerts.missed (Some 2) None);
          Alerts.ConsoleLog (Alerts.LogRecovered r4 2)
          :: Runs.chat_calls tg dc
               (Alerts.AlertPayload.mk validatorName network h4 r4 Alerts.recovered None
                  (Some 2)) ])
  /\ (forall s latest again,
      Instrumentation.cachedConfig s = Some config ->
      Instrumentation.round again = Instrumentation.round latest ->
      let s1 :=
        Eff.state_of
          (Instrumentation.checkValidatorMissedBlocks validatorId network validatorName
             (Instrumentation.HistoryLatest latest) s) in
      Runs.trackRun validatorId network validatorName
        [Instrumentation.HistoryLatest again; Instrumentation.HistoryLatest again] s1
      = ([[]; []], s1)).
Proof.
  intros tg dc entry. subst tg dc entry. split.
  - intros s r1 r2 r3 r4 h1 h2 h3 h4 Hcfg Hfresh H12 H23 H34.
    cbn [Runs.trackRun].
    rewrite (check_seed validatorId network validatorName config s _ Hcfg Hfresh).
    cbn [Instrumentation.round Instrumentation.status Instrumentation.is_timeout].
    erewrite (check_missed validatorId network validatorName config);
      [| exact Hcfg | apply lookup_insert_eq | cbn; congruence | reflexivity].
    cbn [Instrumentation.round Instrumentation.block_height
         Instrumentation.consecutiveMisses].
    erewrite (check_missed validatorId network validatorName config);
      [| exact Hcfg | apply lookup_insert_eq | cbn; congruence | reflexivity].
    cbn [Instrumentation.round Instrumentation.block_height
         Instrumentation.consecutiveMisses].
    erewrite (check_recovered validatorId network validatorName config);
      [| exact Hcfg | apply lookup_insert_eq | cbn; congruence | reflexivity
       | cbn; lia | reflexivity].
    reflexivity.
  - intros s latest again Hcfg Hround s1.
    destruct (check_records_round validatorId network validatorName config s latest Hcfg)
      as [Hcfg1 [st [Hst Hlast]]].
    fold s1 in Hcfg1, Hst.
    cbn [Runs.trackRun].
    rewrite (check_same_round validatorId network validatorName config s1 st again);
      [| assumption | assumption | congruence].
    rewrite (check_same_round validatorId network validatorName config s1 st again);
      [| assumption | assumption | congruence].
    reflexivity.
Qed.

Lemma missed_recovered_pairing_witness :
  let config :=
    {| Instrumentation.targets :=
         {| Alerts.telegram := Some {| Alerts.botToken := "T0KEN"; Alerts.chatId := "42" |};
            Alerts.discord := None |};
       Instrumentation.validatorName := Some "Huginn" |} in
  let s :=
    {| Instrumentation.validatorBlockStates := ∅;
       Instrumentation.cachedConfig := Some config;
       Instrumentation.rpcHeights := ∅;
       Instrumentation.allOfflineState := Instrumentation.allOfflineState Instrumentation.initial;
       Instrumentation.lastKnownHeight := Instrumentation.lastKnownHeight Instrumentation.initial |} in
  let entry r h st :=
    {| Instrumentation.round := r; Instrumentation.block_height := h;
       Instrumentation.status := st |} in
  let tgcall p := Alerts.SendTelegramAlert "T0KEN" "42" p in
  fst (Runs.trackRun "17" Alerts.mainnet "Huginn"
         [Instrumentation.HistoryLatest (entry 900 (Some 5000) Instrumentation.finalized);
          Instrumentation.HistoryLatest (entry 901 None Instrumentation.timeout);
          Instrumentation.HistoryLatest (entry 905 None Instrumentation.timeout);
          Instrumentation.HistoryLatest (entry 906 (Some 5001) Instrumentation.finalized)] s)
  = [ [Alerts.ConsoleLog (Alerts.LogSeed false 900)];
      [Alerts.ConsoleLog (Alerts.LogMissed 901 1);
       tgcall (Alerts.AlertPayload.mk "Huginn" Alerts.mainnet None 901 Alerts.missed (Some 1) None)];
      [Alerts.ConsoleLog (Alerts.LogMissed 905 2);
       tgcall (Alerts.AlertPayload.mk "Huginn" Alerts.mainnet None 905 Alerts.missed (Some 2) None)];
      [Alerts.ConsoleLog (Alerts.LogRecovered 906 2);
       tgcall (Alerts.AlertPayload.mk "Huginn" Alerts.mainnet (Some 5001) 906 Alerts.recovered
                 None (Some 2))] ]
  /\ (let s1 :=
        Eff.state_of
          (Instrumentation.checkValidatorMissedBlocks "17" Alerts.mainnet "Huginn"
             (Instrumentation.HistoryLatest (entry 901 None Instrumentation.timeout)) s) in
      Runs.trackRun "17" Alerts.mainnet "Huginn"
        [Instrumentation.HistoryLatest (entry 901 (Some 1) Instrumentation.finalized);
         Instrumentation.HistoryLatest (entry 901 (Some 1) Instrumentation.finalized)] s1
      = ([[]; []], s1)).
Proof.
  intros config s entry tgcall. split.
  - apply (proj1 (missed_recovered_pairing "17" Alerts.mainnet "Huginn" config) s
             900 901 905 906 (Some 5000) None None (Some 5001)).
    + reflexivity.
    + reflexivity.
    + lia.
    + lia.
    + lia.
  - apply (proj2 (missed_recovered_pairing "17" Alerts.mainnet "Huginn" config) s
             (entry 901 None Instrumentation.timeout)
             (entry 901 (Some 1) Instrumentation.finalized)).
    + reflexivity.
    + reflexivity.
Defined.

(** ** Failover of the active endpoint *)

Section FailoverFacts.
Import Js Dashboard.

Variable rpcConfigs : list RpcConfig.
Variable network : Alerts.Network.

Local Abbreviation fetch := (fetchCurrentHeight rpcConfigs network).
Local Abbreviation heightOf probe i := (Api.fetchBlockHeight (probe i)).

Lemma or_num_number z : or_num (Num z) (Num 0) = Num z.
Proof.
  unfold or_num, truthy_num. destruct (Z.eqb_spec z 0) as [->|]; reflexivity.
Qed.

(** [fetchCurrentHeight] as one state update, when the active index
    names an endpoint. *)
Lemma fetchCurrentHeight_eq probe s c :
  rpcConfigs !! activeIndex s = Some c ->
  let active := activeIndex s in
  let height := heightOf probe active in
  fetch probe s
  = if (strict_eq height (Num 0) || strict_eq height (lastHeight s))%bool then
      if issueCount s + 1 <? FAILOVER_THRESHOLD then
        (Some (or_num (lastHeight s) height), set_issueCount (issueCount s + 1) s, [])
      else
        match findFallback rpcConfigs active height probe
                (seq 1 (length rpcConfigs - 1)) with
        | Some (nextIndex, fallbackHeight) =>
            (Some fallbackHeight,
             {| activeIndex := nextIndex; lastHeight := fallbackHeight;
                issueCount := 0; alertSent := true |},
             (if alertSent s then []
              else [SendRpcAlert Route.rpc_failover network
                      (name_at rpcConfigs active) (name_at rpcConfigs nextIndex)
                      (Some (if strict_eq height (Num 0) then reason_offline
                             else reason_stale height))])
             ++ [UpdateRpcDisplayState network active nextIndex false])
        | None =>
            (Some (if strict_eq height (Num 0) then lastHeight s else height),
             set_issueCount (issueCount s + 1) s, [])
        end
    else
      (Some height,
       {| activeIndex := active; lastHeight := height; issueCount := 0;
          alertSent := if (active =? 0)%nat then false else alertSent s |},
       []).
Proof.
  intros Hc active height. subst active height.
  assert (Hlen : (length rpcConfigs =? 0)%nat = false).
  { apply Nat.eqb_neq. apply lookup_lt_Some in Hc. lia. }
  unfold fetchCurrentHeight.
  unfold Eff.bind at 1. unfold Eff.get at 1. rewrite Hlen, Hc.
  destruct (strict_eq _ (Num 0) || strict_eq _ (lastHeight s))%bool eqn:Hissue.
  - unfold Eff.bind at 1. unfold Eff.modify at 1. unfold Eff.bind at 1. unfold Eff.get at 1.
    cbn [issueCount set_issueCount lastHeight activeIndex alertSent].
    destruct (issueCount s + 1 <? FAILOVER_THRESHOLD); [reflexivity|].
    destruct (findFallback _ _ _ _ _) as [[nextIndex fallbackHeight]|]; [|reflexivity].
    destruct (alertSent s) eqn:Hsent; destruct s; cbn in *; subst; reflexivity.
  - destruct s as [a l i b]; cbn in *. destruct (a =? 0)%nat; reflexivity.
Qed.

(** What the scan for a fallback finds among the offsets
    [start, start + len). *)
Lemma findFallback_seq active height probe len : forall start,
  match findFallback rpcConfigs active height probe (seq start len) with
  | Some (idx, fh) =>
      exists i, (start <= i < start + len)%nat
        /\ idx = ((active + i) mod length rpcConfigs)%nat
        /\ fh = heightOf probe idx
        /\ isValidFallback height fh = true
        /\ forall j, (start <= j < i)%nat ->
             isValidFallback height
               (heightOf probe ((active + j) mod length rpcConfigs)%nat) = false
  | None =>
      forall j, (start <= j < start + len)%nat ->
        isValidFallback height
          (heightOf probe ((active + j) mod length rpcConfigs)%nat) = false
  end.
Proof.
  induction len as [|len IH]; intros start.
  - cbn. intros j Hj. lia.
  - cbn [seq findFallback].
    destruct (isValidFallback height _) eqn:Hvalid.
    + exists start. repeat split; try lia; try assumption.
    + specialize (IH (S start)).
      destruct (findFallback _ _ _ _ (seq (S start) len)) as [[idx fh]|].
      * destruct IH as (i & Hi & Hidx & Hfh & Hv & Hfirst).
        exists i. repeat split; try lia; try assumption.
        intros j Hj. destruct (Nat.eq_dec j start) as [->|Hne]; [assumption|].
        apply Hfirst. lia.
      * intros j Hj. destruct (Nat.eq_dec j start) as [->|Hne]; [assumption|].
        apply IH. lia.
Qed.

(** A successful answer without a [result] member is not an issue for
    the poll: [NaN] is neither 0 nor equal to the last height, so it is
    returned, it replaces the last known height and it resets the
    streak. *)
Lemma poll_missing_result probe s c :
  rpcConfigs !! activeIndex s = Some c ->
  probe (activeIndex s) = Http.Response true (Http.BodyData VUndefined) ->
  fetch probe s
  = (Some NaN,
     {| activeIndex := activeIndex s; lastHeight := NaN; issueCount := 0;
        alertSent := if (activeIndex s =? 0)%nat then false else alertSent s |},
     []).
Proof.
  intros Hc Hanswer.
  rewrite (fetchCurrentHeight_eq probe s c Hc). cbv zeta. rewrite Hanswer. reflexivity.
Qed.

(** A poll that finds the active endpoint at height 0 while the streak
    stays under the threshold only counts the issue. *)
Lemma poll_zero_below probe s :
  (activeIndex s < length rpcConfigs)%nat ->
  heightOf probe (activeIndex s) = Num 0 ->
  issueCount s + 1 < FAILOVER_THRESHOLD ->
  fetch probe s
  = (Some (or_num (lastHeight s) (Num 0)), set_issueCount (issueCount s + 1) s, []).
Proof.
  intros Hlt Hzero Hbelow.
  destruct (lookup_lt_is_Some_2 rpcConfigs (activeIndex s) Hlt) as [c Hc].
  rewrite (fetchCurrentHeight_eq probe s c Hc). cbv zeta.
  rewrite Hzero. cbn [strict_eq Z.eqb orb].
  apply Z.ltb_lt in Hbelow. rewrite Hbelow. reflexivity.
Qed.

Lemma pollRun_zero_below probes : forall s,
  (activeIndex s < length rpcConfigs)%nat ->
  Forall (fun p => heightOf p (activeIndex s) = Num 0) probes ->
  issueCount s + Z.of_nat (length probes) < FAILOVER_THRESHOLD ->
  pollRun rpcConfigs network probes s
  = (map (fun _ => Some (or_num (lastHeight s) (Num 0))) probes,
     set_issueCount (issueCount s + Z.of_nat (length probes)) s).
Proof.
  induction probes as [|p rest IH]; intros s Hlt Hzero Hbelow.
  - cbn. rewrite Z.add_0_r. destruct s; reflexivity.
  - inversion Hzero as [|? ? Hp Hrest]; subst.
    cbn [pollRun length] in *.
    rewrite (poll_zero_below p s Hlt Hp) by lia.
    rewrite IH; cbn [activeIndex set_issueCount issueCount lastHeight];
      [| assumption | assumption | lia].
    cbn [map]. f_equal. unfold set_issueCount.
    cbn [activeIndex lastHeight issueCount alertSent]. f_equal. lia.
Qed.
End FailoverFacts.

(** C3. From a state whose issue streak is 0, with the active endpoint
    answering height 0 at every poll: after any number of the first 29
    polls the active index is unchanged, and each of them returned the
    last known height ([lastHeight || 0]); at the 30th poll, if some other
    endpoint, at offset [i] after the active one, reports a positive
    height, the active index becomes the first endpoint in scan order
    (offsets 1, 2, ... after the active one, wrapping) that reports a
    positive height, and that height is returned. *)
Theorem failover_threshold
    (rpcConfigs : list Dashboard.RpcConfig) (network : Alerts.Network)
    (s : Dashboard.NetState) (probes : list (nat -> Http.outcome))
    (p30 : nat -> Http.outcome) :
  let a := Dashboard.activeIndex s in
  let n := length rpcConfigs in
  (a < n)%nat ->
  Dashboard.issueCount s = 0 ->
  length probes = 29%nat ->
  Forall (fun p => Api.fetchBlockHeight (p a) = Js.Num 0) (probes ++ [p30]) ->
  (forall k,
      let '(heights, sk) := Dashboard.pollRun rpcConfigs network (take k probes) s in
      Dashboard.activeIndex sk = a
      /\ Forall (fun r => r = Some (Js.or_num (Dashboard.lastHeight s) (Js.Num 0))) heights)
  /\ (let s29 := snd (Dashboard.pollRun rpcConfigs network probes s) in
      let '(r, s30, _) := Dashboard.fetchCurrentHeight rpcConfigs network p30 s29 in
      forall i,
        (1 <= i < n)%nat ->
        Js.gt (Api.fetchBlockHeight (p30 ((a + i) mod n)%nat)) (Js.Num 0) = true ->
        exists i0,
          (1 <= i0 <= i)%nat
          /\ Js.gt (Api.fetchBlockHeight (p30 ((a + i0) mod n)%nat)) (Js.Num 0) = true
          /\ (forall j, (1 <= j < i0)%nat ->
                Js.gt (Api.fetchBlockHeight (p30 ((a + j) mod n)%nat)) (Js.Num 0) = false)
          /\ Dashboard.activeIndex s30 = ((a + i0) mod n)%nat
          /\ r = Some (Api.fetchBlockHeight (p30 ((a + i0) mod n)%nat))).
Proof.
  intros a n Hlt Hstreak Hlen Hzero. subst a n.
  apply Forall_app in Hzero. destruct Hzero as [Hzero Hzero30].
  inversion Hzero30 as [|? ? Hp30 _]; subst.
  split.
  - intros k.
    rewrite pollRun_zero_below;
      [| assumption | apply Forall_take; assumption
       | rewrite Hstreak, length_take; unfold Dashboard.FAILOVER_THRESHOLD; lia].
    split; [reflexivity|].
    apply Forall_forall. intros r Hr. apply list_elem_of_In, in_map_iff in Hr.
    destruct Hr as [? [<- _]]. reflexivity.
  - rewrite pollRun_zero_below;
      [| assumption | assumption
       | rewrite Hstreak, Hlen; unfold Dashboard.FAILOVER_THRESHOLD; lia].
    cbn [snd].
    destruct (lookup_lt_is_Some_2 rpcConfigs (Dashboard.activeIndex s) Hlt) as [c Hc].
    rewrite (fetchCurrentHeight_eq rpcConfigs network p30 _ c) by exact Hc.
    cbv zeta.
    cbn [Dashboard.activeIndex Dashboard.set_issueCount Dashboard.issueCount
         Dashboard.lastHeight Dashboard.alertSent].
    rewrite Hp30, Hstreak, Hlen. cbn [Js.strict_eq Z.eqb orb].
    change (0 + Z.of_nat 29 + 1 <? Dashboard.FAILOVER_THRESHOLD) with false.
    cbv iota.
    pose proof (findFallback_seq rpcConfigs (Dashboard.activeIndex s) (Js.Num 0) p30
                  (length rpcConfigs - 1) 1) as Hscan.
    destruct (Dashboard.findFallback _ _ _ _ _) as [[idx fh]|].
    + destruct Hscan as (i0 & Hi0 & Hidx & Hfh & Hvalid & Hfirst).
      intros i Hi Hpos. exists i0.
      assert (Hle : (i0 <= i)%nat).
      { destruct (le_lt_dec i0 i) as [|Hgt]; [assumption|].
        specialize (Hfirst i ltac:(lia)).
        unfold Dashboard.isValidFallback in Hfirst. cbn in Hfirst. congruence. }
      subst idx fh. unfold Dashboard.isValidFallback in Hvalid. cbn in Hvalid.
      split; [lia|]. split; [assumption|]. split; [|split; reflexivity].
      intros j Hj. specialize (Hfirst j ltac:(lia)).
      unfold Dashboard.isValidFallback in Hfirst. cbn in Hfirst. exact Hfirst.
    + intros i Hi Hpos. exfalso.
      specialize (Hscan i ltac:(lia)).
      unfold Dashboard.isValidFallback in Hscan. cbn in Hscan. congruence.
Qed.

Lemma failover_threshold_witness :
  let rpcConfigs :=
    [ {| Dashboard.url := "https://monad-rpc.huginn.tech"; Dashboard.name := "Huginn" |};
      {| Dashboard.url := "https://rpc.monad.xyz"; Dashboard.name := "Monad" |};
      {| Dashboard.url := "https://rpc-mainnet.monadinfra.com"; Dashboard.name := "Monadinfra" |} ] in
  let s :=
    {| Dashboard.activeIndex := 0; Dashboard.lastHeight := Js.Num 1000;
       Dashboard.issueCount := 0; Dashboard.alertSent := false |} in
  let down := fun i : nat =>
    match i with
    | 2%nat => Http.Response true (Http.BodyData (Js.VStr "0x3e9"))
    | _ => Http.Failed
    end in
  (forall k,
      let '(heights, sk) :=
        Dashboard.pollRun rpcConfigs Alerts.mainnet (take k (repeat down 29)) s in
      Dashboard.activeIndex sk = Dashboard.activeIndex s
      /\ Forall (fun r => r = Some (Js.or_num (Dashboard.lastHeight s) (Js.Num 0))) heights)
  /\ (let s29 := snd (Dashboard.pollRun rpcConfigs Alerts.mainnet (repeat down 29) s) in
      let '(r, s30, _) := Dashboard.fetchCurrentHeight rpcConfigs Alerts.mainnet down s29 in
      forall i,
        (1 <= i < length rpcConfigs)%nat ->
        Js.gt (Api.fetchBlockHeight
                 (down ((Dashboard.activeIndex s + i) mod length rpcConfigs)%nat))
              (Js.Num 0) = true ->
        exists i0,
          (1 <= i0 <= i)%nat
          /\ Js.gt (Api.fetchBlockHeight
                      (down ((Dashboard.activeIndex s + i0) mod length rpcConfigs)%nat))
                   (Js.Num 0) = true
          /\ (forall j, (1 <= j < i0)%nat ->
                Js.gt (Api.fetchBlockHeight
                         (down ((Dashboard.activeIndex s + j) mod length rpcConfigs)%nat))
                      (Js.Num 0) = false)
          /\ Dashboard.activeIndex s30
             = ((Dashboard.activeIndex s + i0) mod length rpcConfigs)%nat
          /\ r = Some (Api.fetchBlockHeight
                         (down ((Dashboard.activeIndex s + i0) mod length rpcConfigs)%nat))).
Proof.
  intros rpcConfigs s down.
  apply (failover_threshold rpcConfigs Alerts.mainnet s (repeat down 29) down).
  - cbn. lia.
  - reflexivity.
  - reflexivity.
  - repeat constructor.
Defined.

(** Three endpoints of which only the third answers: 29
    polls serve the last known height 1000 from endpoint 0, the 30th
    switches to endpoint 2 and serves its height 1001. *)
Example failover_run :
  let rpcConfigs :=
    [ {| Dashboard.url := "https://monad-rpc.huginn.tech"; Dashboard.name := "Huginn" |};
      {| Dashboard.url := "https://rpc.monad.xyz"; Dashboard.name := "Monad" |};
      {| Dashboard.url := "https://rpc-mainnet.monadinfra.com"; Dashboard.name := "Monadinfra" |} ] in
  let s :=
    {| Dashboard.activeIndex := 0; Dashboard.lastHeight := Js.Num 1000;
       Dashboard.issueCount := 0; Dashboard.alertSent := false |} in
  let down := fun i : nat =>
    match i with
    | 2%nat => Http.Response true (Http.BodyData (Js.VStr "0x3e9"))
    | _ => Http.Failed
    end in
  Dashboard.pollRun rpcConfigs Alerts.mainnet (repeat down 29) s
  = (repeat (Some (Js.Num 1000)) 29,
     {| Dashboard.activeIndex := 0; Dashboard.lastHeight := Js.Num 1000;
        Dashboard.issueCount := 29; Dashboard.alertSent := false |})
  /\ Dashboard.pollRun rpcConfigs Alerts.mainnet (repeat down 30) s
     = (repeat (Some (Js.Num 1000)) 29 ++ [Some (Js.Num 1001)],
        {| Dashboard.activeIndex := 2; Dashboard.lastHeight := Js.Num 1001;
           Dashboard.issueCount := 0; Dashboard.alertSent := true |}).
Proof. split; vm_compute; reflexivity. Qed.

(** ** Returning to the primary *)

Section ReturnFacts.
Import Js Dashboard.

Variable rpcConfigs : list RpcConfig.
Variable network : Alerts.Network.

(** A poll changes the active index only by failing over: the streak has
    reached the threshold and the new index is a valid fallback. *)
Lemma poll_changes_index probe s h s' t :
  fetchCurrentHeight rpcConfigs network probe s = (Some h, s', t) ->
  activeIndex s' <> activeIndex s ->
  let height := Api.fetchBlockHeight (probe (activeIndex s)) in
  (strict_eq height (Num 0) || strict_eq height (lastHeight s))%bool = true
  /\ FAILOVER_THRESHOLD <= issueCount s + 1
  /\ isValidFallback height (Api.fetchBlockHeight (probe (activeIndex s'))) = true.
Proof.
  intros Hrun Hchange height. subst height.
  destruct (rpcConfigs !! activeIndex s) as [c|] eqn:Hc.
  - rewrite (fetchCurrentHeight_eq rpcConfigs network probe s c Hc) in Hrun.
    cbv zeta in Hrun.
    destruct (strict_eq _ (Num 0) || strict_eq _ (lastHeight s))%bool eqn:Hissue.
    + destruct (issueCount s + 1 <? FAILOVER_THRESHOLD) eqn:Hbelow.
      * injection Hrun as _ <- _. cbn in Hchange. congruence.
      * pose proof (findFallback_seq rpcConfigs (activeIndex s)
                      (Api.fetchBlockHeight (probe (activeIndex s))) probe
                      (length rpcConfigs - 1) 1) as Hscan.
        destruct (findFallback _ _ _ _ _) as [[idx fh]|].
        -- destruct Hscan as (i & _ & _ & Hfh & Hvalid & _).
           injection Hrun as _ <- _. cbn [activeIndex]. subst fh.
           split; [reflexivity|]. split; [apply Z.ltb_ge; exact Hbelow | exact Hvalid].
        -- injection Hrun as _ <- _. cbn in Hchange. congruence.
    + injection Hrun as _ <- _. cbn in Hchange. congruence.
  - unfold fetchCurrentHeight in Hrun. unfold Eff.bind, Eff.get, Eff.ret in Hrun.
    rewrite Hc in Hrun.
    destruct (length rpcConfigs =? 0)%nat; [|discriminate].
    injection Hrun as _ <- _. congruence.
Qed.

(** The recovery check changes the active index only to 0, and only on
    a primary that is positive and above the last known height. *)
Lemma recovery_changes_index probe s s' t :
  checkPrimaryRecovery rpcConfigs network probe s = (Some tt, s', t) ->
  activeIndex s' <> activeIndex s ->
  gt (Api.fetchBlockHeight (probe 0%nat)) (Num 0) = true
  /\ gt (Api.fetchBlockHeight (probe 0%nat)) (lastHeight s) = true.
Proof.
  unfold checkPrimaryRecovery. unfold Eff.bind at 1. unfold Eff.get at 1.
  intros Hrun Hchange.
  destruct (negb (activeIndex s =? 0)%nat && (0 <? length rpcConfigs)%nat)%bool;
    [| injection Hrun as <- _; congruence].
  destruct (gt _ (Num 0) && gt _ (lastHeight s))%bool eqn:Hup;
    [| injection Hrun as <- _; congruence].
  apply andb_true_iff in Hup. exact Hup.
Qed.
End ReturnFacts.

(** C7, as stated, fails.  Two endpoints, the primary first.  The primary
    is down for 30 polls while the secondary reports height 100: the
    30th poll fails over to index 1.  Then the secondary is down for 30
    polls while the primary reports height 5: the 30th of these polls,
    with no run of the recovery check, makes index 0 active again,
    although the primary's height 5 does not exceed the last known
    height 100. *)
Lemma failover_wraps_to_primary :
  let rpcConfigs :=
    [ {| Dashboard.url := "https://monad-rpc.huginn.tech"; Dashboard.name := "Huginn" |};
      {| Dashboard.url := "https://rpc.monad.xyz"; Dashboard.name := "Monad" |} ] in
  let start :=
    {| Dashboard.activeIndex := 0; Dashboard.lastHeight := Js.Num 0;
       Dashboard.issueCount := 0; Dashboard.alertSent := false |} in
  let primary_down := fun i : nat =>
    match i with
    | 1%nat => Http.Response true (Http.BodyData (Js.VStr "0x64"))
    | _ => Http.Failed
    end in
  let secondary_down := fun i : nat =>
    match i with
    | 0%nat => Http.Response true (Http.BodyData (Js.VStr "0x5"))
    | _ => Http.Failed
    end in
  let s30 := snd (Dashboard.pollRun rpcConfigs Alerts.mainnet (repeat primary_down 30) start) in
  let s59 := snd (Dashboard.pollRun rpcConfigs Alerts.mainnet (repeat secondary_down 29) s30) in
  let s60 := Eff.state_of (Dashboard.fetchCurrentHeight rpcConfigs Alerts.mainnet secondary_down s59) in
  Dashboard.activeIndex s30 = 1%nat
  /\ Dashboard.activeIndex s59 = 1%nat
  /\ Dashboard.lastHeight s59 = Js.Num 100
  /\ Dashboard.step rpcConfigs Alerts.mainnet s59 (Dashboard.Poll secondary_down) s60
  /\ Dashboard.activeIndex s60 = 0%nat
  /\ Js.gt (Api.fetchBlockHeight (secondary_down 0%nat)) (Dashboard.lastHeight s59) = false.
Proof.
  cbv zeta. repeat split; try (vm_compute; reflexivity).
  eapply Dashboard.step_poll. vm_compute. reflexivity.
Qed.

(** C7, amended.  When a step takes the active index from a secondary
    back to the primary, it is either a run of the recovery check that
    saw the primary positive and strictly above the last known height,
    or a poll that failed over from the active endpoint: that endpoint
    had an issue, the streak reached the threshold of 30, and the scan,
    wrapping around, accepted the primary as a valid fallback.  In
    particular a poll that leaves the streak below the threshold never
    changes the active index, whatever the primary answers. *)
Theorem primary_return_paths
    (rpcConfigs : list Dashboard.RpcConfig) (network : Alerts.Network) :
  (forall s a s',
      Dashboard.step rpcConfigs network s a s' ->
      Dashboard.activeIndex s <> 0%nat ->
      Dashboard.activeIndex s' = 0%nat ->
      match a with
      | Dashboard.Recovery probe =>
          Js.gt (Api.fetchBlockHeight (probe 0%nat)) (Js.Num 0) = true
          /\ Js.gt (Api.fetchBlockHeight (probe 0%nat)) (Dashboard.lastHeight s) = true
      | Dashboard.Poll probe =>
          let height := Api.fetchBlockHeight (probe (Dashboard.activeIndex s)) in
          (Js.strict_eq height (Js.Num 0)
           || Js.strict_eq height (Dashboard.lastHeight s))%bool = true
          /\ Dashboard.FAILOVER_THRESHOLD <= Dashboard.issueCount s + 1
          /\ Dashboard.isValidFallback height (Api.fetchBlockHeight (probe 0%nat)) = true
      end)
  /\ (forall probe s,
      Dashboard.issueCount s + 1 < Dashboard.FAILOVER_THRESHOLD ->
      Dashboard.activeIndex
        (Eff.state_of (Dashboard.fetchCurrentHeight rpcConfigs network probe s))
      = Dashboard.activeIndex s).
Proof.
  split.
  - intros s a s' Hstep Hsecondary Hprimary.
    inversion Hstep as [probe s0 h s0' t Hrun | probe s0 s0' t Hrun]; subst.
    + rewrite <- Hprimary.
      apply (poll_changes_index rpcConfigs network probe s h s' t Hrun). congruence.
    + apply (recovery_changes_index rpcConfigs network probe s s' t Hrun). congruence.
  - intros probe s Hbelow. apply Z.ltb_lt in Hbelow.
    destruct (rpcConfigs !! Dashboard.activeIndex s) as [c|] eqn:Hc.
    + rewrite (fetchCurrentHeight_eq rpcConfigs network probe s c Hc). cbv zeta.
      rewrite Hbelow.
      destruct (Js.strict_eq _ (Js.Num 0) || Js.strict_eq _ (Dashboard.lastHeight s))%bool;
        reflexivity.
    + unfold Dashboard.fetchCurrentHeight. unfold Eff.bind, Eff.get, Eff.ret.
      rewrite Hc. destruct (length rpcConfigs =? 0)%nat; reflexivity.
Qed.

Lemma primary_return_paths_witness :
  let rpcConfigs :=
    [ {| Dashboard.url := "https://monad-rpc.huginn.tech"; Dashboard.name := "Huginn" |};
      {| Dashboard.url := "https://rpc.monad.xyz"; Dashboard.name := "Monad" |} ] in
  let s :=
    {| Dashboard.activeIndex := 1; Dashboard.lastHeight := Js.Num 100;
       Dashboard.issueCount := 3; Dashboard.alertSent := true |} in
  let s' :=
    {| Dashboard.activeIndex := 0; Dashboard.lastHeight := Js.Num 101;
       Dashboard.issueCount := 0; Dashboard.alertSent := false |} in
  let probe := fun _ : nat => Http.Response true (Http.BodyData (Js.VStr "0x65")) in
  let uptick := fun i : nat =>
    match i with
    | 0%nat => Http.Response true (Http.BodyData (Js.VStr "0x3e8"))
    | _ => Http.Failed
    end in
  (Js.gt (Api.fetchBlockHeight (probe 0%nat)) (Js.Num 0) = true
   /\ Js.gt (Api.fetchBlockHeight (probe 0%nat)) (Dashboard.lastHeight s) = true)
  /\ Dashboard.activeIndex
       (Eff.state_of (Dashboard.fetchCurrentHeight rpcConfigs Alerts.mainnet uptick s))
     = Dashboard.activeIndex s.
Proof.
  intros rpcConfigs s s' probe uptick. split.
  - apply (proj1 (primary_return_paths rpcConfigs Alerts.mainnet) s (Dashboard.Recovery probe) s').
    + eapply Dashboard.step_recovery. vm_compute. reflexivity.
    + cbn. lia.
    + reflexivity.
  - apply (proj2 (primary_return_paths rpcConfigs Alerts.mainnet) uptick s).
    unfold Dashboard.FAILOVER_THRESHOLD. cbn. lia.
Defined.

(** ** The all-offline detector *)

Section OfflineFacts.
Import Alerts Instrumentation Runs.

Variable rpcs : Network -> list string.
Variable firstValidatorId : Network -> string.
Variable config : AlertConfig.

Local Abbreviation offline s net := (at_network (allOfflineState s) net).

Lemma minutes_due (d : Z) : (3 <=? d / 60000) = (180000 <=? d).
Proof.
  destruct (Z.leb_spec 180000 d) as [Hd|Hd].
  - apply Z.leb_le. apply Z.div_le_lower_bound; lia.
  - apply Z.leb_gt. apply Z.div_lt_upper_bound; lia.
Qed.

Lemma at_set_network_eq {A : Type} (net : Network) (a : A) (p : PerNetwork A) :
  at_network (set_network net a p) net = a.
Proof. destruct net; reflexivity. Qed.

Lemma at_set_network_ne {A : Type} (net other : Network) (a : A) (p : PerNetwork A) :
  other <> net -> at_network (set_network net a p) other = at_network p other.
Proof. destruct net, other; intros Hne; try reflexivity; congruence. Qed.

(** The endpoint loop writes [rpcHeights] and nothing else, and makes no
    call. *)
Lemma countHealthy_frame urls probe : forall i s,
  exists n heights,
    countHealthy urls i probe s = (n, set_rpcHeights heights s, []).
Proof.
  induction urls as [|url rest IH]; intros i s.
  - exists 0, (rpcHeights s). destruct s; reflexivity.
  - cbn [countHealthy]. unfold Eff.bind at 1. unfold isRpcHealthyM.
    unfold Eff.bind at 1. unfold Eff.get at 1.
    destruct (isRpcHealthy url _ (rpcHeights s)) as [healthy heights].
    unfold Eff.bind at 1. unfold Eff.modify at 1. unfold Eff.ret at 1.
    unfold Eff.bind at 1.
    destruct (IH (S i) (set_rpcHeights heights s)) as (n & heights' & ->).
    unfold Eff.ret. eexists _, heights'. reflexivity.
Qed.

(** [checkChainProgress] writes [lastKnownHeight] at most, and makes no
    call. *)
Lemma checkChainProgress_frame net reply s :
  exists b s',
    checkChainProgress firstValidatorId net reply s = (b, s', [])
    /\ allOfflineState s' = allOfflineState s
    /\ cachedConfig s' = cachedConfig s.
Proof.
  unfold checkChainProgress.
  destruct (negb (Js.truthy_str (firstValidatorId net))).
  - eexists _, _. split; [reflexivity|]. split; reflexivity.
  - destruct reply as [|h].
    + eexists _, _. split; [reflexivity|]. split; reflexivity.
    + destruct (negb (h =? 0)).
      * eexists _, _. split; [reflexivity|]. split; reflexivity.
      * eexists _, _. split; [reflexivity|]. split; reflexivity.
Qed.

(** The all-offline block of a network when no endpoint is healthy.
    [o1] is the record after the offline transition, [fire] whether the
    alert goes out. *)
Lemma checkAllOffline_down net now reply s :
  rpcs net <> [] ->
  let o := offline s net in
  let o1 :=
    if isOffline o then o
    else {| isOffline := true; since := Some now; alertSent := false |} in
  let fire := ((3 <=? downtime_of now o1) && negb (alertSent o1))%bool in
  exists s' t,
    checkAllOffline rpcs firstValidatorId config net 0 now reply s = (tt, s', t)
    /\ cachedConfig s' = cachedConfig s
    /\ (forall other, other <> net -> offline s' other = offline s other)
    /\ offline s' net
       = {| isOffline := isOffline o1; since := since o1;
            alertSent := (alertSent o1 || fire)%bool |}
    /\ (forall other, other <> net -> all_offline_alerts other t = [])
    /\ length (all_offline_alerts net t) = (if fire then 1 else 0)%nat.
Proof.
  intros Hurls o o1 fire.
  assert (Hlen : (0 <? Z.of_nat (length (rpcs net))) = true).
  { apply Z.ltb_lt. destruct (rpcs net); [congruence | cbn; lia]. }
  unfold checkAllOffline. rewrite Hlen. cbn [Z.eqb andb].
  unfold Eff.bind at 1. unfold Eff.get at 1.
  fold o.
  set (s1 := if isOffline o then s
             else set_allOfflineState net
                    {| isOffline := true; since := Some now; alertSent := false |} s).
  assert (Hwhen :
    Eff.when (negb (isOffline o))
      (Eff.modify (set_allOfflineState net
         {| isOffline := true; since := Some now; alertSent := false |})) s
    = (tt, s1, []) :> unit * State * list Call).
  { subst s1. destruct (isOffline o); reflexivity. }
  unfold Eff.bind at 1. rewrite Hwhen.
  assert (Ho1 : offline s1 net = o1).
  { subst s1 o1. destruct (isOffline o) eqn:E; [reflexivity|].
    cbn [allOfflineState set_allOfflineState]. apply at_set_network_eq. }
  assert (Hother1 : forall other, other <> net -> offline s1 other = offline s other).
  { intros other Hne. subst s1. destruct (isOffline o); [reflexivity|].
    cbn [allOfflineState set_allOfflineState]. apply at_set_network_ne. exact Hne. }
  assert (Hcfg1 : cachedConfig s1 = cachedConfig s).
  { subst s1. destruct (isOffline o); reflexivity. }
  unfold Eff.bind at 1. unfold Eff.get at 1.
  rewrite Ho1. fold (downtime_of now o1). fold fire.
  destruct fire eqn:Hfire.
  - cbn [Eff.when].
    destruct (checkChainProgress_frame net reply s1) as (cp & s2 & Hcp & Hoff2 & Hcfg2).
    unfold Eff.bind at 1. rewrite Hcp.
    unfold Eff.bind, Eff.emit, Eff.get, Eff.modify.
    eexists _, _. split; [reflexivity|].
    cbn [cachedConfig allOfflineState set_allOfflineState].
    rewrite Hoff2, Ho1.
    split; [congruence|].
    split.
    { intros other Hne. rewrite at_set_network_ne by exact Hne. apply Hother1. exact Hne. }
    split.
    { rewrite at_set_network_eq. rewrite orb_true_r. reflexivity. }
    split.
    { intros other Hne. cbn.
      destruct net, other; try reflexivity; congruence. }
    cbn. destruct net; reflexivity.
  - cbn [Eff.when]. unfold Eff.ret.
    eexists _, _. split; [reflexivity|].
    split; [exact Hcfg1|].
    split; [exact Hother1|].
    split.
    { rewrite Ho1, orb_false_r. destruct o1; reflexivity. }
    split; [intros; reflexivity | reflexivity].
Qed.

(** The all-offline block of a network: it keeps the configuration and
    the record of the other network, and its alerts are about its own
    network. *)
Lemma checkAllOffline_frame net healthy now reply s :
  exists s' t,
    checkAllOffline rpcs firstValidatorId config net healthy now reply s = (tt, s', t)
    /\ cachedConfig s' = cachedConfig s
    /\ (forall other, other <> net -> offline s' other = offline s other)
    /\ (forall other, other <> net -> all_offline_alerts other t = []).
Proof.
  destruct (healthy =? 0) eqn:Hzero; [destruct (rpcs net) as [|u us] eqn:Hurls|].
  - unfold checkAllOffline. rewrite Hzero, Hurls. cbn [length Z.of_nat Z.ltb andb].
    apply Z.eqb_eq in Hzero. subst healthy. cbn.
    eexists _, _. split; [reflexivity|]. repeat split; reflexivity.
  - apply Z.eqb_eq in Hzero. subst healthy.
    assert (Hne : rpcs net <> []) by congruence.
    destruct (checkAllOffline_down net now reply s Hne)
      as (s' & t & Hrun & Hcfg & Hother & _ & Halerts & _).
    exists s', t. repeat split; assumption.
  - unfold checkAllOffline. rewrite Hzero. cbn [andb].
    destruct (0 <? healthy).
    + eexists _, _. split; [reflexivity|].
      cbn [cachedConfig allOfflineState set_allOfflineState].
      split; [reflexivity|]. split; [|intros; reflexivity].
      intros other Hne. apply at_set_network_ne. exact Hne.
    + eexists _, _. split; [reflexivity|]. repeat split; reflexivity.
Qed.
End OfflineFacts.

Section EpisodeFacts.
Import Alerts Instrumentation Runs.

Variable rpcs : Network -> list string.
Variable firstValidatorId : Network -> string.
Variable config : AlertConfig.

Local Abbreviation offline s net := (at_network (allOfflineState s) net).
Local Abbreviation tick := (runRpcHealthCheck rpcs firstValidatorId).

Lemma all_offline_alerts_app net (t1 t2 : list Call) :
  all_offline_alerts net (t1 ++ t2) = all_offline_alerts net t1 ++ all_offline_alerts net t2.
Proof. unfold all_offline_alerts. apply flat_map_app. Qed.

(** The block of a network is its endpoint loop followed by its
    all-offline block, which starts from a state that differs in
    [rpcHeights] only. *)
Lemma checkNetwork_eq tk net s :
  exists heights,
    checkNetwork rpcs firstValidatorId config tk net s
    = checkAllOffline rpcs firstValidatorId config net
        (Eff.value_of (countHealthy (rpcs net) 0 (probe tk net) s))
        (now tk net) (uptime tk net) (set_rpcHeights heights s).
Proof.
  unfold checkNetwork, Eff.bind.
  destruct (countHealthy_frame (rpcs net) (probe tk net) 0%nat s) as (n & heights & ->).
  exists heights. unfold Eff.value_of. cbn [fst].
  destruct (checkAllOffline _ _ _ _ _ _ _ _) as [[[] s'] t]. reflexivity.
Qed.

(** The block of one network leaves the other network alone. *)
Lemma checkNetwork_other tk net other s :
  other <> net ->
  exists s' t,
    checkNetwork rpcs firstValidatorId config tk net s = (tt, s', t)
    /\ cachedConfig s' = cachedConfig s
    /\ offline s' other = offline s other
    /\ all_offline_alerts other t = [].
Proof.
  intros Hne.
  destruct (checkNetwork_eq tk net s) as (heights & ->).
  destruct (checkAllOffline_frame rpcs firstValidatorId config net
              (Eff.value_of (countHealthy (rpcs net) 0 (probe tk net) s))
              (now tk net) (uptime tk net) (set_rpcHeights heights s))
    as (s' & t & Hrun & Hcfg & Hother & Halerts).
  exists s', t. split; [exact Hrun|]. split; [exact Hcfg|].
  split; [apply (Hother other Hne) | apply (Halerts other Hne)].
Qed.

Lemma runRpcHealthCheck_eq tk s :
  cachedConfig s = Some config ->
  tick tk s
  = let '(_, s1, t1) := checkNetwork rpcs firstValidatorId config tk mainnet s in
    let '(_, s2, t2) := checkNetwork rpcs firstValidatorId config tk testnet s1 in
    (tt, s2, t1 ++ t2).
Proof.
  intros Hcfg. unfold runRpcHealthCheck. unfold Eff.bind at 1. unfold Eff.get at 1.
  rewrite Hcfg. unfold Eff.bind.
  destruct (checkNetwork _ _ _ _ mainnet s) as [[[] s1] t1].
  destruct (checkNetwork _ _ _ _ testnet s1) as [[[] s2] t2]. reflexivity.
Qed.

(** A run of the health check, seen from one network: the state [s0] in
    which the block of that network starts, and what that block alone
    does to the record and the alerts of the network. *)
Lemma tick_focus net tk s :
  cachedConfig s = Some config ->
  exists s0 heights s1 t1,
    cachedConfig s0 = Some config
    /\ offline s0 net = offline s net
    /\ healthyIn rpcs firstValidatorId config tk net s
       = Eff.value_of (countHealthy (rpcs net) 0 (probe tk net)
                         (match net with
                          | mainnet => s
                          | testnet => Eff.state_of
                              (checkNetwork rpcs firstValidatorId config tk mainnet s)
                          end))
    /\ checkAllOffline rpcs firstValidatorId config net
         (healthyIn rpcs firstValidatorId config tk net s)
         (now tk net) (uptime tk net) (set_rpcHeights heights s0) = (tt, s1, t1)
    /\ cachedConfig (Eff.state_of (tick tk s)) = cachedConfig s1
    /\ offline (Eff.state_of (tick tk s)) net = offline s1 net
    /\ all_offline_alerts net (Eff.trace_of (tick tk s)) = all_offline_alerts net t1.
Proof.
  intros Hcfg.
  rewrite (runRpcHealthCheck_eq tk s Hcfg).
  destruct net.
  - (* mainnet: its block runs first, from [s] *)
    destruct (checkNetwork_eq tk mainnet s) as (heights & Heq).
    destruct (checkNetwork rpcs firstValidatorId config tk mainnet s) as [[[] s1] t1] eqn:Hm.
    destruct (checkNetwork_other tk testnet mainnet s1 ltac:(discriminate))
      as (s2 & t2 & -> & Hcfg2 & Hoff2 & Hal2).
    exists s, heights, s1, t1.
    unfold healthyIn, Eff.state_of, Eff.trace_of. cbn [fst snd app].
    split; [exact Hcfg|]. split; [reflexivity|]. split; [reflexivity|].
    split; [symmetry; exact Heq|].
    split; [exact Hcfg2|]. split; [exact Hoff2|].
    rewrite all_offline_alerts_app, Hal2. apply app_nil_r.
  - (* testnet: the block of mainnet runs first *)
    destruct (checkNetwork_other tk mainnet testnet s ltac:(discriminate))
      as (s0 & t0 & Hm & Hcfg0 & Hoff0 & Hal0).
    rewrite Hm.
    destruct (checkNetwork_eq tk testnet s0) as (heights & Heq).
    destruct (checkNetwork rpcs firstValidatorId config tk testnet s0) as [[[] s1] t1] eqn:Ht.
    exists s0, heights, s1, t1.
    unfold healthyIn, Eff.state_of, Eff.trace_of. rewrite Hm. cbn [fst snd app].
    split; [congruence|]. split; [exact Hoff0|]. split; [reflexivity|].
    split; [symmetry; exact Heq|].
    split; [reflexivity|]. split; [reflexivity|].
    rewrite all_offline_alerts_app, Hal0. reflexivity.
Qed.

(** A tick that finds every endpoint of the network unhealthy. *)
Lemma tick_down net tk s :
  cachedConfig s = Some config ->
  rpcs net <> [] ->
  healthyIn rpcs firstValidatorId config tk net s = 0 ->
  let o := offline s net in
  let o1 :=
    if isOffline o then o
    else {| isOffline := true; since := Some (now tk net); alertSent := false |} in
  let fire := ((3 <=? downtime_of (now tk net) o1) && negb (alertSent o1))%bool in
  cachedConfig (Eff.state_of (tick tk s)) = Some config
  /\ offline (Eff.state_of (tick tk s)) net
     = {| isOffline := isOffline o1; since := since o1;
          alertSent := (alertSent o1 || fire)%bool |}
  /\ length (all_offline_alerts net (Eff.trace_of (tick tk s))) = (if fire then 1 else 0)%nat.
Proof.
  intros Hcfg Hurls Hdown o o1 fire.
  destruct (tick_focus net tk s Hcfg)
    as (s0 & heights & s1 & t1 & Hcfg0 & Hoff0 & _ & Hrun & Hcfg2 & Hoff2 & Hal2).
  rewrite Hdown in Hrun.
  destruct (checkAllOffline_down rpcs firstValidatorId config net (now tk net) (uptime tk net)
              (set_rpcHeights heights s0) Hurls)
    as (s1' & t1' & Hrun' & Hcfg1 & _ & Hoff1 & _ & Hlen).
  rewrite Hrun in Hrun'. injection Hrun' as <- <-.
  cbn [allOfflineState set_rpcHeights cachedConfig] in Hoff1, Hlen, Hcfg1.
  rewrite Hoff0 in Hoff1, Hlen.
  rewrite Hcfg2, Hoff2, Hal2.
  split; [congruence|]. split; [exact Hoff1 | exact Hlen].
Qed.

(** Without a healthy endpoint, a raised guard stays raised. *)
Lemma tick_keeps_guard net tk s :
  cachedConfig s = Some config ->
  isOffline (offline s net) = true ->
  alertSent (offline s net) = true ->
  healthyIn rpcs firstValidatorId config tk net s <= 0 ->
  alertSent (offline (Eff.state_of (tick tk s)) net) = true.
Proof.
  intros Hcfg Hoffline Hsent Hnone.
  destruct (tick_focus net tk s Hcfg)
    as (s0 & heights & s1 & t1 & Hcfg0 & Hoff0 & _ & Hrun & _ & Hoff2 & _).
  rewrite Hoff2.
  set (healthy := healthyIn rpcs firstValidatorId config tk net s) in *.
  destruct (Z.eq_dec healthy 0) as [Hzero|Hneg].
  - rewrite Hzero in Hrun.
    destruct (rpcs net) as [|u us] eqn:Hurls.
    + unfold checkAllOffline in Hrun. rewrite Hurls in Hrun. cbn in Hrun.
      injection Hrun as <- _. cbn [allOfflineState set_rpcHeights].
      rewrite Hoff0. exact Hsent.
    + assert (Hne : rpcs net <> []) by congruence.
      destruct (checkAllOffline_down rpcs firstValidatorId config net (now tk net)
                  (uptime tk net) (set_rpcHeights heights s0) Hne)
        as (s1' & t1' & Hrun' & _ & _ & Hoff1 & _).
      rewrite Hrun in Hrun'. injection Hrun' as <- <-.
      cbn [allOfflineState set_rpcHeights] in Hoff1.
      rewrite Hoff0, Hoffline in Hoff1. rewrite Hoff1. cbn [alertSent].
      rewrite Hsent. reflexivity.
  - unfold checkAllOffline in Hrun.
    assert (Hz : (healthy =? 0) = false) by (apply Z.eqb_neq; exact Hneg).
    assert (Hp : (0 <? healthy) = false) by (apply Z.ltb_ge; lia).
    rewrite Hz, Hp in Hrun. cbn in Hrun.
    injection Hrun as <- _. cbn [allOfflineState set_rpcHeights].
    rewrite Hoff0. exact Hsent.
Qed.

(** In every state the monitor reaches, a raised guard belongs to a
    network recorded as offline: the property holds of the initial state
    and every run of the health check keeps it. *)
Lemma tick_guard_invariant net tk s :
  cachedConfig s = Some config ->
  (alertSent (offline s net) = true -> isOffline (offline s net) = true) ->
  alertSent (offline (Eff.state_of (tick tk s)) net) = true ->
  isOffline (offline (Eff.state_of (tick tk s)) net) = true.
Proof.
  intros Hcfg Hinv.
  destruct (tick_focus net tk s Hcfg)
    as (s0 & heights & s1 & t1 & _ & Hoff0 & _ & Hrun & _ & Hoff2 & _).
  rewrite Hoff2. clear Hoff2.
  set (healthy := healthyIn rpcs firstValidatorId config tk net s) in *.
  destruct ((healthy =? 0) && (0 <? Z.of_nat (length (rpcs net))))%bool eqn:Hdown.
  - apply andb_true_iff in Hdown. destruct Hdown as [Hzero Hlen].
    apply Z.eqb_eq in Hzero. rewrite Hzero in Hrun.
    assert (Hne : rpcs net <> []).
    { intros Hnil. rewrite Hnil in Hlen. discriminate Hlen. }
    destruct (checkAllOffline_down rpcs firstValidatorId config net (now tk net)
                (uptime tk net) (set_rpcHeights heights s0) Hne)
      as (s1' & t1' & Hrun' & _ & _ & Hoff1 & _).
    rewrite Hrun in Hrun'. injection Hrun' as <- <-.
    rewrite Hoff1. cbn [isOffline allOfflineState set_rpcHeights]. intros _.
    destruct (isOffline (offline s0 net)) eqn:E; [exact E | reflexivity].
  - unfold checkAllOffline in Hrun. rewrite Hdown in Hrun.
    destruct (0 <? healthy).
    + injection Hrun as <- _. cbn [allOfflineState set_allOfflineState].
      rewrite at_set_network_eq. cbn. discriminate.
    + injection Hrun as <- _. cbn [allOfflineState set_rpcHeights].
      rewrite Hoff0. exact Hinv.
Qed.

Lemma initial_guard_invariant net :
  alertSent (offline initial net) = true -> isOffline (offline initial net) = true.
Proof. destruct net; cbn; discriminate. Qed.

Lemma allUnhealthy_take net ticks : forall k s,
  allUnhealthy rpcs firstValidatorId config net ticks s ->
  allUnhealthy rpcs firstValidatorId config net (take k ticks) s.
Proof.
  induction ticks as [|tk rest IH]; intros k s Hall.
  - destruct k; exact I.
  - destruct k as [|k]; [exact I|].
    destruct Hall as [Hdown Hrest]. split; [exact Hdown | apply IH; exact Hrest].
Qed.

(** An episode under way: offline since [t0], guard [sent]. *)
Lemma episode_alerts net ticks : forall s t0 sent,
  cachedConfig s = Some config ->
  rpcs net <> [] ->
  offline s net = {| isOffline := true; since := Some t0; alertSent := sent |} ->
  allUnhealthy rpcs firstValidatorId config net ticks s ->
  length (all_offline_alerts net (snd (healthRun rpcs firstValidatorId ticks s)))
  = (if sent then 0 else if existsb (crossed net t0) ticks then 1 else 0)%nat.
Proof.
  induction ticks as [|tk rest IH]; intros s t0 sent Hcfg Hurls Hoff Hall.
  - cbn. destruct sent; reflexivity.
  - destruct Hall as [Hdown Hrest].
    destruct (tick_down net tk s Hcfg Hurls Hdown) as (Hcfg1 & Hoff1 & Hlen).
    rewrite Hoff in Hoff1, Hlen.
    cbn [isOffline since alertSent downtime_of] in Hoff1, Hlen.
    rewrite minutes_due in Hoff1, Hlen. fold (crossed net t0 tk) in Hoff1, Hlen.
    cbn [healthRun existsb].
    destruct (tick tk s) as [[[] s1] t1] eqn:Htick.
    unfold Eff.state_of, Eff.trace_of in *. cbn [fst snd] in *.
    specialize (IH s1 t0 _ Hcfg1 Hurls Hoff1 Hrest).
    destruct (healthRun rpcs firstValidatorId rest s1) as [s2 t2]. cbn [snd] in *.
    rewrite all_offline_alerts_app, length_app, Hlen, IH.
    destruct sent, (crossed net t0 tk), (existsb (crossed net t0) rest); reflexivity.
Qed.
End EpisodeFacts.

(** C9. For a network with at least one endpoint, from a state in which
    it is not offline, along ticks that all find every endpoint
    unhealthy: the number of [all_offline] alerts sent for it up to any
    point of the run is 0 as long as no tick came three minutes or more
    after the first tick of the episode, and 1 from the first such tick
    on; so exactly one alert per episode, at the crossing of the
    three-minute mark.  And a raised guard is lowered by a tick only if
    that tick counted some endpoint of the network healthy. *)
Theorem all_offline_gate
    (rpcs : Alerts.Network -> list string) (firstValidatorId : Alerts.Network -> string)
    (config : Instrumentation.AlertConfig) (net : Alerts.Network) :
  rpcs net <> [] ->
  (forall s tk0 rest k,
      Instrumentation.cachedConfig s = Some config ->
      Instrumentation.isOffline
        (Instrumentation.at_network (Instrumentation.allOfflineState s) net) = false ->
      Runs.allUnhealthy rpcs firstValidatorId config net (tk0 :: rest) s ->
      length (Runs.all_offline_alerts net
                (snd (Runs.healthRun rpcs firstValidatorId (take k (tk0 :: rest)) s)))
      = if existsb (Runs.crossed net (Instrumentation.now tk0 net)) (take k (tk0 :: rest))
        then 1%nat else 0%nat)
  /\ (forall s tk,
      Instrumentation.cachedConfig s = Some config ->
      Instrumentation.isOffline
        (Instrumentation.at_network (Instrumentation.allOfflineState s) net) = true ->
      Instrumentation.alertSent
        (Instrumentation.at_network (Instrumentation.allOfflineState s) net) = true ->
      Instrumentation.alertSent
        (Instrumentation.at_network
           (Instrumentation.allOfflineState
              (Eff.state_of (Instrumentation.runRpcHealthCheck rpcs firstValidatorId tk s)))
           net) = false ->
      0 < Runs.healthyIn rpcs firstValidatorId config tk net s).
Proof.
  intros Hurls. split.
  - intros s tk0 rest k Hcfg Honline Hall.
    destruct k as [|k]; [reflexivity|].
    apply (allUnhealthy_take rpcs firstValidatorId config net _ (S k)) in Hall.
    cbn [take] in *. destruct Hall as [Hdown Hrest].
    destruct (tick_down rpcs firstValidatorId config net tk0 s Hcfg Hurls Hdown)
      as (Hcfg1 & Hoff1 & Hlen).
    rewrite Honline in Hoff1, Hlen.
    cbn [Instrumentation.isOffline Instrumentation.since Instrumentation.alertSent
         Runs.downtime_of] in Hoff1, Hlen.
    rewrite Z.sub_diag in Hoff1, Hlen.
    change (3 <=? 0 / 60000) with false in Hoff1, Hlen.
    cbn [andb orb negb] in Hoff1, Hlen.
    cbn [Runs.healthRun existsb].
    assert (Hfirst : Runs.crossed net (Instrumentation.now tk0 net) tk0 = false).
    { unfold Runs.crossed. rewrite Z.sub_diag. reflexivity. }
    rewrite Hfirst. cbn [orb].
    destruct (Instrumentation.runRpcHealthCheck rpcs firstValidatorId tk0 s)
      as [[[] s1] t1] eqn:Htick.
    unfold Eff.state_of, Eff.trace_of in *. cbn [fst snd] in *.
    pose proof (episode_alerts rpcs firstValidatorId config net (take k rest) s1
                  (Instrumentation.now tk0 net) false Hcfg1 Hurls Hoff1 Hrest) as Hep.
    destruct (Runs.healthRun rpcs firstValidatorId (take k rest) s1) as [s2 t2].
    cbn [snd] in *.
    rewrite all_offline_alerts_app, length_app, Hlen, Hep. reflexivity.
  - intros s tk Hcfg Hoffline Hsent Hlowered.
    destruct (Z.lt_ge_cases 0 (Runs.healthyIn rpcs firstValidatorId config tk net s))
      as [Hpos|Hnone]; [exact Hpos|].
    rewrite (tick_keeps_guard rpcs firstValidatorId config net tk s Hcfg Hoffline Hsent)
      in Hlowered by lia.
    discriminate Hlowered.
Qed.

Lemma all_offline_gate_witness :
  let rpcs := fun net : Alerts.Network =>
    match net with
    | Alerts.mainnet => ["https://monad-rpc.huginn.tech"; "https://rpc.monad.xyz"]
    | Alerts.testnet => []
    end in
  let firstValidatorId := fun _ : Alerts.Network => "17" in
  let config :=
    {| Instrumentation.targets :=
         {| Alerts.telegram := Some {| Alerts.botToken := "T0KEN"; Alerts.chatId := "42" |};
            Alerts.discord := None |};
       Instrumentation.validatorName := None |} in
  let s :=
    {| Instrumentation.validatorBlockStates := ∅;
       Instrumentation.cachedConfig := Some config;
       Instrumentation.rpcHeights := ∅;
       Instrumentation.allOfflineState := Instrumentation.allOfflineState Instrumentation.initial;
       Instrumentation.lastKnownHeight := Instrumentation.lastKnownHeight Instrumentation.initial |} in
  let down := fun ms : Z =>
    {| Instrumentation.probe := fun _ _ => Http.Failed;
       Instrumentation.now := fun _ => ms;
       Instrumentation.uptime := fun _ => Instrumentation.UptimeNone |} in
  let up := fun ms : Z =>
    {| Instrumentation.probe := fun _ _ => Http.Response true (Http.BodyData (Js.VStr "0x10"));
       Instrumentation.now := fun _ => ms;
       Instrumentation.uptime := fun _ => Instrumentation.UptimeNone |} in
  let ticks := [down 0; down 60000; down 120000; down 180000; down 600000] in
  let alerts k :=
    length (Runs.all_offline_alerts Alerts.mainnet
              (snd (Runs.healthRun rpcs firstValidatorId (take k ticks) s))) in
  let s5 := fst (Runs.healthRun rpcs firstValidatorId ticks s) in
  alerts 3%nat = 0%nat
  /\ alerts 4%nat = 1%nat
  /\ alerts 5%nat = 1%nat
  /\ 0 < Runs.healthyIn rpcs firstValidatorId config (up 660000) Alerts.mainnet s5.
Proof.
  intros rpcs firstValidatorId config s down up ticks alerts s5.
  assert (Hurls : rpcs Alerts.mainnet <> []) by discriminate.
  assert (Hall : Runs.allUnhealthy rpcs firstValidatorId config Alerts.mainnet ticks s)
    by (vm_compute; repeat split).
  pose proof (all_offline_gate rpcs firstValidatorId config Alerts.mainnet Hurls)
    as [Hcount Hrearm].
  split; [|split; [|split]].
  - apply (Hcount s (down 0) [down 60000; down 120000; down 180000; down 600000] 3%nat);
      [reflexivity | reflexivity | exact Hall].
  - apply (Hcount s (down 0) [down 60000; down 120000; down 180000; down 600000] 4%nat);
      [reflexivity | reflexivity | exact Hall].
  - apply (Hcount s (down 0) [down 60000; down 120000; down 180000; down 600000] 5%nat);
      [reflexivity | reflexivity | exact Hall].
  - apply (Hrearm s5 (up 660000)); vm_compute; reflexivity.
Defined.

(** Two endpoints that never answer: nothing is sent before a tick at
    three minutes, which makes the only call of the episode. *)
Example all_offline_run :
  let rpcs := fun net : Alerts.Network =>
    match net with
    | Alerts.mainnet => ["https://monad-rpc.huginn.tech"; "https://rpc.monad.xyz"]
    | Alerts.testnet => []
    end in
  let firstValidatorId := fun _ : Alerts.Network => "17" in
  let targets :=
    {| Alerts.telegram := Some {| Alerts.botToken := "T0KEN"; Alerts.chatId := "42" |};
       Alerts.discord := None |} in
  let s :=
    {| Instrumentation.validatorBlockStates := ∅;
       Instrumentation.cachedConfig :=
         Some {| Instrumentation.targets := targets; Instrumentation.validatorName := None |};
       Instrumentation.rpcHeights := ∅;
       Instrumentation.allOfflineState := Instrumentation.allOfflineState Instrumentation.initial;
       Instrumentation.lastKnownHeight := Instrumentation.lastKnownHeight Instrumentation.initial |} in
  let down := fun ms : Z =>
    {| Instrumentation.probe := fun _ _ => Http.Failed;
       Instrumentation.now := fun _ => ms;
       Instrumentation.uptime := fun _ => Instrumentation.UptimeNone |} in
  snd (Runs.healthRun rpcs firstValidatorId [down 0; down 60000; down 179999] s) = []
  /\ snd (Runs.healthRun rpcs firstValidatorId
            [down 0; down 60000; down 179999; down 180000; down 600000] s)
     = [Alerts.ConsoleLog (Alerts.LogAllOffline Alerts.mainnet 3 false);
        Alerts.SendRpcAlert targets
          (Alerts.RpcAlertPayload.mk Alerts.all_offline
             "https://monad-rpc.huginn.tech, https://rpc.monad.xyz" Alerts.mainnet true
             None None (Some "3 minutes") (Some false))].
Proof. split; vm_compute; reflexivity. Qed.

(** * Further properties *)

(** ** Keys of the per-validator maps *)

Section KeyFacts.
Import Alerts.

Lemma list_ascii_app (s1 s2 : string) :
  list_ascii_of_string (s1 +:+ s2) = list_ascii_of_string s1 ++ list_ascii_of_string s2.
Proof.
  induction s1 as [|c s1 IH]; [reflexivity|].
  change (c :: list_ascii_of_string (s1 +:+ s2)
          = c :: (list_ascii_of_string s1 ++ list_ascii_of_string s2)).
  f_equal. exact IH.
Qed.

Lemma list_ascii_inj (s1 s2 : string) :
  list_ascii_of_string s1 = list_ascii_of_string s2 -> s1 = s2.
Proof.
  intros H. rewrite <- (string_of_list_ascii_of_string s1),
    <- (string_of_list_ascii_of_string s2), H. reflexivity.
Qed.

(** A string followed by "-mainnet" or "-testnet" determines the string
    and the network. *)
Lemma network_suffix_inj (v v' : string) (n n' : Network) :
  v +:+ "-" +:+ network_string n = v' +:+ "-" +:+ network_string n' ->
  v = v' /\ n = n'.
Proof.
  intros Hkey. apply (f_equal list_ascii_of_string) in Hkey.
  rewrite (list_ascii_app v), (list_ascii_app v') in Hkey.
  apply app_inj_2 in Hkey; [| destruct n, n'; reflexivity].
  destruct Hkey as [Hv Hn]. split.
  - apply list_ascii_inj. exact Hv.
  - destruct n, n'; try reflexivity; discriminate Hn.
Qed.

Lemma getKey_ne (v v' : string) (n n' : Network) :
  (v, n) <> (v', n') -> getKey v n <> getKey v' n'.
Proof.
  intros Hne Hkey. apply Hne.
  destruct (network_suffix_inj v v' n n' Hkey) as [-> ->]. reflexivity.
Qed.
End KeyFacts.

(** X1. The key of a validator and network determines both, for any
    validator id (dashes included): the keys of two pairs are equal
    exactly when the pairs are, so two validators never share an entry
    of the per-validator maps. *)
Theorem getKey_inj (validator validator' : string) (network network' : Alerts.Network) :
  Alerts.getKey validator network = Alerts.getKey validator' network'
  <-> (validator, network) = (validator', network').
Proof.
  split.
  - intros Hkey. unfold Alerts.getKey in Hkey.
    apply network_suffix_inj in Hkey. destruct Hkey as [-> ->]. reflexivity.
  - intros Hpair. injection Hpair as -> ->. reflexivity.
Qed.

(** ** Dispatchers: any threshold, any sequence of events *)

Section GeneralLaws.
Import Alerts Runs Scenarios.

Context {St : Type} (d : Dispatcher St) (th : option Js.num).

(** A missed event adds one to the count; it pages exactly when the new
    count has reached the threshold with the guard down, and then
    raises the guard. *)
Hypothesis missed_gen : forall height round s,
  let '(s', t) := on_missed d height round s in
  let page := pages th (misses_of d s + 1) (triggered_of d s) in
  misses_of d s' = misses_of d s + 1
  /\ triggered_of d s' = (triggered_of d s || page)%bool
  /\ pagerduty_actions t = if page then [trigger] else [].

(** A recovered event clears the count (or finds none to clear); it
    resolves only with the guard up, which it lowers. *)
Hypothesis recovered_gen : forall height round s,
  let '(s', t) := on_recovered d height round s in
  (misses_of d s' = 0 \/ (misses_of d s <= 0 /\ misses_of d s' = misses_of d s))
  /\ ((pagerduty_actions t = [resolve]
       /\ triggered_of d s = true /\ triggered_of d s' = false)
      \/ (pagerduty_actions t = [] /\ triggered_of d s' = triggered_of d s)).

Lemma pages_guard_down m g : pages th m g = true -> g = false.
Proof.
  unfold pages. destruct th as [n|]; [|discriminate].
  intros H. apply andb_true_iff in H. destruct H as [_ H].
  destruct g; [discriminate | reflexivity].
Qed.

Lemma eventRun_alternates events : forall s,
  alternates (if triggered_of d s then resolve else trigger)
    (pagerduty_actions (snd (eventRun d events s))).
Proof.
  induction events as [|[[[] height] round] rest IH]; intros s; [exact I | |].
  - cbn [eventRun dispatch].
    pose proof (missed_gen height round s) as Hm.
    destruct (on_missed d height round s) as [s1 t1]. cbv zeta in Hm.
    destruct Hm as (_ & Hg & Ht).
    specialize (IH s1). destruct (eventRun d rest s1) as [s2 t2]. cbn [snd] in *.
    rewrite pagerduty_actions_app, Ht.
    destruct (pages th _ _) eqn:Hpage.
    + rewrite (pages_guard_down _ _ Hpage) in *. cbn in Hg. rewrite Hg in IH.
      cbn. split; [reflexivity | exact IH].
    + rewrite orb_false_r in Hg. rewrite Hg in IH. exact IH.
  - cbn [eventRun dispatch].
    pose proof (recovered_gen height round s) as Hr.
    destruct (on_recovered d height round s) as [s1 t1].
    destruct Hr as (_ & [(Ht & Hup & Hdown) | (Ht & Hsame)]).
    + specialize (IH s1). destruct (eventRun d rest s1) as [s2 t2]. cbn [snd] in *.
      rewrite pagerduty_actions_app, Ht, Hup. rewrite Hdown in IH.
      cbn. split; [reflexivity | exact IH].
    + specialize (IH s1). destruct (eventRun d rest s1) as [s2 t2]. cbn [snd] in *.
      rewrite pagerduty_actions_app, Ht. rewrite Hsame in IH. exact IH.
Qed.

Lemma trailing_all_missed events :
  forallb is_missed events = true ->
  trailing_misses events = Z.of_nat (length events).
Proof.
  induction events as [|e rest IH]; [reflexivity|].
  cbn [forallb trailing_misses length]. intros H.
  apply andb_true_iff in H. destruct H as [He Hrest].
  rewrite He, Hrest, (IH Hrest). cbn [andb]. lia.
Qed.

Lemma eventRun_count events : forall s,
  misses_of d s = 0 ->
  misses_of d (fst (eventRun d events s)) = trailing_misses events.
Proof.
  assert (Hgen : forall events s,
    0 <= misses_of d s ->
    misses_of d (fst (eventRun d events s))
    = if forallb is_missed events
      then misses_of d s + Z.of_nat (length events)
      else trailing_misses events).
  { clear events. induction events as [|[[ty height] round] rest IH]; intros s Hnonneg.
    - cbn. lia.
    - cbn [eventRun forallb trailing_misses].
      destruct ty; cbn [dispatch is_missed andb].
      + pose proof (missed_gen height round s) as Hm.
        destruct (on_missed d height round s) as [s1 t1]. cbv zeta in Hm.
        destruct Hm as (Hc & _ & _).
        specialize (IH s1 ltac:(lia)).
        destruct (eventRun d rest s1) as [s2 t2]. cbn [fst] in *.
        rewrite IH, Hc. destruct (forallb is_missed rest); [|reflexivity].
        cbn [length]. lia.
      + pose proof (recovered_gen height round s) as Hr.
        destruct (on_recovered d height round s) as [s1 t1].
        destruct Hr as (Hc & _).
        assert (Hzero : misses_of d s1 = 0) by (destruct Hc as [Hc | [Hle Hc]]; lia).
        specialize (IH s1 ltac:(lia)).
        destruct (eventRun d rest s1) as [s2 t2]. cbn [fst] in *.
        rewrite IH, Hzero.
        destruct (forallb is_missed rest) eqn:Hall; [|reflexivity].
        rewrite (trailing_all_missed rest Hall). lia. }
  intros s Hzero. rewrite Hgen by lia. rewrite Hzero.
  destruct (forallb is_missed events) eqn:Hall; [|reflexivity].
  rewrite (trailing_all_missed events Hall). lia.
Qed.

Lemma pages_at_least m g : pages th m g = (at_least th m && negb g)%bool.
Proof. unfold pages, at_least. destruct th as [[|n]|]; reflexivity. Qed.

Lemma at_least_mono m m' : m <= m' -> at_least th m = true -> at_least th m' = true.
Proof.
  unfold at_least. destruct th as [[|n]|]; try discriminate.
  intros Hle H. apply Z.leb_le in H. apply Z.leb_le. lia.
Qed.

Lemma missRun_pages blocks : forall s,
  pagerduty_actions (snd (missRun d blocks s))
  = if (negb (triggered_of d s)
        && at_least th (misses_of d s + Z.of_nat (length blocks))
        && (1 <=? Z.of_nat (length blocks)))%bool
    then [trigger] else [].
Proof.
  induction blocks as [|[height round] rest IH]; intros s.
  - cbn. rewrite andb_false_r. reflexivity.
  - cbn [missRun].
    pose proof (missed_gen height round s) as Hm.
    destruct (on_missed d height round s) as [s1 t1]. cbv zeta in Hm.
    destruct Hm as (Hc & Hg & Ht).
    specialize (IH s1). destruct (missRun d rest s1) as [s2 t2]. cbn [snd] in *.
    rewrite pagerduty_actions_app, Ht, IH, Hg, Hc, pages_at_least.
    replace (misses_of d s + Z.of_nat (length ((height, round) :: rest)))
      with (misses_of d s + 1 + Z.of_nat (length rest)) by (cbn [length]; lia).
    replace (1 <=? Z.of_nat (length ((height, round) :: rest))) with true
      by (symmetry; apply Z.leb_le; cbn [length]; lia).
    rewrite andb_true_r.
    destruct (triggered_of d s);
      [rewrite andb_false_r; reflexivity|]. cbn [negb andb orb].
    rewrite andb_true_r.
    destruct (at_least th (misses_of d s + 1)) eqn:Hnow.
    + rewrite (at_least_mono (misses_of d s + 1)
                 (misses_of d s + 1 + Z.of_nat (length rest)) ltac:(lia) Hnow).
      reflexivity.
    + cbn. destruct rest as [|b rest'].
      * cbn. rewrite Z.add_0_r, Hnow. reflexivity.
      * replace (1 <=? Z.of_nat (length (b :: rest'))) with true
          by (symmetry; apply Z.leb_le; cbn [length]; lia).
        rewrite andb_true_r. reflexivity.
Qed.
End GeneralLaws.

Section GeneralInstances.
Import Alerts Runs Scenarios.

Lemma pagerduty_actions_paged (pdc : option PagerDutyConfig) m g payload :
  pagerduty_actions
    (pagerduty_call (pages (threshold <$> pdc) m g) (routingKey <$> pdc) payload)
  = if pages (threshold <$> pdc) m g then [event_action payload] else [].
Proof. destruct pdc as [pd|]; [apply pagerduty_actions_call | reflexivity]. Qed.

Lemma manager_missed_gen config validator network height round am :
  let d := manager config validator network in
  let '(am', t) := on_missed d height round am in
  let page := pages (manager_threshold config) (misses_of d am + 1) (triggered_of d am) in
  misses_of d am' = misses_of d am + 1
  /\ triggered_of d am' = (triggered_of d am || page)%bool
  /\ pagerduty_actions t = if page then [trigger] else [].
Proof.
  cbn [manager on_missed misses_of triggered_of].
  rewrite handleMissedBlock_eq. cbv zeta.
  cbn [consecutiveMisses pagerdutyTriggered]. unfold manager_threshold.
  rewrite get_or_0_insert, pagerduty_actions_app, pagerduty_actions_chat_calls,
    pagerduty_actions_paged.
  split; [reflexivity|].
  destruct (pages _ _ _) eqn:Hpage.
  - rewrite get_flag_insert, orb_true_r. split; reflexivity.
  - rewrite orb_false_r. split; reflexivity.
Qed.

Lemma manager_recovered_gen config validator network height round am :
  let d := manager config validator network in
  let '(am', t) := on_recovered d height round am in
  (misses_of d am' = 0 \/ (misses_of d am <= 0 /\ misses_of d am' = misses_of d am))
  /\ ((pagerduty_actions t = [resolve]
       /\ triggered_of d am = true /\ triggered_of d am' = false)
      \/ (pagerduty_actions t = [] /\ triggered_of d am' = triggered_of d am)).
Proof.
  cbn [manager on_recovered misses_of triggered_of].
  rewrite handleRecovery_eq. cbv zeta.
  destruct (0 <? get_or_0 (consecutiveMisses am) (getKey validator network)) eqn:Hpos.
  - cbn [consecutiveMisses pagerdutyTriggered]. rewrite get_or_0_insert.
    split; [left; reflexivity|].
    destruct (am_pagerduty config) as [pd|]; cbn [resolves fmap option_fmap option_map].
    + rewrite pagerduty_actions_call.
      destruct (get_flag (pagerdutyTriggered am) _) eqn:Hflag.
      * left. rewrite get_flag_insert. repeat split; reflexivity.
      * right. rewrite Hflag. split; reflexivity.
    + right. split; reflexivity.
  - apply Z.ltb_ge in Hpos. split; [right; split; [exact Hpos | reflexivity]|].
    right. split; reflexivity.
Qed.

Lemma route_post_parts env ok validator network height round type claimed s :
  let r :=
    Route.POST env ok
      (Some (Route.ValidatorAlert
               (Route.ValidatorAlertRequest.mk validator network height round type claimed)))
      s in
  (let '(_, s', t) := r in (s', helper_calls t)) = (Eff.state_of r, helper_calls (Eff.trace_of r)).
Proof. cbv zeta. destruct (Route.POST _ _ _ _) as [[reply s'] t]. reflexivity. Qed.

Lemma route_missed_gen env ok claimed validator network height round s :
  let d := route env ok claimed validator network in
  let '(s', t) := on_missed d height round s in
  let page := pages (route_threshold env) (misses_of d s + 1) (triggered_of d s) in
  misses_of d s' = misses_of d s + 1
  /\ triggered_of d s' = (triggered_of d s || page)%bool
  /\ pagerduty_actions t = if page then [trigger] else [].
Proof.
  cbn [route on_missed misses_of triggered_of].
  rewrite route_post_parts.
  destruct (POST_validator_eq env ok validator network height round missed claimed s)
    as [Hstate Htrace].
  rewrite Hstate, Htrace. clear Hstate Htrace.
  cbn [Route.consecutiveMisses Route.pagerdutyTriggered].
  rewrite get_or_0_insert, pagerduty_actions_app, pagerduty_actions_chat_calls.
  unfold route_threshold.
  split; [reflexivity|].
  destruct (Route.env_value (Route.PAGERDUTY_ROUTING_KEY env)) as [key|];
    cbn [resolves pagerduty_call].
  - fold (pagerduty_call
            (pages (Some (Route.threshold env))
               (get_or_0 (Route.consecutiveMisses s) (getKey validator network) + 1)
               (get_flag (Route.pagerdutyTriggered s) (getKey validator network)))
            (Some key)).
    destruct (pages _ _ _) eqn:Hpage.
    + rewrite get_flag_insert, orb_true_r. split; reflexivity.
    + rewrite orb_false_r. split; reflexivity.
  - cbn [pages]. rewrite orb_false_r. split; reflexivity.
Qed.

Lemma route_recovered_gen env ok claimed validator network height round s :
  let d := route env ok claimed validator network in
  let '(s', t) := on_recovered d height round s in
  (misses_of d s' = 0 \/ (misses_of d s <= 0 /\ misses_of d s' = misses_of d s))
  /\ ((pagerduty_actions t = [resolve]
       /\ triggered_of d s = true /\ triggered_of d s' = false)
      \/ (pagerduty_actions t = [] /\ triggered_of d s' = triggered_of d s)).
Proof.
  cbn [route on_recovered misses_of triggered_of].
  rewrite route_post_parts.
  destruct (POST_validator_eq env ok validator network height round recovered claimed s)
    as [Hstate Htrace].
  rewrite Hstate, Htrace. clear Hstate Htrace.
  cbn [Route.consecutiveMisses Route.pagerdutyTriggered].
  rewrite get_or_0_insert, pagerduty_actions_app, pagerduty_actions_chat_calls.
  split; [left; reflexivity|].
  destruct (Route.env_value (Route.PAGERDUTY_ROUTING_KEY env)) as [key|];
    cbn [resolves pagerduty_call].
  - destruct (get_flag (Route.pagerdutyTriggered s) _) eqn:Hflag.
    + left. rewrite get_flag_insert. repeat split; reflexivity.
    + right. rewrite Hflag. split; reflexivity.
  - right. split; reflexivity.
Qed.
End GeneralInstances.

(** X2. Whatever the configuration and the sequence of missed and
    recovered events, the PagerDuty calls of either dispatcher for a
    validator whose guard is down alternate, starting with a trigger:
    never two triggers without a resolve between them, never a resolve
    that no trigger precedes. *)
Theorem pagerduty_calls_alternate (events : list Scenarios.AlertEvent) :
  (forall config validator network am,
      Runs.triggered_of (Runs.manager config validator network) am = false ->
      Scenarios.alternates Alerts.trigger
        (Runs.pagerduty_actions
           (snd (Scenarios.eventRun (Runs.manager config validator network) events am))))
  /\ (forall env ok claimed validator network s,
      Runs.triggered_of (Runs.route env ok claimed validator network) s = false ->
      Scenarios.alternates Alerts.trigger
        (Runs.pagerduty_actions
           (snd (Scenarios.eventRun (Runs.route env ok claimed validator network) events s)))).
Proof.
  split.
  - intros config validator network am Hdown.
    pose proof (eventRun_alternates (Runs.manager config validator network)
                  (Scenarios.manager_threshold config)
                  (manager_missed_gen config validator network)
                  (manager_recovered_gen config validator network) events am) as Halt.
    rewrite Hdown in Halt. exact Halt.
  - intros env ok claimed validator network s Hdown.
    pose proof (eventRun_alternates (Runs.route env ok claimed validator network)
                  (Scenarios.route_threshold env)
                  (route_missed_gen env ok claimed validator network)
                  (route_recovered_gen env ok claimed validator network) events s) as Halt.
    rewrite Hdown in Halt. exact Halt.
Qed.

Lemma pagerduty_calls_alternate_witness :
  let config :=
    {| Alerts.am_telegram := None; Alerts.am_discord := None;
       Alerts.am_pagerduty :=
         Some {| Alerts.routingKey := "R0UT1NGKEY"; Alerts.threshold := Js.Num 2 |} |} in
  let env :=
    {| Route.TELEGRAM_BOT_TOKEN := None; Route.TELEGRAM_CHAT_ID := None;
       Route.DISCORD_WEBHOOK_URL := None;
       Route.PAGERDUTY_ROUTING_KEY := Some "R0UT1NGKEY";
       Route.PAGERDUTY_THRESHOLD := Some "2" |} in
  let events :=
    [(Alerts.recovered, None, 1); (Alerts.missed, None, 2); (Alerts.missed, None, 3);
     (Alerts.missed, None, 4); (Alerts.recovered, Some 9, 5); (Alerts.recovered, Some 10, 6);
     (Alerts.missed, None, 7); (Alerts.missed, None, 8)] in
  Scenarios.alternates Alerts.trigger
    (Runs.pagerduty_actions
       (snd (Scenarios.eventRun (Runs.manager config "validator-1" Alerts.mainnet) events
               {| Alerts.consecutiveMisses := ∅; Alerts.pagerdutyTriggered := ∅ |})))
  /\ Scenarios.alternates Alerts.trigger
       (Runs.pagerduty_actions
          (snd (Scenarios.eventRun
                  (Runs.route env (fun _ => false) None "validator-1" Alerts.mainnet) events
                  {| Route.consecutiveMisses := ∅; Route.pagerdutyTriggered := ∅ |}))).
Proof.
  intros config env events. split.
  - apply (proj1 (pagerduty_calls_alternate events)). reflexivity.
  - apply (proj2 (pagerduty_calls_alternate events)). reflexivity.
Defined.

(** X3. In both dispatchers, starting from a count of zero, the
    consecutive-miss count kept for a validator after any sequence of
    its events is the number of missed events since the last recovered
    one. *)
Theorem count_is_trailing_misses (events : list Scenarios.AlertEvent) :
  (forall config validator network am,
      Runs.misses_of (Runs.manager config validator network) am = 0 ->
      Runs.misses_of (Runs.manager config validator network)
        (fst (Scenarios.eventRun (Runs.manager config validator network) events am))
      = Scenarios.trailing_misses events)
  /\ (forall env ok claimed validator network s,
      Runs.misses_of (Runs.route env ok claimed validator network) s = 0 ->
      Runs.misses_of (Runs.route env ok claimed validator network)
        (fst (Scenarios.eventRun (Runs.route env ok claimed validator network) events s))
      = Scenarios.trailing_misses events).
Proof.
  split.
  - intros config validator network am Hzero.
    apply (eventRun_count (Runs.manager config validator network)
             (Scenarios.manager_threshold config)
             (manager_missed_gen config validator network)
             (manager_recovered_gen config validator network)).
    exact Hzero.
  - intros env ok claimed validator network s Hzero.
    apply (eventRun_count (Runs.route env ok claimed validator network)
             (Scenarios.route_threshold env)
             (route_missed_gen env ok claimed validator network)
             (route_recovered_gen env ok claimed validator network)).
    exact Hzero.
Qed.

Lemma count_is_trailing_misses_witness :
  let config :=
    {| Alerts.am_telegram := None; Alerts.am_discord := None; Alerts.am_pagerduty := None |} in
  let env :=
    {| Route.TELEGRAM_BOT_TOKEN := None; Route.TELEGRAM_CHAT_ID := None;
       Route.DISCORD_WEBHOOK_URL := None; Route.PAGERDUTY_ROUTING_KEY := None;
       Route.PAGERDUTY_THRESHOLD := None |} in
  let events :=
    [(Alerts.missed, None, 2); (Alerts.recovered, Some 9, 5);
     (Alerts.missed, None, 7); (Alerts.missed, None, 8)] in
  Runs.misses_of (Runs.manager config "validator-1" Alerts.mainnet)
    (fst (Scenarios.eventRun (Runs.manager config "validator-1" Alerts.mainnet) events
            {| Alerts.consecutiveMisses := ∅; Alerts.pagerdutyTriggered := ∅ |}))
  = 2
  /\ Runs.misses_of (Runs.route env (fun _ => false) None "validator-1" Alerts.mainnet)
       (fst (Scenarios.eventRun
               (Runs.route env (fun _ => false) None "validator-1" Alerts.mainnet) events
               {| Route.consecutiveMisses := ∅; Route.pagerdutyTriggered := ∅ |}))
     = 2.
Proof.
  intros config env events. split.
  - apply (proj1 (count_is_trailing_misses events)). reflexivity.
  - apply (proj2 (count_is_trailing_misses events)). reflexivity.
Defined.

(** X4. In both dispatchers, from a count of zero with the guard down, a
    run of [m] consecutive misses makes exactly one PagerDuty call, a
    trigger, when the threshold is a number that [m] has reached (and
    [m] is at least 1), and none otherwise: a threshold of 1 or less
    pages at the first miss, and with no paging configured or a
    threshold that is not a number ([NaN]) no miss ever pages. *)
Theorem paging_threshold (blocks : list (option Z * Z)) :
  (forall config validator network am,
      Runs.misses_of (Runs.manager config validator network) am = 0 ->
      Runs.triggered_of (Runs.manager config validator network) am = false ->
      Runs.pagerduty_actions
        (snd (Runs.missRun (Runs.manager config validator network) blocks am))
      = if (Scenarios.at_least (Scenarios.manager_threshold config)
              (Z.of_nat (length blocks))
            && (1 <=? Z.of_nat (length blocks)))%bool
        then [Alerts.trigger] else [])
  /\ (forall env ok claimed validator network s,
      Runs.misses_of (Runs.route env ok claimed validator network) s = 0 ->
      Runs.triggered_of (Runs.route env ok claimed validator network) s = false ->
      Runs.pagerduty_actions
        (snd (Runs.missRun (Runs.route env ok claimed validator network) blocks s))
      = if (Scenarios.at_least (Scenarios.route_threshold env)
              (Z.of_nat (length blocks))
            && (1 <=? Z.of_nat (length blocks)))%bool
        then [Alerts.trigger] else []).
Proof.
  split.
  - intros config validator network am Hzero Hdown.
    rewrite (missRun_pages (Runs.manager config validator network)
               (Scenarios.manager_threshold config)
               (manager_missed_gen config validator network)).
    rewrite Hzero, Hdown. reflexivity.
  - intros env ok claimed validator network s Hzero Hdown.
    rewrite (missRun_pages (Runs.route env ok claimed validator network)
               (Scenarios.route_threshold env)
               (route_missed_gen env ok claimed validator network)).
    rewrite Hzero, Hdown. reflexivity.
Qed.

Lemma paging_threshold_witness :
  let config :=
    {| Alerts.am_telegram := None; Alerts.am_discord := None;
       Alerts.am_pagerduty :=
         Some {| Alerts.routingKey := "R0UT1NGKEY"; Alerts.threshold := Js.Num 0 |} |} in
  let env :=
    {| Route.TELEGRAM_BOT_TOKEN := None; Route.TELEGRAM_CHAT_ID := None;
       Route.DISCORD_WEBHOOK_URL := None;
       Route.PAGERDUTY_ROUTING_KEY := Some "R0UT1NGKEY";
       Route.PAGERDUTY_THRESHOLD := Some "five" |} in
  let blocks := [(Some 10, 1); (Some 11, 2); (None, 3); (None, 4); (None, 5); (None, 6)] in
  Runs.pagerduty_actions
    (snd (Runs.missRun (Runs.manager config "validator-1" Alerts.mainnet) blocks
            {| Alerts.consecutiveMisses := ∅; Alerts.pagerdutyTriggered := ∅ |}))
  = [Alerts.trigger]
  /\ Runs.pagerduty_actions
       (snd (Runs.missRun (Runs.route env (fun _ => true) None "validator-1" Alerts.mainnet)
               blocks {| Route.consecutiveMisses := ∅; Route.pagerdutyTriggered := ∅ |}))
     = [].
Proof.
  intros config env blocks. split.
  - apply (proj1 (paging_threshold blocks) config "validator-1" Alerts.mainnet); reflexivity.
  - apply (proj2 (paging_threshold blocks) env (fun _ => true) None "validator-1"
             Alerts.mainnet); reflexivity.
Defined.

(** X5. An event for one validator and network leaves the count and the
    guard recorded for every other validator or network as they were,
    in both dispatchers. *)
Theorem dispatch_leaves_others
    (validator validator' : string) (network network' : Alerts.Network)
    (e : Scenarios.AlertEvent) :
  (validator, network) <> (validator', network') ->
  (forall config am,
      let am' := fst (Scenarios.dispatch (Runs.manager config validator network) e am) in
      Alerts.consecutiveMisses am' !! Alerts.getKey validator' network'
      = Alerts.consecutiveMisses am !! Alerts.getKey validator' network'
      /\ Alerts.pagerdutyTriggered am' !! Alerts.getKey validator' network'
         = Alerts.pagerdutyTriggered am !! Alerts.getKey validator' network')
  /\ (forall env ok claimed s,
      let s' := fst (Scenarios.dispatch (Runs.route env ok claimed validator network) e s) in
      Route.consecutiveMisses s' !! Alerts.getKey validator' network'
      = Route.consecutiveMisses s !! Alerts.getKey validator' network'
      /\ Route.pagerdutyTriggered s' !! Alerts.getKey validator' network'
         = Route.pagerdutyTriggered s !! Alerts.getKey validator' network').
Proof.
  intros Hpair.
  pose proof (getKey_ne validator validator' network network' Hpair) as Hkey.
  destruct e as [[ty height] round]. split.
  - intros config am am'. subst am'. destruct ty; cbn [Scenarios.dispatch Runs.manager
      Runs.on_missed Runs.on_recovered].
    + rewrite handleMissedBlock_eq. cbv zeta. cbn [fst Alerts.consecutiveMisses
        Alerts.pagerdutyTriggered].
      rewrite lookup_insert_ne by exact Hkey. split; [reflexivity|].
      destruct (Runs.pages _ _ _); [apply lookup_insert_ne; exact Hkey | reflexivity].
    + rewrite handleRecovery_eq. cbv zeta.
      destruct (0 <? _); [|split; reflexivity].
      cbn [fst Alerts.consecutiveMisses Alerts.pagerdutyTriggered].
      rewrite lookup_insert_ne by exact Hkey. split; [reflexivity|].
      destruct (Runs.resolves _ _); [apply lookup_insert_ne; exact Hkey | reflexivity].
  - intros env ok claimed s s'. subst s'.
    destruct ty; cbn [Scenarios.dispatch Runs.route Runs.on_missed Runs.on_recovered];
      rewrite route_post_parts; cbn [fst].
    + destruct (POST_validator_eq env ok validator network height round Alerts.missed
                  claimed s) as [-> _].
      cbn [Route.consecutiveMisses Route.pagerdutyTriggered].
      rewrite lookup_insert_ne by exact Hkey. split; [reflexivity|].
      destruct (Runs.resolves _ _); [apply lookup_insert_ne; exact Hkey | reflexivity].
    + destruct (POST_validator_eq env ok validator network height round Alerts.recovered
                  claimed s) as [-> _].
      cbn [Route.consecutiveMisses Route.pagerdutyTriggered].
      rewrite lookup_insert_ne by exact Hkey. split; [reflexivity|].
      destruct (Runs.resolves _ _); [apply lookup_insert_ne; exact Hkey | reflexivity].
Qed.

Lemma dispatch_leaves_others_witness :
  let config :=
    {| Alerts.am_telegram := None; Alerts.am_discord := None;
       Alerts.am_pagerduty :=
         Some {| Alerts.routingKey := "R0UT1NGKEY"; Alerts.threshold := Js.Num 1 |} |} in
  let am :=
    {| Alerts.consecutiveMisses := {[ "a-mainnet" := 3 ]};
       Alerts.pagerdutyTriggered := {[ "a-mainnet" := true ]} |} in
  let am' :=
    fst (Scenarios.dispatch (Runs.manager config "a" Alerts.testnet)
           (Alerts.missed, None, 7) am) in
  Alerts.consecutiveMisses am' !! Alerts.getKey "a" Alerts.mainnet
  = Alerts.consecutiveMisses am !! Alerts.getKey "a" Alerts.mainnet
  /\ Alerts.pagerdutyTriggered am' !! Alerts.getKey "a" Alerts.mainnet
     = Alerts.pagerdutyTriggered am !! Alerts.getKey "a" Alerts.mainnet.
Proof.
  intros config am.
  apply (proj1 (dispatch_leaves_others "a" "a" Alerts.testnet Alerts.mainnet
                  (Alerts.missed, None, 7) ltac:(discriminate))).
Defined.

(** ** The handler of route.ts *)

Section RouteFacts.
Import Alerts Runs Scenarios.

(** The handler case by case, with the outcome of a delivery only in
    its answer. *)
Lemma POST_cases env ok body s :
  exists t,
    Eff.trace_of (Route.POST env ok body s) = t
    /\ (forall ok', Eff.trace_of (Route.POST env ok' body s) = t)
    /\ (forall ok', Eff.state_of (Route.POST env ok' body s)
                    = Eff.state_of (Route.POST env ok body s))
    /\ match Eff.value_of (Route.POST env ok body s) with
       | Route.Error500 =>
           body = None /\ t = [] /\ Eff.state_of (Route.POST env ok body s) = s
       | Route.RpcReply alerts =>
           alerts = map (fun e => (service_of e, ok e)) t
           /\ (exists data, body = Some (Route.RpcAlert data))
           /\ Eff.state_of (Route.POST env ok body s) = s
           /\ helper_calls t = []
       | Route.ValidatorReply alerts count =>
           alerts = map (fun e => (service_of e, ok e)) t
           /\ exists r,
                body = Some (Route.ValidatorAlert r)
                /\ count = get_or_0
                     (Route.consecutiveMisses (Eff.state_of (Route.POST env ok body s)))
                     (getKey (Route.ValidatorAlertRequest.validator r)
                        (Route.ValidatorAlertRequest.network r))
       end.
Proof.
  destruct body as [[r|data]|].
  - destruct r as [validator network height round type claimed].
    unfold Route.POST, Route.POST_validator, Route.attempt, getKey.
    cbn [Route.ValidatorAlertRequest.validator Route.ValidatorAlertRequest.network
         Route.ValidatorAlertRequest.height Route.ValidatorAlertRequest.round
         Route.ValidatorAlertRequest.type Route.ValidatorAlertRequest.consecutiveMisses].
    destruct type;
      destruct (Route.env_value (Route.TELEGRAM_BOT_TOKEN env)),
               (Route.env_value (Route.TELEGRAM_CHAT_ID env)),
               (Route.env_value (Route.DISCORD_WEBHOOK_URL env)),
               (Route.env_value (Route.PAGERDUTY_ROUTING_KEY env));
      eff_unfold; cbn;
      repeat (case_match; eff_unfold; cbn in *; simplify_eq);
      (eexists; split; [reflexivity|]; split; [reflexivity|]; split; [reflexivity|];
       split; [reflexivity|]; eexists; split; reflexivity).
  - unfold Route.POST, Route.POST_rpc, Route.attempt.
    destruct (Route.env_value (Route.TELEGRAM_BOT_TOKEN env)),
             (Route.env_value (Route.TELEGRAM_CHAT_ID env)),
             (Route.env_value (Route.DISCORD_WEBHOOK_URL env));
      eff_unfold; cbn;
      (eexists; split; [reflexivity|]; split; [reflexivity|]; split; [reflexivity|];
       split; [reflexivity|]; split; [eexists; reflexivity|]; split; reflexivity).
  - exists []. cbn. repeat split; reflexivity.
Qed.
End RouteFacts.

(** X6. What the handler of route.ts sends and stores does not depend on
    whether its deliveries succeed: with any two outcomes of the posts
    to the backends, it makes the same calls in the same order and
    ends in the same state, so a failed delivery to one backend neither
    stops the deliveries to the others nor the update of the count and
    the guard. *)
Theorem POST_delivery_independent
    (env : Route.Env) (ok ok' : Route.Event -> bool)
    (body : option Route.AlertRequest) (s : Route.State) :
  Eff.trace_of (Route.POST env ok body s) = Eff.trace_of (Route.POST env ok' body s)
  /\ Eff.state_of (Route.POST env ok body s) = Eff.state_of (Route.POST env ok' body s).
Proof.
  destruct (POST_cases env ok body s) as (t & Ht & Hany & Hstate & _).
  split.
  - rewrite Ht. symmetry. apply Hany.
  - symmetry. apply Hstate.
Qed.


(** X8. An RPC alert ([rpc_failover] or [rpc_recovered]) posted to the
    handler of route.ts never touches the miss counts or the PagerDuty
    guards and calls none of the validator-alert helpers (so it never
    pages): the state is returned as it was and every call is one of
    the handler's own two posts. *)
Theorem POST_rpc_alert_frame
    (env : Route.Env) (ok : Route.Event -> bool)
    (data : Route.RpcAlertRequest.t) (s : Route.State) :
  let r := Route.POST env ok (Some (Route.RpcAlert data)) s in
  Eff.state_of r = s
  /\ Runs.helper_calls (Eff.trace_of r) = []
  /\ (length (Eff.trace_of r) <= 2)%nat
  /\ Forall (fun e => e = Route.TelegramRpcMessage
                            (default "" (Route.env_value (Route.TELEGRAM_BOT_TOKEN env)))
                            (default "" (Route.env_value (Route.TELEGRAM_CHAT_ID env))) data
                      \/ e = Route.DiscordRpcMessage
                               (default "" (Route.env_value (Route.DISCORD_WEBHOOK_URL env)))
                               data)
            (Eff.trace_of r).
Proof.
  cbv zeta. unfold Route.POST, Route.POST_rpc, Route.attempt.
  destruct (Route.env_value (Route.TELEGRAM_BOT_TOKEN env)),
           (Route.env_value (Route.TELEGRAM_CHAT_ID env)),
           (Route.env_value (Route.DISCORD_WEBHOOK_URL env));
    eff_unfold; cbn;
    (split; [reflexivity|]; split; [reflexivity|]; split; [lia|]);
    repeat (apply Forall_cons; split; [cbn; auto|]); apply Forall_nil_2.
Qed.

(** ** The health check of the instrumentation, case by case *)

Section HealthEquations.
Import Alerts Instrumentation Runs Invariants.

Variable rpcs : Network -> list string.
Variable firstValidatorId : Network -> string.
Variable config : AlertConfig.

Local Abbreviation offline s net := (at_network (allOfflineState s) net).

Lemma checkChainProgress_eq net reply s :
  checkChainProgress firstValidatorId net reply s
  = match reply with
    | UptimeHeight h =>
        if (Js.truthy_str (firstValidatorId net) && negb (h =? 0))%bool then
          ((0 <? at_network (lastKnownHeight s) net)
           && (at_network (lastKnownHeight s) net <? h),
           set_lastKnownHeight net h s, [])
        else (false, s, [])
    | UptimeNone => (false, s, [])
    end.
Proof.
  unfold checkChainProgress.
  destruct (Js.truthy_str (firstValidatorId net)), reply as [|h]; cbn [negb andb];
    try reflexivity.
  destruct (h =? 0); reflexivity.
Qed.

(** The all-offline block of a network, with the record [o1] after the
    offline transition and [fire], whether the alert goes out. *)
Lemma checkAllOffline_eq net healthy now reply s :
  let o := offline s net in
  let o1 :=
    if isOffline o then o
    else {| isOffline := true; since := Some now; alertSent := false |} in
  let s1 :=
    if isOffline o then s else set_allOfflineState net o1 s in
  let fire := ((3 <=? downtime_of now o1) && negb (alertSent o1))%bool in
  checkAllOffline rpcs firstValidatorId config net healthy now reply s
  = if ((healthy =? 0) && (0 <? Z.of_nat (length (rpcs net))))%bool then
      if fire then
        let r := checkChainProgress firstValidatorId net reply s1 in
        (tt,
         set_allOfflineState net
           {| isOffline := isOffline o1; since := since o1; alertSent := true |}
           (Eff.state_of r),
         [ConsoleLog (LogAllOffline net (downtime_of now o1) (Eff.value_of r));
          SendRpcAlert (targets config)
            (RpcAlertPayload.mk all_offline (join (rpcs net)) net true None None
               (Some (minutes (downtime_of now o1))) (Some (Eff.value_of r)))])
      else (tt, s1, [])
    else if 0 <? healthy then
      (tt, set_allOfflineState net
             {| isOffline := false; since := None; alertSent := false |} s, [])
    else (tt, s, []).
Proof.
  intros o o1 s1 fire.
  unfold checkAllOffline.
  destruct ((healthy =? 0) && (0 <? Z.of_nat (length (rpcs net))))%bool;
    [|destruct (0 <? healthy); reflexivity].
  unfold Eff.bind at 1. unfold Eff.get at 1. fold o.
  assert (Hwhen :
    Eff.when (negb (isOffline o))
      (Eff.modify (set_allOfflineState net
         {| isOffline := true; since := Some now; alertSent := false |})) s
    = (tt, s1, []) :> unit * State * list Call).
  { subst s1 o1. destruct (isOffline o); reflexivity. }
  unfold Eff.bind at 1. rewrite Hwhen.
  assert (Ho1 : offline s1 net = o1).
  { subst s1 o1. destruct (isOffline o) eqn:E; [reflexivity|].
    cbn [allOfflineState set_allOfflineState]. apply at_set_network_eq. }
  unfold Eff.bind at 1. unfold Eff.get at 1.
  rewrite Ho1. fold (downtime_of now o1). fold fire.
  destruct fire; [|reflexivity].
  cbn [Eff.when].
  unfold Eff.bind at 1.
  rewrite !checkChainProgress_eq.
  assert (Hset : forall h, offline (set_lastKnownHeight net h s1) net = o1).
  { intros h. cbn [allOfflineState set_lastKnownHeight]. exact Ho1. }
  unfold minutes.
  destruct reply as [|h]; [|destruct (Js.truthy_str (firstValidatorId net) && negb (h =? 0))%bool];
    unfold Eff.bind, Eff.emit, Eff.get, Eff.modify, Eff.state_of, Eff.value_of;
    cbn [fst snd app]; rewrite ?Hset, ?Ho1; reflexivity.
Qed.

(** What the block of one network does to the record and the last
    known height of either network, and which alerts it sends. *)
Lemma checkNetwork_cases tk net s :
  let healthy := Eff.value_of (countHealthy (rpcs net) 0 (probe tk net) s) in
  let o := offline s net in
  let o1 :=
    if isOffline o then o
    else {| isOffline := true; since := Some (now tk net); alertSent := false |} in
  let fire := ((3 <=? downtime_of (now tk net) o1) && negb (alertSent o1))%bool in
  let r := checkNetwork rpcs firstValidatorId config tk net s in
  let s' := Eff.state_of r in
  cachedConfig s' = cachedConfig s
  /\ validatorBlockStates s' = validatorBlockStates s
  /\ (forall other, other <> net ->
        offline s' other = offline s other
        /\ at_network (lastKnownHeight s') other = at_network (lastKnownHeight s) other
        /\ all_offline_alerts other (Eff.trace_of r) = [])
  /\ if ((healthy =? 0) && (0 <? Z.of_nat (length (rpcs net))))%bool then
       if fire then
         exists cp,
           offline s' net
           = {| isOffline := isOffline o1; since := since o1; alertSent := true |}
           /\ all_offline_alerts net (Eff.trace_of r)
              = [RpcAlertPayload.mk all_offline (join (rpcs net)) net true None None
                   (Some (minutes (downtime_of (now tk net) o1))) (Some cp)]
           /\ (cp = true -> 0 < at_network (lastKnownHeight s) net)
       else
         offline s' net = o1
         /\ at_network (lastKnownHeight s') net = at_network (lastKnownHeight s) net
         /\ Eff.trace_of r = []
     else
       offline s' net
       = (if 0 <? healthy
          then {| isOffline := false; since := None; alertSent := false |}
          else o)
       /\ at_network (lastKnownHeight s') net = at_network (lastKnownHeight s) net
       /\ Eff.trace_of r = [].
Proof.
  intros healthy o o1 fire r s'. subst r s'.
  destruct (checkNetwork_eq rpcs firstValidatorId config tk net s) as [heights ->].
  fold healthy.
  rewrite checkAllOffline_eq.
  change (offline (set_rpcHeights heights s) net) with o. fold o1. fold fire.
  destruct ((healthy =? 0) && (0 <? Z.of_nat (length (rpcs net))))%bool.
  - destruct fire.
    + rewrite checkChainProgress_eq.
      set (s1 := if isOffline o then set_rpcHeights heights s
                 else set_allOfflineState net o1 (set_rpcHeights heights s)).
      assert (Hcfg : cachedConfig s1 = cachedConfig s)
        by (subst s1; destruct (isOffline o); reflexivity).
      assert (Hvbs : validatorBlockStates s1 = validatorBlockStates s)
        by (subst s1; destruct (isOffline o); reflexivity).
      assert (Hlast : lastKnownHeight s1 = lastKnownHeight s)
        by (subst s1; destruct (isOffline o); reflexivity).
      assert (Hoff : forall other, other <> net -> offline s1 other = offline s other).
      { intros other Hne. subst s1. destruct (isOffline o); [reflexivity|].
        cbn [allOfflineState set_allOfflineState set_rpcHeights].
        apply at_set_network_ne. exact Hne. }
      destruct (uptime tk net) as [|h];
        [|destruct (Js.truthy_str (firstValidatorId net) && negb (h =? 0))%bool];
        unfold Eff.state_of, Eff.value_of, Eff.trace_of; cbn [fst snd];
        cbn [cachedConfig validatorBlockStates allOfflineState lastKnownHeight
             set_allOfflineState set_lastKnownHeight];
        rewrite ?Hcfg, ?Hvbs, ?Hlast;
        (split; [reflexivity|]; split; [reflexivity|]; split;
         [ intros other Hne; rewrite !at_set_network_ne by exact Hne;
           split; [apply Hoff; exact Hne|]; split; [reflexivity|];
           cbn; destruct net, other; try reflexivity; congruence
         | eexists; split; [apply at_set_network_eq|]; split;
           [cbn; destruct net; reflexivity|] ]).
      * discriminate.
      * intros Hcp. apply andb_true_iff in Hcp. apply Z.ltb_lt. apply Hcp.
      * discriminate.
    + unfold Eff.state_of, Eff.value_of, Eff.trace_of; cbn [fst snd].
      destruct (isOffline o) eqn:Hoff.
      * split; [reflexivity|]. split; [reflexivity|].
        split; [intros other Hne; repeat split; reflexivity|].
        repeat split; reflexivity.
      * cbn [cachedConfig validatorBlockStates allOfflineState lastKnownHeight
             set_allOfflineState set_rpcHeights].
        split; [reflexivity|]. split; [reflexivity|].
        split.
        { intros other Hne. rewrite at_set_network_ne by exact Hne.
          repeat split; reflexivity. }
        rewrite at_set_network_eq. repeat split; reflexivity.
  - destruct (0 <? healthy);
      unfold Eff.state_of, Eff.value_of, Eff.trace_of; cbn [fst snd];
      cbn [cachedConfig validatorBlockStates allOfflineState lastKnownHeight
           set_allOfflineState set_rpcHeights].
    + split; [reflexivity|]. split; [reflexivity|].
      split.
      { intros other Hne. rewrite at_set_network_ne by exact Hne.
        repeat split; reflexivity. }
      rewrite at_set_network_eq. repeat split; reflexivity.
    + split; [reflexivity|]. split; [reflexivity|].
      split; [intros other Hne; repeat split; reflexivity|].
      repeat split; reflexivity.
Qed.

Local Abbreviation tick := (runRpcHealthCheck rpcs firstValidatorId).

Lemma tick_unconfigured tk s :
  cachedConfig s = None -> tick tk s = (tt, s, []).
Proof. intros H. unfold runRpcHealthCheck, Eff.bind, Eff.get. rewrite H. reflexivity. Qed.

(** One run of the health check, seen from one network. *)
Lemma tick_cases net tk s :
  cachedConfig s = Some config ->
  let healthy := healthyIn rpcs firstValidatorId config tk net s in
  let o := offline s net in
  let o1 :=
    if isOffline o then o
    else {| isOffline := true; since := Some (now tk net); alertSent := false |} in
  let fire := ((3 <=? downtime_of (now tk net) o1) && negb (alertSent o1))%bool in
  let r := tick tk s in
  let s' := Eff.state_of r in
  cachedConfig s' = Some config
  /\ validatorBlockStates s' = validatorBlockStates s
  /\ if ((healthy =? 0) && (0 <? Z.of_nat (length (rpcs net))))%bool then
       if fire then
         exists cp,
           offline s' net
           = {| isOffline := isOffline o1; since := since o1; alertSent := true |}
           /\ all_offline_alerts net (Eff.trace_of r)
              = [RpcAlertPayload.mk all_offline (join (rpcs net)) net true None None
                   (Some (minutes (downtime_of (now tk net) o1))) (Some cp)]
           /\ (cp = true -> 0 < at_network (lastKnownHeight s) net)
       else
         offline s' net = o1
         /\ at_network (lastKnownHeight s') net = at_network (lastKnownHeight s) net
         /\ all_offline_alerts net (Eff.trace_of r) = []
     else
       offline s' net
       = (if 0 <? healthy
          then {| isOffline := false; since := None; alertSent := false |}
          else o)
       /\ at_network (lastKnownHeight s') net = at_network (lastKnownHeight s) net
       /\ all_offline_alerts net (Eff.trace_of r) = [].
Proof.
  intros Hcfg healthy o o1 fire r s'. subst r s'.
  rewrite (runRpcHealthCheck_eq rpcs firstValidatorId config tk s Hcfg).
  pose proof (checkNetwork_cases tk mainnet s) as Hm. cbv zeta in Hm.
  destruct (checkNetwork rpcs firstValidatorId config tk mainnet s) as [[[] s1] t1] eqn:E1.
  pose proof (checkNetwork_cases tk testnet s1) as Ht. cbv zeta in Ht.
  destruct (checkNetwork rpcs firstValidatorId config tk testnet s1) as [[[] s2] t2] eqn:E2.
  unfold Eff.state_of, Eff.value_of, Eff.trace_of in Hm, Ht |- *. cbn [fst snd] in Hm, Ht |- *.
  destruct Hm as (Hc1 & Hv1 & Ho1 & Hm). destruct Ht as (Hc2 & Hv2 & Ho2 & Ht).
  split; [congruence|]. split; [congruence|].
  rewrite all_offline_alerts_app.
  destruct net.
  - destruct (Ho2 mainnet ltac:(discriminate)) as (Hoff & Hlast & Halerts). clear Ht.
    rewrite Hoff, Hlast, Halerts, app_nil_r.
    subst healthy o1 fire o. unfold healthyIn, Eff.value_of.
    destruct ((_ =? 0) && _)%bool.
    + destruct (_ && _)%bool.
      * exact Hm.
      * destruct Hm as (-> & -> & ->). repeat split; reflexivity.
    + destruct Hm as (-> & -> & ->). repeat split; reflexivity.
  - destruct (Ho1 testnet ltac:(discriminate)) as (Hoff & Hlast & Halerts). clear Hm.
    rewrite Halerts, app_nil_l.
    subst healthy o1 fire o. unfold healthyIn. rewrite E1.
    unfold Eff.state_of, Eff.value_of. cbn [fst snd].
    rewrite <- Hoff, <- Hlast.
    destruct ((_ =? 0) && _)%bool.
    + destruct (_ && _)%bool.
      * exact Ht.
      * destruct Ht as (-> & -> & ->). repeat split; reflexivity.
    + destruct Ht as (-> & -> & ->). repeat split; reflexivity.
Qed.
End HealthEquations.

Section HealthRunFacts.
Import Alerts Instrumentation Runs Invariants.

Variable rpcs : Network -> list string.
Variable firstValidatorId : Network -> string.

Local Abbreviation offline s net := (at_network (allOfflineState s) net).
Local Abbreviation tick := (runRpcHealthCheck rpcs firstValidatorId).

(** A property of the state that every run of the health check keeps
    holds after any number of runs. *)
Lemma healthRun_invariant (P : State -> Prop) :
  (forall tk s, P s -> P (Eff.state_of (tick tk s))) ->
  forall ticks s, P s -> P (fst (healthRun rpcs firstValidatorId ticks s)).
Proof.
  intros Hstep. induction ticks as [|tk rest IH]; intros s Hs; [exact Hs|].
  cbn [healthRun]. specialize (Hstep tk s Hs).
  destruct (tick tk s) as [[[] s1] t1]. unfold Eff.state_of in Hstep. cbn [fst snd] in Hstep.
  specialize (IH s1 Hstep).
  destruct (healthRun rpcs firstValidatorId rest s1) as [s2 t2]. exact IH.
Qed.

Lemma tick_offline_wf net tk s :
  offline_wf (offline s net) -> offline_wf (offline (Eff.state_of (tick tk s)) net).
Proof.
  intros [Hsince Hsent].
  destruct (cachedConfig s) as [config|] eqn:Hcfg;
    [|rewrite tick_unconfigured by exact Hcfg; split; assumption].
  pose proof (tick_cases rpcs firstValidatorId config net tk s Hcfg) as H.
  cbv zeta in H. destruct H as (_ & _ & H).
  destruct ((_ =? 0) && _)%bool.
  - destruct (isOffline (offline s net)) eqn:Hoff.
    + destruct (_ && _)%bool.
      * destruct H as (cp & -> & _). split; cbn; rewrite ?Hoff;
          [exact Hsince | intros _; reflexivity].
      * destruct H as (-> & _). split; rewrite ?Hoff; assumption.
    + destruct (_ && _)%bool.
      * destruct H as (cp & -> & _). split; cbn; [|intros _; reflexivity].
        split; [discriminate | reflexivity].
      * destruct H as (-> & _). split; cbn; [|discriminate].
        split; [discriminate | reflexivity].
  - destruct (0 <? _).
    + destruct H as (-> & _). split; cbn; [|discriminate].
      split; [discriminate | congruence].
    + destruct H as (-> & _). split; assumption.
Qed.

Lemma tick_alert_shape net tk s :
  Forall (alert_shape (rpcs net)) (all_offline_alerts net (Eff.trace_of (tick tk s))).
Proof.
  destruct (cachedConfig s) as [config|] eqn:Hcfg;
    [|rewrite tick_unconfigured by exact Hcfg; constructor].
  pose proof (tick_cases rpcs firstValidatorId config net tk s Hcfg) as H.
  cbv zeta in H. destruct H as (_ & _ & H).
  destruct ((_ =? 0) && _)%bool.
  - destruct (_ && _)%bool eqn:Hfire.
    + destruct H as (cp & _ & -> & _).
      apply andb_true_iff in Hfire. destruct Hfire as [Hd _]. apply Z.leb_le in Hd.
      constructor; [|constructor].
      repeat (split; [reflexivity|]). eexists. split; [exact Hd | reflexivity].
    + destruct H as (_ & _ & ->). constructor.
  - destruct H as (_ & _ & ->). constructor.
Qed.

Lemma healthRun_alerts_forall net (P : RpcAlertPayload.t -> Prop) :
  (forall tk s, Forall P (all_offline_alerts net (Eff.trace_of (tick tk s)))) ->
  forall ticks s,
    Forall P (all_offline_alerts net (snd (healthRun rpcs firstValidatorId ticks s))).
Proof.
  intros Hstep. induction ticks as [|tk rest IH]; intros s; [constructor|].
  cbn [healthRun]. specialize (Hstep tk s).
  destruct (tick tk s) as [[[] s1] t1]. unfold Eff.trace_of in Hstep. cbn [fst snd] in Hstep.
  specialize (IH s1).
  destruct (healthRun rpcs firstValidatorId rest s1) as [s2 t2]. cbn [snd] in IH |- *.
  rewrite all_offline_alerts_app. apply Forall_app. split; assumption.
Qed.

Lemma tick_no_endpoints net tk s :
  rpcs net = [] ->
  offline (Eff.state_of (tick tk s)) net = offline s net
  /\ all_offline_alerts net (Eff.trace_of (tick tk s)) = [].
Proof.
  intros Hrpcs.
  destruct (cachedConfig s) as [config|] eqn:Hcfg;
    [|rewrite tick_unconfigured by exact Hcfg; split; reflexivity].
  pose proof (tick_cases rpcs firstValidatorId config net tk s Hcfg) as H.
  cbv zeta in H. destruct H as (_ & _ & H).
  assert (Hzero : healthyIn rpcs firstValidatorId config tk net s = 0).
  { unfold healthyIn. rewrite Hrpcs. reflexivity. }
  rewrite Hzero, Hrpcs in H. cbn [length Z.of_nat Z.eqb Z.ltb Z.compare andb] in H.
  destruct H as (-> & _ & ->). split; reflexivity.
Qed.

(** The alerts of network [net] in one run, when no height of the chain
    is known yet: none and still no known height, or one that reports
    no progress of the chain. *)
Lemma tick_baseline net tk s :
  at_network (lastKnownHeight s) net = 0 ->
  (all_offline_alerts net (Eff.trace_of (tick tk s)) = []
   /\ at_network (lastKnownHeight (Eff.state_of (tick tk s))) net = 0)
  \/ exists p,
       all_offline_alerts net (Eff.trace_of (tick tk s)) = [p]
       /\ RpcAlertPayload.chainProgressing p = Some false.
Proof.
  intros Hzero.
  destruct (cachedConfig s) as [config|] eqn:Hcfg;
    [|rewrite tick_unconfigured by exact Hcfg; left; split; [reflexivity | exact Hzero]].
  pose proof (tick_cases rpcs firstValidatorId config net tk s Hcfg) as H.
  cbv zeta in H. destruct H as (_ & _ & H).
  destruct ((_ =? 0) && _)%bool.
  - destruct (_ && _)%bool.
    + destruct H as (cp & _ & -> & Hcp). right. eexists. split; [reflexivity|].
      cbn. destruct cp; [|reflexivity]. specialize (Hcp eq_refl). lia.
    + destruct H as (_ & -> & ->). left. split; [reflexivity | exact Hzero].
  - destruct H as (_ & -> & ->). left. split; [reflexivity | exact Hzero].
Qed.

Lemma healthRun_baseline net ticks : forall s,
  at_network (lastKnownHeight s) net = 0 ->
  match all_offline_alerts net (snd (healthRun rpcs firstValidatorId ticks s)) with
  | [] => True
  | first :: _ => RpcAlertPayload.chainProgressing first = Some false
  end.
Proof.
  induction ticks as [|tk rest IH]; intros s Hzero; [exact I|].
  cbn [healthRun]. pose proof (tick_baseline net tk s Hzero) as Hstep.
  destruct (tick tk s) as [[[] s1] t1].
  unfold Eff.trace_of, Eff.state_of in Hstep. cbn [fst snd] in Hstep.
  specialize (IH s1).
  destruct (healthRun rpcs firstValidatorId rest s1) as [s2 t2]. cbn [snd] in IH |- *.
  rewrite all_offline_alerts_app.
  destruct Hstep as [[-> Hnext] | (p & -> & Hp)].
  - apply IH. exact Hnext.
  - exact Hp.
Qed.
Lemma healthRun_no_endpoints net ticks : forall s,
  rpcs net = [] ->
  offline (fst (healthRun rpcs firstValidatorId ticks s)) net = offline s net
  /\ all_offline_alerts net (snd (healthRun rpcs firstValidatorId ticks s)) = [].
Proof.
  induction ticks as [|tk rest IH]; intros s Hrpcs; [split; reflexivity|].
  cbn [healthRun]. pose proof (tick_no_endpoints net tk s Hrpcs) as [Hoff Halerts].
  destruct (tick tk s) as [[[] s1] t1].
  unfold Eff.trace_of, Eff.state_of in Hoff, Halerts. cbn [fst snd] in Hoff, Halerts.
  destruct (IH s1 Hrpcs) as [IHoff IHalerts].
  destruct (healthRun rpcs firstValidatorId rest s1) as [s2 t2]. cbn [fst snd] in *.
  rewrite all_offline_alerts_app, Halerts, IHalerts, IHoff, Hoff. split; reflexivity.
Qed.
End HealthRunFacts.

(** X9. Every all-offline record the health check keeps is well formed,
    from the start and after any number of runs with any answers of
    the endpoints: a network is marked offline exactly when the time its
    outage began is recorded, and an alert is marked as sent only while
    the network is marked offline. *)
Theorem offline_record_invariant
    (rpcs : Alerts.Network -> list string) (firstValidatorId : Alerts.Network -> string)
    (net : Alerts.Network) :
  Invariants.offline_wf
    (Instrumentation.at_network (Instrumentation.allOfflineState Instrumentation.initial) net)
  /\ forall ticks s,
       Invariants.offline_wf
         (Instrumentation.at_network (Instrumentation.allOfflineState s) net) ->
       Invariants.offline_wf
         (Instrumentation.at_network
            (Instrumentation.allOfflineState
               (fst (Runs.healthRun rpcs firstValidatorId ticks s))) net).
Proof.
  split.
  - destruct net; (split; cbn; [split; [discriminate | congruence] | discriminate]).
  - intros ticks s.
    apply (healthRun_invariant rpcs firstValidatorId
             (fun s => Invariants.offline_wf
                         (Instrumentation.at_network (Instrumentation.allOfflineState s) net))).
    intros tk s0. apply tick_offline_wf.
Qed.

Lemma offline_record_invariant_witness :
  let rpcs := fun net : Alerts.Network =>
    match net with
    | Alerts.mainnet => ["https://monad-rpc.huginn.tech"]
    | Alerts.testnet => []
    end in
  let s :=
    {| Instrumentation.validatorBlockStates := ∅;
       Instrumentation.cachedConfig :=
         Some {| Instrumentation.targets := {| Alerts.telegram := None; Alerts.discord := None |};
                 Instrumentation.validatorName := None |};
       Instrumentation.rpcHeights := ∅;
       Instrumentation.allOfflineState :=
         {| Instrumentation.on_mainnet :=
              {| Instrumentation.isOffline := true; Instrumentation.since := Some 1000;
                 Instrumentation.alertSent := true |};
            Instrumentation.on_testnet :=
              {| Instrumentation.isOffline := false; Instrumentation.since := None;
                 Instrumentation.alertSent := false |} |};
       Instrumentation.lastKnownHeight := Instrumentation.lastKnownHeight Instrumentation.initial |} in
  let down := fun ms : Z =>
    {| Instrumentation.probe := fun _ _ => Http.Failed;
       Instrumentation.now := fun _ => ms;
       Instrumentation.uptime := fun _ => Instrumentation.UptimeNone |} in
  Invariants.offline_wf
    (Instrumentation.at_network
       (Instrumentation.allOfflineState
          (fst (Runs.healthRun rpcs (fun _ => "17") [down 200000; down 260000] s)))
       Alerts.mainnet).
Proof.
  intros rpcs s down.
  apply (proj2 (offline_record_invariant rpcs (fun _ => "17") Alerts.mainnet)).
  cbn. split; [split; [discriminate | reflexivity] | reflexivity].
Defined.

(** X10. Every [all_offline] alert the health check sends for a
    network, in any run and from any state, lists all the configured
    endpoints of that network joined by a comma and a space, is marked
    primary, names no failover, and reports a downtime of at least
    three minutes. *)
Theorem all_offline_alert_shape
    (rpcs : Alerts.Network -> list string) (firstValidatorId : Alerts.Network -> string)
    (net : Alerts.Network) (ticks : list Instrumentation.Tick) (s : Instrumentation.State) :
  Forall (Invariants.alert_shape (rpcs net))
    (Runs.all_offline_alerts net (snd (Runs.healthRun rpcs firstValidatorId ticks s))).
Proof.
  apply healthRun_alerts_forall. intros tk s0. apply tick_alert_shape.
Qed.

(** X11. A network with no configured endpoint is never marked offline
    by the health check and never gets an [all_offline] alert: its
    record stays as it was through any number of runs. *)
Theorem no_endpoints_no_outage
    (rpcs : Alerts.Network -> list string) (firstValidatorId : Alerts.Network -> string)
    (net : Alerts.Network) (ticks : list Instrumentation.Tick) (s : Instrumentation.State) :
  rpcs net = [] ->
  Instrumentation.at_network
    (Instrumentation.allOfflineState (fst (Runs.healthRun rpcs firstValidatorId ticks s))) net
  = Instrumentation.at_network (Instrumentation.allOfflineState s) net
  /\ Runs.all_offline_alerts net (snd (Runs.healthRun rpcs firstValidatorId ticks s)) = [].
Proof.
  intros Hrpcs. apply healthRun_no_endpoints. exact Hrpcs.
Qed.

Lemma no_endpoints_no_outage_witness :
  let rpcs := fun net : Alerts.Network =>
    match net with
    | Alerts.mainnet => ["https://monad-rpc.huginn.tech"]
    | Alerts.testnet => []
    end in
  let s :=
    {| Instrumentation.validatorBlockStates := ∅;
       Instrumentation.cachedConfig :=
         Some {| Instrumentation.targets := {| Alerts.telegram := None; Alerts.discord := None |};
                 Instrumentation.validatorName := None |};
       Instrumentation.rpcHeights := ∅;
       Instrumentation.allOfflineState := Instrumentation.allOfflineState Instrumentation.initial;
       Instrumentation.lastKnownHeight := Instrumentation.lastKnownHeight Instrumentation.initial |} in
  let down := fun ms : Z =>
    {| Instrumentation.probe := fun _ _ => Http.Failed;
       Instrumentation.now := fun _ => ms;
       Instrumentation.uptime := fun _ => Instrumentation.UptimeNone |} in
  let run := Runs.healthRun rpcs (fun _ => "17") [down 0; down 180000; down 360000] s in
  Instrumentation.at_network (Instrumentation.allOfflineState (fst run)) Alerts.testnet
  = Instrumentation.at_network (Instrumentation.allOfflineState s) Alerts.testnet
  /\ Runs.all_offline_alerts Alerts.testnet (snd run) = [].
Proof.
  intros rpcs s down.
  apply (no_endpoints_no_outage rpcs (fun _ => "17") Alerts.testnet). reflexivity.
Defined.

(** X12. The first [all_offline] alert of a network never reports that
    the chain is progressing.  The health check compares the height
    the uptime service gives with the one it last stored, and it
    stores one only when it sends an alert: as long as no height is
    known for the network (as at the start), whatever the uptime
    service answers, the first alert of any run carries
    [chainProgressing = false]. *)
Theorem first_alert_reports_no_progress
    (rpcs : Alerts.Network -> list string) (firstValidatorId : Alerts.Network -> string)
    (net : Alerts.Network) (ticks : list Instrumentation.Tick) (s : Instrumentation.State) :
  Instrumentation.at_network (Instrumentation.lastKnownHeight s) net = 0 ->
  match Runs.all_offline_alerts net (snd (Runs.healthRun rpcs firstValidatorId ticks s)) with
  | [] => True
  | first :: _ => Alerts.RpcAlertPayload.chainProgressing first = Some false
  end.
Proof.
  apply healthRun_baseline.
Qed.

Lemma first_alert_reports_no_progress_witness :
  let rpcs := fun net : Alerts.Network =>
    match net with
    | Alerts.mainnet => ["https://monad-rpc.huginn.tech"]
    | Alerts.testnet => []
    end in
  let s :=
    {| Instrumentation.validatorBlockStates := ∅;
       Instrumentation.cachedConfig :=
         Some {| Instrumentation.targets := {| Alerts.telegram := None; Alerts.discord := None |};
                 Instrumentation.validatorName := None |};
       Instrumentation.rpcHeights := ∅;
       Instrumentation.allOfflineState := Instrumentation.allOfflineState Instrumentation.initial;
       Instrumentation.lastKnownHeight := Instrumentation.lastKnownHeight Instrumentation.initial |} in
  let down := fun ms : Z =>
    {| Instrumentation.probe := fun _ _ => Http.Failed;
       Instrumentation.now := fun _ => ms;
       Instrumentation.uptime := fun _ => Instrumentation.UptimeHeight (5000 + ms) |} in
  match Runs.all_offline_alerts Alerts.mainnet
          (snd (Runs.healthRun rpcs (fun _ => "17") [down 0; down 180000] s)) with
  | [] => True
  | first :: _ => Alerts.RpcAlertPayload.chainProgressing first = Some false
  end.
Proof.
  intros rpcs s down.
  apply (first_alert_reports_no_progress rpcs (fun _ => "17") Alerts.mainnet). reflexivity.
Defined.

(** ** The missed-block tracker, case by case *)

Section TrackerEquations.
Import Alerts Instrumentation Runs Invariants.

(** One check of one validator. *)
Lemma checkValidatorMissedBlocks_eq validatorId network validatorName reply s :
  let key := getKey validatorId network in
  checkValidatorMissedBlocks validatorId network validatorName reply s
  = match cachedConfig s, reply with
    | Some config, HistoryLatest latest =>
        let tg := telegram (targets config) in
        let dc := discord (targets config) in
        match validatorBlockStates s !! key with
        | None =>
            (tt,
             set_validatorBlockStates (insert key
               {| lastRound := round latest;
                  lastStatus := status latest;
                  consecutiveMisses := if is_timeout (status latest) then 1 else 0;
                  alertedForMiss := false |}) s,
             [ConsoleLog (LogSeed (is_timeout (status latest)) (round latest))])
        | Some prev =>
            if round latest =? lastRound prev then (tt, s, [])
            else if is_timeout (status latest) then
              (tt,
               set_validatorBlockStates (insert key
                 {| lastRound := round latest;
                    lastStatus := timeout;
                    consecutiveMisses := consecutiveMisses prev + 1;
                    alertedForMiss := true |}) s,
               ConsoleLog (LogMissed (round latest) (consecutiveMisses prev + 1))
               :: chat_calls tg dc
                    (AlertPayload.mk validatorName network (block_height latest)
                       (round latest) missed (Some (consecutiveMisses prev + 1)) None))
            else
              (tt,
               set_validatorBlockStates (insert key
                 {| lastRound := round latest;
                    lastStatus := finalized;
                    consecutiveMisses := 0;
                    alertedForMiss := false |}) s,
               if ((0 <? consecutiveMisses prev) && alertedForMiss prev)%bool then
                 ConsoleLog (LogRecovered (round latest) (consecutiveMisses prev))
                 :: chat_calls tg dc
                      (AlertPayload.mk validatorName network (block_height latest)
                         (round latest) recovered None (Some (consecutiveMisses prev)))
               else [ConsoleLog (LogFinalized (round latest))])
        end
    | Some _, HistoryThrows => (tt, s, [ConsoleLog LogError])
    | _, _ => (tt, s, [])
    end.
Proof.
  intros key. subst key. unfold getKey, checkValidatorMissedBlocks.
  unfold Eff.bind at 1. unfold Eff.get at 1.
  destruct (cachedConfig s) as [config|]; [|reflexivity].
  destruct reply as [| |latest]; [reflexivity | reflexivity |].
  destruct (validatorBlockStates s !! _) as [prev|]; [|reflexivity].
  destruct (round latest =? lastRound prev); [reflexivity|].
  destruct (is_timeout (status latest)).
  - unfold Eff.bind, Eff.modify, Eff.emit. rewrite sendAlerts_eq. reflexivity.
  - destruct ((0 <? consecutiveMisses prev) && alertedForMiss prev)%bool.
    + unfold Eff.bind, Eff.modify, Eff.emit. rewrite sendAlerts_eq. reflexivity.
    + reflexivity.
Qed.

Lemma set_validatorBlockStates_same s :
  set_validatorBlockStates (fun _ => validatorBlockStates s) s = s.
Proof. destruct s; reflexivity. Qed.

(** A check writes the record of its own key at most, and keeps the
    rest of the module state. *)
Lemma check_frame validatorId network validatorName reply s :
  let r := checkValidatorMissedBlocks validatorId network validatorName reply s in
  cachedConfig (Eff.state_of r) = cachedConfig s
  /\ rpcHeights (Eff.state_of r) = rpcHeights s
  /\ allOfflineState (Eff.state_of r) = allOfflineState s
  /\ lastKnownHeight (Eff.state_of r) = lastKnownHeight s
  /\ forall other, other <> getKey validatorId network ->
       validatorBlockStates (Eff.state_of r) !! other = validatorBlockStates s !! other.
Proof.
  cbv zeta. rewrite checkValidatorMissedBlocks_eq. cbv zeta.
  destruct (cachedConfig s) as [config|] eqn:Hcfg, reply as [| |latest];
    try (repeat split; reflexivity || assumption).
  destruct (validatorBlockStates s !! _) as [prev|].
  - destruct (round latest =? lastRound prev);
      [repeat split; reflexivity || assumption|].
    destruct (is_timeout (status latest));
      (repeat split; try reflexivity; try assumption;
       intros other Hne; cbn; apply lookup_insert_ne; congruence).
  - repeat split; try reflexivity; try assumption.
    intros other Hne; cbn; apply lookup_insert_ne; congruence.
Qed.

(** The record of the key after a check is well formed if the one
    before was. *)
Lemma check_tracker_wf validatorId network validatorName reply s :
  map_Forall (fun _ => tracker_wf) (validatorBlockStates s) ->
  map_Forall (fun _ => tracker_wf)
    (validatorBlockStates
       (Eff.state_of (checkValidatorMissedBlocks validatorId network validatorName reply s))).
Proof.
  intros Hwf. rewrite checkValidatorMissedBlocks_eq. cbv zeta.
  destruct (cachedConfig s) as [config|], reply as [| |latest]; try exact Hwf.
  destruct (validatorBlockStates s !! _) as [prev|] eqn:Hprev.
  - destruct (round latest =? lastRound prev); [exact Hwf|].
    pose proof (Hwf _ _ Hprev) as (Hpos & Hstatus & Halerted).
    destruct (is_timeout (status latest)); cbn; apply map_Forall_insert_2; try exact Hwf.
    + split; cbn; [lia|]. split; [split; [lia | reflexivity] | reflexivity].
    + split; cbn; [lia|]. split; [split; [discriminate | lia] | discriminate].
  - cbn. apply map_Forall_insert_2; [|exact Hwf].
    destruct (status latest); cbn; (split; cbn; [lia|]);
      (split; [split; [try discriminate; try lia | try lia; try reflexivity] | discriminate]).
Qed.

Lemma chat_payloads_app (t1 t2 : list Call) :
  chat_payloads (t1 ++ t2) = chat_payloads t1 ++ chat_payloads t2.
Proof. unfold chat_payloads. apply flat_map_app. Qed.

Lemma chat_payloads_chat_calls (P : AlertPayload.t -> Prop) tg dc payload :
  P payload -> Forall P (chat_payloads (chat_calls tg dc payload)).
Proof.
  intros Hp. unfold chat_calls. destruct tg, dc; cbn; repeat constructor; exact Hp.
Qed.

(** The alerts of one check: they carry the name and network the check
    was called with and, when the records are well formed, a streak of
    one or more. *)
Lemma check_payloads validatorId network validatorName reply s :
  let t := Eff.trace_of (checkValidatorMissedBlocks validatorId network validatorName reply s) in
  Forall (fun p => AlertPayload.validator p = validatorName
                   /\ AlertPayload.network p = network)
         (chat_payloads t)
  /\ (map_Forall (fun _ => tracker_wf) (validatorBlockStates s) ->
      Forall counted (chat_payloads t)).
Proof.
  cbv zeta. rewrite checkValidatorMissedBlocks_eq. cbv zeta.
  destruct (cachedConfig s) as [config|], reply as [| |latest];
    try (split; [constructor | intros _; constructor]).
  destruct (validatorBlockStates s !! _) as [prev|] eqn:Hprev;
    [|split; [constructor | intros _; constructor]].
  destruct (round latest =? lastRound prev); [split; [constructor | intros _; constructor]|].
  destruct (is_timeout (status latest)).
  - split.
    + apply (chat_payloads_chat_calls _ _ _ _). split; reflexivity.
    + intros Hwf. pose proof (Hwf _ _ Hprev) as (Hpos & _).
      apply (chat_payloads_chat_calls _ _ _ _). split; [reflexivity|].
      eexists. split; [reflexivity | lia].
  - destruct (0 <? consecutiveMisses prev) eqn:Hmiss; cbn [andb];
      [destruct (alertedForMiss prev)|]; try (split; [constructor | intros _; constructor]).
    apply Z.ltb_lt in Hmiss. split.
    + apply (chat_payloads_chat_calls _ _ _ _). split; reflexivity.
    + intros _. apply (chat_payloads_chat_calls _ _ _ _). split; [reflexivity|].
      eexists. split; [reflexivity | lia].
Qed.

(** The loop over the validators of a network keeps what every check
    keeps, and all its alerts are as the alerts of every check are. *)
Lemma checkEach_forall config network (P : State -> Prop) (Q : AlertPayload.t -> Prop)
    (all : list string) :
  (forall validatorId reply s,
      validatorId ∈ all ->
      P s ->
      let r := checkValidatorMissedBlocks validatorId network
                 (Monitor.displayName config validatorId) reply s in
      P (Eff.state_of r) /\ Forall Q (chat_payloads (Eff.trace_of r))) ->
  forall validators i reply s,
    validators ⊆ all ->
    P s ->
    let r := Monitor.checkEach config network validators i reply s in
    P (Eff.state_of r) /\ Forall Q (chat_payloads (Eff.trace_of r)).
Proof.
  intros Hstep. induction validators as [|validatorId rest IH]; intros i reply s Hsub Hs.
  - split; [exact Hs | constructor].
  - cbn [Monitor.checkEach]. cbv zeta. unfold Eff.bind.
    assert (Hin : validatorId ∈ all) by (apply Hsub; constructor).
    specialize (Hstep validatorId (reply i) s Hin Hs). cbv zeta in Hstep.
    destruct (checkValidatorMissedBlocks _ _ _ _ s) as [[[] s1] t1].
    unfold Eff.state_of, Eff.trace_of in Hstep. cbn [fst snd] in Hstep.
    destruct Hstep as [Hs1 Ht1].
    assert (Hsub' : rest ⊆ all).
    { intros x Hx. apply Hsub. constructor. exact Hx. }
    specialize (IH (S i) reply s1 Hsub' Hs1). cbv zeta in IH.
    destruct (Monitor.checkEach config network rest (S i) reply s1) as [[[] s2] t2].
    unfold Eff.state_of, Eff.trace_of in IH |- *. cbn [fst snd] in IH |- *.
    destruct IH as [Hs2 Ht2]. split; [exact Hs2|].
    rewrite chat_payloads_app. apply Forall_app. split; assumption.
Qed.

Lemma runMissedBlockCheck_eq MAINNET_VALIDATORS TESTNET_VALIDATORS reply s :
  Monitor.runMissedBlockCheck MAINNET_VALIDATORS TESTNET_VALIDATORS reply s
  = match cachedConfig s with
    | None => (tt, s, [])
    | Some config =>
        let '(_, s1, t1) :=
          Monitor.checkEach config mainnet (Monitor.envList MAINNET_VALIDATORS) 0
            (reply mainnet) s in
        let '(_, s2, t2) :=
          Monitor.checkEach config testnet (Monitor.envList TESTNET_VALIDATORS) 0
            (reply testnet) s1 in
        (tt, s2, t1 ++ t2)
    end.
Proof.
  unfold Monitor.runMissedBlockCheck. unfold Eff.bind at 1. unfold Eff.get at 1.
  destruct (cachedConfig s) as [config|]; [|reflexivity].
  unfold Eff.bind.
  destruct (Monitor.checkEach config mainnet _ _ _ s) as [[[] s1] t1].
  destruct (Monitor.checkEach config testnet _ _ _ s1) as [[[] s2] t2].
  reflexivity.
Qed.

(** The same for a whole run of the missed-block check; [P] may depend
    on the configuration it finds. *)
Lemma runMissedBlockCheck_forall MAINNET_VALIDATORS TESTNET_VALIDATORS
    (P : State -> Prop) (Q : AlertConfig -> AlertPayload.t -> Prop) :
  (forall config network validatorId reply s,
      validatorId ∈ Monitor.envList
                      (match network with
                       | mainnet => MAINNET_VALIDATORS
                       | testnet => TESTNET_VALIDATORS
                       end) ->
      cachedConfig s = Some config ->
      P s ->
      let r := checkValidatorMissedBlocks validatorId network
                 (Monitor.displayName config validatorId) reply s in
      P (Eff.state_of r) /\ Forall (Q config) (chat_payloads (Eff.trace_of r))) ->
  forall reply s,
    P s ->
    let r := Monitor.runMissedBlockCheck MAINNET_VALIDATORS TESTNET_VALIDATORS reply s in
    P (Eff.state_of r)
    /\ cachedConfig (Eff.state_of r) = cachedConfig s
    /\ forall config, cachedConfig s = Some config ->
         Forall (Q config) (chat_payloads (Eff.trace_of r)).
Proof.
  intros Hstep reply s Hs. cbv zeta.
  rewrite runMissedBlockCheck_eq.
  destruct (cachedConfig s) as [config|] eqn:Hcfg;
    [|split; [exact Hs|]; split; [exact Hcfg | intros ? ?; discriminate]].
  set (P' := fun s => cachedConfig s = Some config /\ P s).
  assert (Hstep' : forall network validatorId reply s,
    validatorId ∈ Monitor.envList
                    (match network with
                     | mainnet => MAINNET_VALIDATORS
                     | testnet => TESTNET_VALIDATORS
                     end) ->
    P' s ->
    let r := checkValidatorMissedBlocks validatorId network
               (Monitor.displayName config validatorId) reply s in
    P' (Eff.state_of r) /\ Forall (Q config) (chat_payloads (Eff.trace_of r))).
  { intros network validatorId reply0 s0 Hin [Hc0 Hp0]. cbv zeta.
    destruct (Hstep config network validatorId reply0 s0 Hin Hc0 Hp0) as [Hp1 Hq1].
    split; [|exact Hq1]. split; [|exact Hp1].
    destruct (check_frame validatorId network (Monitor.displayName config validatorId)
                reply0 s0) as (-> & _). exact Hc0. }
  unfold Eff.bind.
  pose proof (checkEach_forall config mainnet P' (Q config) _ (Hstep' mainnet)
                (Monitor.envList MAINNET_VALIDATORS) 0%nat (reply mainnet) s
                ltac:(intros x Hx; exact Hx) (conj Hcfg Hs)) as Hm.
  cbv zeta in Hm.
  destruct (Monitor.checkEach config mainnet _ 0%nat (reply mainnet) s) as [[[] s1] t1].
  unfold Eff.state_of, Eff.trace_of in Hm. cbn [fst snd] in Hm. destruct Hm as [Hs1 Ht1].
  pose proof (checkEach_forall config testnet P' (Q config) _ (Hstep' testnet)
                (Monitor.envList TESTNET_VALIDATORS) 0%nat (reply testnet) s1
                ltac:(intros x Hx; exact Hx) Hs1) as Ht.
  cbv zeta in Ht.
  destruct (Monitor.checkEach config testnet _ 0%nat (reply testnet) s1) as [[[] s2] t2].
  unfold Eff.state_of, Eff.trace_of in Ht |- *. cbn [fst snd] in Ht |- *.
  destruct Ht as [[Hc2 Hs2] Ht2].
  split; [exact Hs2|]. split; [congruence|].
  intros config' Heq. injection Heq as <-.
  rewrite chat_payloads_app. apply Forall_app. split; assumption.
Qed.
End TrackerEquations.

Section TrackerRuns.
Import Alerts Instrumentation Runs Invariants.

Variables (validatorId : string) (network : Network) (validatorName : string).
Variable config : AlertConfig.

Local Abbreviation key := (getKey validatorId network).
Local Abbreviation track := (trackRun validatorId network validatorName).
Local Abbreviation tg := (telegram (targets config)).
Local Abbreviation dc := (discord (targets config)).

Lemma trackRun_cons reply rest s :
  track (reply :: rest) s
  = let r := checkValidatorMissedBlocks validatorId network validatorName reply s in
    (Eff.trace_of r :: fst (track rest (Eff.state_of r)), snd (track rest (Eff.state_of r))).
Proof.
  cbn [trackRun]. cbv zeta.
  destruct (checkValidatorMissedBlocks _ _ _ reply s) as [[[] s1] t1].
  unfold Eff.trace_of, Eff.state_of. cbn [fst snd].
  destruct (trackRun _ _ _ rest s1). reflexivity.
Qed.

(** A streak of misses after an observed block, and the block that ends
    it. *)
Lemma streak_then_recovery misses : forall s prev final,
  cachedConfig s = Some config ->
  validatorBlockStates s !! key = Some prev ->
  fresh_rounds (lastRound prev) (map fst (misses ++ [final])) ->
  misses <> [] \/ (0 < consecutiveMisses prev /\ alertedForMiss prev = true) ->
  0 <= consecutiveMisses prev ->
  fst (track (map timeout_at misses ++ [finalized_at final]) s)
  = imap (fun i rh =>
            ConsoleLog (LogMissed (fst rh) (consecutiveMisses prev + Z.of_nat i + 1))
            :: chat_calls tg dc
                 (AlertPayload.mk validatorName network (snd rh) (fst rh) missed
                    (Some (consecutiveMisses prev + Z.of_nat i + 1)) None))
         misses
    ++ [ConsoleLog (LogRecovered (fst final)
                      (consecutiveMisses prev + Z.of_nat (length misses)))
        :: chat_calls tg dc
             (AlertPayload.mk validatorName network (snd final) (fst final) recovered None
                (Some (consecutiveMisses prev + Z.of_nat (length misses))))].
Proof.
  induction misses as [|rh rest IH]; intros s prev final Hcfg Hprev Hfresh Hsome Hpos.
  - destruct Hsome as [Hne | [Hmiss Halerted]]; [congruence|].
    cbn [map app fresh_rounds] in Hfresh. destruct Hfresh as [Hround _].
    cbn [map app imap length Z.of_nat]. rewrite trackRun_cons. cbv zeta. cbn [trackRun fst].
    pose proof (check_recovered validatorId network validatorName config s prev
               {| round := fst final; block_height := snd final; status := finalized |}
               Hcfg Hprev Hround eq_refl Hmiss Halerted) as Hstep.
    fold (finalized_at final) in Hstep. rewrite Hstep.
    unfold Eff.trace_of. cbn [fst snd round block_height]. rewrite Z.add_0_r. reflexivity.
  - cbn [map app fresh_rounds] in Hfresh. destruct Hfresh as [Hround Hfresh].
    cbn [map app]. rewrite trackRun_cons. cbv zeta.
    pose proof (check_missed validatorId network validatorName config s prev
               {| round := fst rh; block_height := snd rh; status := timeout |}
               Hcfg Hprev Hround eq_refl) as Hstep.
    fold (timeout_at rh) in Hstep. rewrite Hstep.
    unfold Eff.trace_of, Eff.state_of. cbn [fst snd round block_height].
    set (prev' := {| lastRound := fst rh; lastStatus := timeout;
                     consecutiveMisses := consecutiveMisses prev + 1;
                     alertedForMiss := true |}).
    rewrite (IH _ prev' final).
    + subst prev'. cbn [imap length consecutiveMisses]. rewrite Z.add_0_r.
      rewrite <- app_comm_cons. f_equal. f_equal.
      * apply imap_ext. intros i x _. cbn.
        replace (consecutiveMisses prev + Z.of_nat (S i) + 1)
          with (consecutiveMisses prev + 1 + Z.of_nat i + 1) by lia.
        reflexivity.
      * replace (consecutiveMisses prev + Z.of_nat (S (length rest)))
          with (consecutiveMisses prev + 1 + Z.of_nat (length rest)) by lia.
        reflexivity.
    + exact Hcfg.
    + cbn. apply lookup_insert_eq.
    + exact Hfresh.
    + right. cbn. split; [lia | reflexivity].
    + cbn. lia.
Qed.
End TrackerRuns.

(** X13. A streak of misses of any length, as the missed-block tracker
    reports it.  After an observed block, successive history answers
    that are timeouts of new rounds each send one missed alert, the
    i-th with the streak grown by i, and the finalized block of a new
    round that follows sends one recovered alert whose previous streak
    is the whole streak. *)
Theorem streak_of_misses
    (validatorId : string) (network : Alerts.Network) (validatorName : string)
    (config : Instrumentation.AlertConfig) (s : Instrumentation.State)
    (prev : Instrumentation.ValidatorBlockState)
    (misses : list (Z * option Z)) (final : Z * option Z) :
  let tg := Alerts.telegram (Instrumentation.targets config) in
  let dc := Alerts.discord (Instrumentation.targets config) in
  let m0 := Instrumentation.consecutiveMisses prev in
  Instrumentation.cachedConfig s = Some config ->
  Instrumentation.validatorBlockStates s !! Alerts.getKey validatorId network = Some prev ->
  0 <= m0 ->
  misses <> [] ->
  Invariants.fresh_rounds (Instrumentation.lastRound prev) (map fst (misses ++ [final])) ->
  fst (Runs.trackRun validatorId network validatorName
         (map Invariants.timeout_at misses ++ [Invariants.finalized_at final]) s)
  = imap (fun i rh =>
            Alerts.ConsoleLog (Alerts.LogMissed (fst rh) (m0 + Z.of_nat i + 1))
            :: Runs.chat_calls tg dc
                 (Alerts.AlertPayload.mk validatorName network (snd rh) (fst rh) Alerts.missed
                    (Some (m0 + Z.of_nat i + 1)) None))
         misses
    ++ [Alerts.ConsoleLog (Alerts.LogRecovered (fst final) (m0 + Z.of_nat (length misses)))
        :: Runs.chat_calls tg dc
             (Alerts.AlertPayload.mk validatorName network (snd final) (fst final)
                Alerts.recovered None (Some (m0 + Z.of_nat (length misses))))].
Proof.
  intros tg dc m0 Hcfg Hprev Hpos Hne Hfresh.
  apply streak_then_recovery; try assumption. left. exact Hne.
Qed.

Lemma streak_of_misses_witness :
  let config :=
    {| Instrumentation.targets :=
         {| Alerts.telegram := Some {| Alerts.botToken := "T0KEN"; Alerts.chatId := "42" |};
            Alerts.discord := None |};
       Instrumentation.validatorName := Some "Huginn" |} in
  let prev :=
    {| Instrumentation.lastRound := 900; Instrumentation.lastStatus := Instrumentation.finalized;
       Instrumentation.consecutiveMisses := 0; Instrumentation.alertedForMiss := false |} in
  let s :=
    {| Instrumentation.validatorBlockStates := {[ "17-mainnet" := prev ]};
       Instrumentation.cachedConfig := Some config;
       Instrumentation.rpcHeights := ∅;
       Instrumentation.allOfflineState := Instrumentation.allOfflineState Instrumentation.initial;
       Instrumentation.lastKnownHeight := Instrumentation.lastKnownHeight Instrumentation.initial |} in
  let tgcall p := Alerts.SendTelegramAlert "T0KEN" "42" p in
  fst (Runs.trackRun "17" Alerts.mainnet "Huginn"
         (map Invariants.timeout_at [(901, None); (902, None); (907, None)]
          ++ [Invariants.finalized_at (908, Some 5001)]) s)
  = [ [Alerts.ConsoleLog (Alerts.LogMissed 901 1);
       tgcall (Alerts.AlertPayload.mk "Huginn" Alerts.mainnet None 901 Alerts.missed (Some 1) None)];
      [Alerts.ConsoleLog (Alerts.LogMissed 902 2);
       tgcall (Alerts.AlertPayload.mk "Huginn" Alerts.mainnet None 902 Alerts.missed (Some 2) None)];
      [Alerts.ConsoleLog (Alerts.LogMissed 907 3);
       tgcall (Alerts.AlertPayload.mk "Huginn" Alerts.mainnet None 907 Alerts.missed (Some 3) None)];
      [Alerts.ConsoleLog (Alerts.LogRecovered 908 3);
       tgcall (Alerts.AlertPayload.mk "Huginn" Alerts.mainnet (Some 5001) 908 Alerts.recovered
                 None (Some 3))] ].
Proof.
  intros config prev s tgcall.
  apply (streak_of_misses "17" Alerts.mainnet "Huginn" config s prev
           [(901, None); (902, None); (907, None)] (908, Some 5001)).
  - reflexivity.
  - reflexivity.
  - cbn. lia.
  - discriminate.
  - cbn. repeat split; lia.
Defined.

(** X14. A miss that is the first thing the tracker sees of a validator
    is never alerted.  When the first history answer for a validator is
    a timeout, the tracker only seeds its record; if the next new round
    is finalized, no recovered alert is sent either; and if the next
    new round is a timeout again, the missed alert that is sent
    reports a streak of two. *)
Theorem first_miss_is_silent
    (validatorId : string) (network : Alerts.Network) (validatorName : string)
    (config : Instrumentation.AlertConfig) (s : Instrumentation.State)
    (first next : Z * option Z) :
  Instrumentation.cachedConfig s = Some config ->
  Instrumentation.validatorBlockStates s !! Alerts.getKey validatorId network = None ->
  fst next <> fst first ->
  fst (Runs.trackRun validatorId network validatorName
         [Invariants.timeout_at first; Invariants.finalized_at next] s)
  = [ [Alerts.ConsoleLog (Alerts.LogSeed true (fst first))];
      [Alerts.ConsoleLog (Alerts.LogFinalized (fst next))] ]
  /\ fst (Runs.trackRun validatorId network validatorName
            [Invariants.timeout_at first; Invariants.timeout_at next] s)
     = [ [Alerts.ConsoleLog (Alerts.LogSeed true (fst first))];
         Alerts.ConsoleLog (Alerts.LogMissed (fst next) 2)
         :: Runs.chat_calls (Alerts.telegram (Instrumentation.targets config))
              (Alerts.discord (Instrumentation.targets config))
              (Alerts.AlertPayload.mk validatorName network (snd next) (fst next)
                 Alerts.missed (Some 2) None) ].
Proof.
  intros Hcfg Hnone Hround.
  rewrite !trackRun_cons. cbv zeta. cbn [Runs.trackRun fst].
  pose proof (check_seed validatorId network validatorName config s
             {| Instrumentation.round := fst first; Instrumentation.block_height := snd first;
                Instrumentation.status := Instrumentation.timeout |} Hcfg Hnone) as Hstep.
  fold (Invariants.timeout_at first) in Hstep. rewrite Hstep.
  unfold Eff.trace_of, Eff.state_of.
  cbn [fst snd Instrumentation.round Instrumentation.status Instrumentation.is_timeout].
  set (seed := {| Instrumentation.lastRound := fst first;
                  Instrumentation.lastStatus := Instrumentation.timeout;
                  Instrumentation.consecutiveMisses := 1;
                  Instrumentation.alertedForMiss := false |}).
  set (s1 := Instrumentation.set_validatorBlockStates _ s).
  assert (Hcfg1 : Instrumentation.cachedConfig s1 = Some config) by exact Hcfg.
  assert (Hseed : Instrumentation.validatorBlockStates s1
                    !! (validatorId +:+ "-" +:+ Alerts.network_string network) = Some seed).
  { subst s1. cbn. apply lookup_insert_eq. }
  split.
  - pose proof (check_finalized validatorId network validatorName config s1 seed
               {| Instrumentation.round := fst next; Instrumentation.block_height := snd next;
                  Instrumentation.status := Instrumentation.finalized |}
               Hcfg1 Hseed Hround eq_refl eq_refl) as Hnext.
    fold (Invariants.finalized_at next) in Hnext. rewrite Hnext.
    reflexivity.
  - pose proof (check_missed validatorId network validatorName config s1 seed
               {| Instrumentation.round := fst next; Instrumentation.block_height := snd next;
                  Instrumentation.status := Instrumentation.timeout |}
               Hcfg1 Hseed Hround eq_refl) as Hnext.
    fold (Invariants.timeout_at next) in Hnext. rewrite Hnext.
    reflexivity.
Qed.

Lemma first_miss_is_silent_witness :
  let config :=
    {| Instrumentation.targets :=
         {| Alerts.telegram := Some {| Alerts.botToken := "T0KEN"; Alerts.chatId := "42" |};
            Alerts.discord := None |};
       Instrumentation.validatorName := None |} in
  let s :=
    {| Instrumentation.validatorBlockStates := ∅;
       Instrumentation.cachedConfig := Some config;
       Instrumentation.rpcHeights := ∅;
       Instrumentation.allOfflineState := Instrumentation.allOfflineState Instrumentation.initial;
       Instrumentation.lastKnownHeight := Instrumentation.lastKnownHeight Instrumentation.initial |} in
  fst (Runs.trackRun "17" Alerts.mainnet "17"
         [Invariants.timeout_at (900, None); Invariants.finalized_at (901, None)] s)
  = [ [Alerts.ConsoleLog (Alerts.LogSeed true 900)];
      [Alerts.ConsoleLog (Alerts.LogFinalized 901)] ]
  /\ fst (Runs.trackRun "17" Alerts.mainnet "17"
            [Invariants.timeout_at (900, None); Invariants.timeout_at (901, None)] s)
     = [ [Alerts.ConsoleLog (Alerts.LogSeed true 900)];
         [Alerts.ConsoleLog (Alerts.LogMissed 901 2);
          Alerts.SendTelegramAlert "T0KEN" "42"
            (Alerts.AlertPayload.mk "17" Alerts.mainnet None 901 Alerts.missed (Some 2) None)] ].
Proof.
  intros config s.
  apply (first_miss_is_silent "17" Alerts.mainnet "17" config s (900, None) (901, None)).
  - reflexivity.
  - reflexivity.
  - cbn. lia.
Defined.

(** X15. The records of the missed-block tracker stay well formed
    through any run of the missed-block check, whatever the uptime
    service answers: a count is never negative, it is positive exactly
    when the last status seen is a timeout, and a miss is marked as
    alerted only then.  With such records, every alert a run sends
    reports a streak of at least one: a missed alert in
    [consecutiveMisses], a recovered alert in [previousStreak].  The
    records are well formed at the start. *)
Theorem tracker_records_well_formed
    (MAINNET_VALIDATORS TESTNET_VALIDATORS : option string)
    (reply : Alerts.Network -> nat -> Instrumentation.HistoryReply)
    (s : Instrumentation.State) :
  map_Forall (fun _ => Invariants.tracker_wf)
    (Instrumentation.validatorBlockStates Instrumentation.initial)
  /\ (map_Forall (fun _ => Invariants.tracker_wf) (Instrumentation.validatorBlockStates s) ->
      let r := Monitor.runMissedBlockCheck MAINNET_VALIDATORS TESTNET_VALIDATORS reply s in
      map_Forall (fun _ => Invariants.tracker_wf)
        (Instrumentation.validatorBlockStates (Eff.state_of r))
      /\ Forall Invariants.counted (Invariants.chat_payloads (Eff.trace_of r))).
Proof.
  split; [apply map_Forall_empty|].
  intros Hwf. cbv zeta.
  pose proof (runMissedBlockCheck_forall MAINNET_VALIDATORS TESTNET_VALIDATORS
                (fun s => map_Forall (fun _ => Invariants.tracker_wf)
                            (Instrumentation.validatorBlockStates s))
                (fun _ => Invariants.counted)) as H.
  cbv zeta in H.
  destruct (H ltac:(intros config network validatorId reply0 s0 _ _ Hs0; split;
                    [apply check_tracker_wf; exact Hs0
                    |apply (proj2 (check_payloads validatorId network
                                     (Monitor.displayName config validatorId) reply0 s0));
                     exact Hs0]) reply s Hwf) as (Hstate & _ & Htrace).
  split; [exact Hstate|].
  destruct (Instrumentation.cachedConfig s) as [config|] eqn:Hcfg.
  - apply (Htrace config). reflexivity.
  - rewrite runMissedBlockCheck_eq, Hcfg. constructor.
Qed.

Lemma tracker_records_well_formed_witness :
  let config :=
    {| Instrumentation.targets :=
         {| Alerts.telegram := Some {| Alerts.botToken := "T0KEN"; Alerts.chatId := "42" |};
            Alerts.discord := None |};
       Instrumentation.validatorName := None |} in
  let s :=
    {| Instrumentation.validatorBlockStates :=
         {[ "17-mainnet" :=
              {| Instrumentation.lastRound := 900;
                 Instrumentation.lastStatus := Instrumentation.timeout;
                 Instrumentation.consecutiveMisses := 2;
                 Instrumentation.alertedForMiss := true |} ]};
       Instrumentation.cachedConfig := Some config;
       Instrumentation.rpcHeights := ∅;
       Instrumentation.allOfflineState := Instrumentation.allOfflineState Instrumentation.initial;
       Instrumentation.lastKnownHeight := Instrumentation.lastKnownHeight Instrumentation.initial |} in
  let reply := fun (_ : Alerts.Network) (_ : nat) =>
    Invariants.finalized_at (901, Some 5000) in
  let r := Monitor.runMissedBlockCheck (Some "17, 23") None reply s in
  map_Forall (fun _ => Invariants.tracker_wf)
    (Instrumentation.validatorBlockStates (Eff.state_of r))
  /\ Forall Invariants.counted (Invariants.chat_payloads (Eff.trace_of r)).
Proof.
  intros config s reply.
  apply (proj2 (tracker_records_well_formed (Some "17, 23") None reply s)).
  apply map_Forall_singleton. unfold Invariants.tracker_wf.
  cbn [Instrumentation.consecutiveMisses Instrumentation.lastStatus
       Instrumentation.alertedForMiss].
  split; [lia|]. split; [split; [lia | reflexivity] | reflexivity].
Defined.

(** X16. The name an alert of the missed-block check carries.  When
    the cached configuration holds a validator name, every alert of a
    run carries that one name, whichever validator of whichever
    network missed or recovered; without a name, every alert carries
    the id of a validator configured for the network of the alert. *)
Theorem alert_names
    (MAINNET_VALIDATORS TESTNET_VALIDATORS : option string)
    (reply : Alerts.Network -> nat -> Instrumentation.HistoryReply)
    (s : Instrumentation.State) (config : Instrumentation.AlertConfig) :
  Instrumentation.cachedConfig s = Some config ->
  let payloads :=
    Invariants.chat_payloads
      (Eff.trace_of
         (Monitor.runMissedBlockCheck MAINNET_VALIDATORS TESTNET_VALIDATORS reply s)) in
  (forall n,
      Instrumentation.validatorName config = Some n ->
      Js.truthy_str n = true ->
      Forall (fun p => Alerts.AlertPayload.validator p = n) payloads)
  /\ (Instrumentation.validatorName config = None ->
      Forall (fun p =>
                Alerts.AlertPayload.validator p
                ∈ Monitor.envList
                    (match Alerts.AlertPayload.network p with
                     | Alerts.mainnet => MAINNET_VALIDATORS
                     | Alerts.testnet => TESTNET_VALIDATORS
                     end))
             payloads).
Proof.
  intros Hcfg payloads.
  pose proof (runMissedBlockCheck_forall MAINNET_VALIDATORS TESTNET_VALIDATORS
                (fun _ => True)
                (fun config p =>
                   exists validatorId,
                     validatorId ∈ Monitor.envList
                                     (match Alerts.AlertPayload.network p with
                                      | Alerts.mainnet => MAINNET_VALIDATORS
                                      | Alerts.testnet => TESTNET_VALIDATORS
                                      end)
                     /\ Alerts.AlertPayload.validator p
                        = Monitor.displayName config validatorId)) as H.
  cbv zeta in H.
  assert (Hall : Forall (fun p =>
                   exists validatorId,
                     validatorId ∈ Monitor.envList
                                     (match Alerts.AlertPayload.network p with
                                      | Alerts.mainnet => MAINNET_VALIDATORS
                                      | Alerts.testnet => TESTNET_VALIDATORS
                                      end)
                     /\ Alerts.AlertPayload.validator p
                        = Monitor.displayName config validatorId) payloads).
  { assert (Hstep : forall config0 network validatorId reply0 s0,
      validatorId ∈ Monitor.envList
                      (match network with
                       | Alerts.mainnet => MAINNET_VALIDATORS
                       | Alerts.testnet => TESTNET_VALIDATORS
                       end) ->
      Instrumentation.cachedConfig s0 = Some config0 ->
      True ->
      True
      /\ Forall (fun p =>
                   exists validatorId,
                     validatorId ∈ Monitor.envList
                                     (match Alerts.AlertPayload.network p with
                                      | Alerts.mainnet => MAINNET_VALIDATORS
                                      | Alerts.testnet => TESTNET_VALIDATORS
                                      end)
                     /\ Alerts.AlertPayload.validator p
                        = Monitor.displayName config0 validatorId)
           (Invariants.chat_payloads
              (Eff.trace_of
                 (Instrumentation.checkValidatorMissedBlocks validatorId network
                    (Monitor.displayName config0 validatorId) reply0 s0)))).
    { intros config0 network validatorId reply0 s0 Hin _ _. split; [exact I|].
      eapply Forall_impl;
        [exact (proj1 (check_payloads validatorId network
                         (Monitor.displayName config0 validatorId) reply0 s0))|].
      intros p [Hname Hnet]. cbn beta. exists validatorId. rewrite Hnet.
      split; assumption. }
    destruct (H Hstep reply s I) as (_ & _ & Htrace). exact (Htrace config Hcfg). }
  split.
  - intros n Hn Htruthy. eapply Forall_impl; [exact Hall|].
    intros p (validatorId & _ & Hp). cbn beta. rewrite Hp.
    unfold Monitor.displayName. rewrite Hn, Htruthy.
    reflexivity.
  - intros Hnone. eapply Forall_impl; [exact Hall|].
    intros p (validatorId & Hin & Hp). cbn beta. rewrite Hp.
    unfold Monitor.displayName. rewrite Hnone. exact Hin.
Qed.

Lemma alert_names_witness :
  let config :=
    {| Instrumentation.targets :=
         {| Alerts.telegram := Some {| Alerts.botToken := "T0KEN"; Alerts.chatId := "42" |};
            Alerts.discord := None |};
       Instrumentation.validatorName := Some "Huginn" |} in
  let seen :=
    {| Instrumentation.lastRound := 900;
       Instrumentation.lastStatus := Instrumentation.finalized;
       Instrumentation.consecutiveMisses := 0;
       Instrumentation.alertedForMiss := false |} in
  let s :=
    {| Instrumentation.validatorBlockStates := {[ "17-mainnet" := seen; "23-mainnet" := seen ]};
       Instrumentation.cachedConfig := Some config;
       Instrumentation.rpcHeights := ∅;
       Instrumentation.allOfflineState := Instrumentation.allOfflineState Instrumentation.initial;
       Instrumentation.lastKnownHeight := Instrumentation.lastKnownHeight Instrumentation.initial |} in
  let reply := fun (_ : Alerts.Network) (_ : nat) => Invariants.timeout_at (901, None) in
  Forall (fun p => Alerts.AlertPayload.validator p = "Huginn")
    (Invariants.chat_payloads
       (Eff.trace_of (Monitor.runMissedBlockCheck (Some "17, 23") None reply s))).
Proof.
  intros config seen s reply.
  apply (proj1 (alert_names (Some "17, 23") None reply s config eq_refl) "Huginn");
    reflexivity.
Defined.

(** ** The two monitors side by side *)

Section Independence.
Import Alerts Instrumentation Runs Invariants.

Variable rpcs : Network -> list string.
Variable firstValidatorId : Network -> string.

Local Abbreviation tick := (runRpcHealthCheck rpcs firstValidatorId).

Lemma countHealthy_cons url rest i probe s :
  countHealthy (url :: rest) i probe s
  = let '(healthy, heights) :=
      isRpcHealthy url (checkRpcHealth (probe i)) (rpcHeights s) in
    let '(n, s1, t) := countHealthy rest (S i) probe (set_rpcHeights heights s) in
    (if healthy then n + 1 else n, s1, t).
Proof.
  cbn [countHealthy]. unfold Eff.bind at 1. unfold isRpcHealthyM.
  unfold Eff.bind at 1. unfold Eff.get at 1.
  destruct (isRpcHealthy url _ (rpcHeights s)) as [healthy heights].
  unfold Eff.bind at 1. unfold Eff.modify at 1. unfold Eff.ret at 1.
  unfold Eff.bind at 1.
  destruct (countHealthy_frame rest probe (S i) (set_rpcHeights heights s))
    as (n & heights' & ->).
  reflexivity.
Qed.

(** The health check does not look at the records of the tracker: with
    other records it does the same and leaves them in place. *)
Lemma countHealthy_records f urls probe : forall i s,
  countHealthy urls i probe (set_validatorBlockStates f s)
  = on_state (set_validatorBlockStates f) (countHealthy urls i probe s).
Proof.
  induction urls as [|url rest IH]; intros i s; [reflexivity|].
  rewrite !countHealthy_cons.
  change (rpcHeights (set_validatorBlockStates f s)) with (rpcHeights s).
  destruct (isRpcHealthy url _ (rpcHeights s)) as [healthy heights].
  change (set_rpcHeights heights (set_validatorBlockStates f s))
    with (set_validatorBlockStates f (set_rpcHeights heights s)).
  rewrite IH.
  destruct (countHealthy rest (S i) probe (set_rpcHeights heights s)) as [[n s1] t1].
  reflexivity.
Qed.

Lemma checkAllOffline_records f config net healthy now reply s :
  checkAllOffline rpcs firstValidatorId config net healthy now reply
    (set_validatorBlockStates f s)
  = on_state (set_validatorBlockStates f)
      (checkAllOffline rpcs firstValidatorId config net healthy now reply s).
Proof.
  rewrite !checkAllOffline_eq. cbv zeta.
  change (allOfflineState (set_validatorBlockStates f s)) with (allOfflineState s).
  destruct ((healthy =? 0) && _)%bool; [|destruct (0 <? healthy); reflexivity].
  destruct (_ && _)%bool.
  - rewrite !checkChainProgress_eq.
    destruct (isOffline (at_network (allOfflineState s) net)), reply as [|h];
      try reflexivity;
      destruct (Js.truthy_str (firstValidatorId net) && negb (h =? 0))%bool; reflexivity.
  - destruct (isOffline (at_network (allOfflineState s) net)); reflexivity.
Qed.

Lemma checkNetwork_records f config tk net s :
  checkNetwork rpcs firstValidatorId config tk net (set_validatorBlockStates f s)
  = on_state (set_validatorBlockStates f)
      (checkNetwork rpcs firstValidatorId config tk net s).
Proof.
  unfold checkNetwork, Eff.bind. rewrite countHealthy_records.
  destruct (countHealthy (rpcs net) 0 (probe tk net) s) as [[n s1] t1].
  unfold on_state at 1. unfold Eff.value_of, Eff.state_of, Eff.trace_of. cbn [fst snd].
  rewrite checkAllOffline_records.
  destruct (checkAllOffline _ _ _ _ _ _ _ s1) as [[[] s2] t2]. reflexivity.
Qed.

Lemma tick_records f tk s :
  tick tk (set_validatorBlockStates f s)
  = on_state (set_validatorBlockStates f) (tick tk s).
Proof.
  unfold runRpcHealthCheck. unfold Eff.bind at 1 3. unfold Eff.get at 1 2.
  change (cachedConfig (set_validatorBlockStates f s)) with (cachedConfig s).
  destruct (cachedConfig s) as [config|]; [|reflexivity].
  unfold Eff.bind. rewrite checkNetwork_records.
  destruct (checkNetwork _ _ _ _ mainnet s) as [[[] s1] t1].
  unfold on_state at 1. unfold Eff.value_of, Eff.state_of, Eff.trace_of. cbn [fst snd].
  rewrite checkNetwork_records.
  destruct (checkNetwork _ _ _ _ testnet s1) as [[[] s2] t2]. reflexivity.
Qed.

Lemma tick_keeps_records tk s :
  validatorBlockStates (Eff.state_of (tick tk s)) = validatorBlockStates s
  /\ cachedConfig (Eff.state_of (tick tk s)) = cachedConfig s.
Proof.
  destruct (cachedConfig s) as [config|] eqn:Hcfg.
  - destruct (tick_cases rpcs firstValidatorId config mainnet tk s Hcfg) as (-> & -> & _).
    split; reflexivity.
  - rewrite tick_unconfigured by exact Hcfg. split; [reflexivity | exact Hcfg].
Qed.

(** The missed-block check looks at the configuration and at its own
    records only: in a state with the same ones it does the same, and
    it leaves the rest of that state in place. *)
Lemma check_local validatorId network validatorName reply s s' :
  cachedConfig s' = cachedConfig s ->
  validatorBlockStates s' = validatorBlockStates s ->
  let r := checkValidatorMissedBlocks validatorId network validatorName reply s in
  checkValidatorMissedBlocks validatorId network validatorName reply s'
  = (tt, set_validatorBlockStates (fun _ => validatorBlockStates (Eff.state_of r)) s',
     Eff.trace_of r).
Proof.
  intros Hcfg Hvbs. cbv zeta. rewrite !checkValidatorMissedBlocks_eq. cbv zeta.
  rewrite Hcfg, Hvbs.
  assert (Hsame : set_validatorBlockStates (fun _ => validatorBlockStates s) s' = s').
  { rewrite <- Hvbs. apply set_validatorBlockStates_same. }
  assert (Hset : forall k st,
    set_validatorBlockStates (insert k st) s'
    = set_validatorBlockStates
        (fun _ => validatorBlockStates (set_validatorBlockStates (insert k st) s)) s').
  { intros k st. unfold set_validatorBlockStates. cbn. rewrite Hvbs. reflexivity. }
  destruct (cachedConfig s) as [config|], reply as [| |latest];
    unfold Eff.state_of, Eff.trace_of; cbn [fst snd]; rewrite ?Hsame; try reflexivity.
  destruct (validatorBlockStates s !! _) as [prev|].
  - destruct (round latest =? lastRound prev); cbn [fst snd]; rewrite ?Hsame;
      [reflexivity|].
    destruct (is_timeout (status latest)); cbn [fst snd]; rewrite <- Hset; reflexivity.
  - cbn [fst snd]. rewrite <- Hset. reflexivity.
Qed.

Lemma checkEach_local config network validators : forall i reply s s',
  cachedConfig s' = cachedConfig s ->
  validatorBlockStates s' = validatorBlockStates s ->
  let r := Monitor.checkEach config network validators i reply s in
  Monitor.checkEach config network validators i reply s'
  = (tt, set_validatorBlockStates (fun _ => validatorBlockStates (Eff.state_of r)) s',
     Eff.trace_of r).
Proof.
  induction validators as [|validatorId rest IH]; intros i reply s s' Hcfg Hvbs; cbv zeta.
  - cbn. rewrite <- Hvbs, set_validatorBlockStates_same. reflexivity.
  - cbn [Monitor.checkEach]. unfold Eff.bind.
    rewrite (check_local validatorId network (Monitor.displayName config validatorId)
               (reply i) s s' Hcfg Hvbs).
    pose proof (check_frame validatorId network (Monitor.displayName config validatorId)
                  (reply i) s) as (Hcfg1 & _).
    destruct (checkValidatorMissedBlocks _ _ _ _ s) as [[[] s1] t1].
    unfold Eff.state_of, Eff.trace_of in Hcfg1 |- *. cbn [fst snd] in Hcfg1 |- *.
    set (s1' := set_validatorBlockStates (fun _ => validatorBlockStates s1) s').
    assert (Hcfg' : cachedConfig s1' = cachedConfig s1).
    { subst s1'. cbn. congruence. }
    rewrite (IH (S i) reply s1 s1' Hcfg' eq_refl).
    destruct (Monitor.checkEach config network rest (S i) reply s1) as [[[] s2] t2].
    reflexivity.
Qed.

Lemma checkEach_keeps_config config network validators : forall i reply s,
  cachedConfig (Eff.state_of (Monitor.checkEach config network validators i reply s))
  = cachedConfig s.
Proof.
  induction validators as [|validatorId rest IH]; intros i reply s; [reflexivity|].
  cbn [Monitor.checkEach]. unfold Eff.bind.
  pose proof (check_frame validatorId network (Monitor.displayName config validatorId)
                (reply i) s) as (Hcfg1 & _).
  destruct (checkValidatorMissedBlocks _ _ _ _ s) as [[[] s1] t1].
  specialize (IH (S i) reply s1).
  destruct (Monitor.checkEach config network rest (S i) reply s1) as [[[] s2] t2].
  unfold Eff.state_of in *. cbn [fst snd] in *. congruence.
Qed.

Lemma runMissedBlockCheck_local MAINNET_VALIDATORS TESTNET_VALIDATORS reply s s' :
  cachedConfig s' = cachedConfig s ->
  validatorBlockStates s' = validatorBlockStates s ->
  let r := Monitor.runMissedBlockCheck MAINNET_VALIDATORS TESTNET_VALIDATORS reply s in
  Monitor.runMissedBlockCheck MAINNET_VALIDATORS TESTNET_VALIDATORS reply s'
  = (tt, set_validatorBlockStates (fun _ => validatorBlockStates (Eff.state_of r)) s',
     Eff.trace_of r).
Proof.
  intros Hcfg Hvbs. cbv zeta. rewrite !runMissedBlockCheck_eq. rewrite Hcfg.
  destruct (cachedConfig s) as [config|] eqn:Hc.
  - rewrite <- Hc in Hcfg.
    rewrite (checkEach_local config mainnet _ 0%nat (reply mainnet) s s' Hcfg Hvbs).
    pose proof (checkEach_keeps_config config mainnet (Monitor.envList MAINNET_VALIDATORS)
                  0%nat (reply mainnet) s) as Hcfg1.
    destruct (Monitor.checkEach config mainnet _ 0%nat (reply mainnet) s) as [[[] s1] t1].
    unfold Eff.state_of, Eff.trace_of in Hcfg1 |- *. cbn [fst snd] in Hcfg1 |- *.
    set (s1' := set_validatorBlockStates (fun _ => validatorBlockStates s1) s').
    assert (Hcfg' : cachedConfig s1' = cachedConfig s1).
    { subst s1'. cbn. congruence. }
    rewrite (checkEach_local config testnet _ 0%nat (reply testnet) s1 s1' Hcfg' eq_refl).
    destruct (Monitor.checkEach config testnet _ 0%nat (reply testnet) s1) as [[[] s2] t2].
    reflexivity.
  - unfold Eff.state_of, Eff.trace_of. cbn [fst snd].
    rewrite <- Hvbs, set_validatorBlockStates_same. reflexivity.
Qed.
End Independence.

(** X17. The two periodic monitors of the instrumentation do not
    interfere.  A run of the RPC health check and a run of the
    missed-block check, in either order, leave the module state the
    same, and each makes the calls it would make alone: the health
    check never reads or writes the tracker's records, and the
    missed-block check reads and writes nothing else. *)
Theorem monitors_commute
    (rpcs : Alerts.Network -> list string) (firstValidatorId : Alerts.Network -> string)
    (MAINNET_VALIDATORS TESTNET_VALIDATORS : option string)
    (tk : Instrumentation.Tick)
    (reply : Alerts.Network -> nat -> Instrumentation.HistoryReply)
    (s : Instrumentation.State) :
  let health := Instrumentation.runRpcHealthCheck rpcs firstValidatorId tk in
  let missed := Monitor.runMissedBlockCheck MAINNET_VALIDATORS TESTNET_VALIDATORS reply in
  Eff.state_of (missed (Eff.state_of (health s)))
  = Eff.state_of (health (Eff.state_of (missed s)))
  /\ Eff.trace_of (health (Eff.state_of (missed s))) = Eff.trace_of (health s)
  /\ Eff.trace_of (missed (Eff.state_of (health s))) = Eff.trace_of (missed s).
Proof.
  cbv zeta.
  destruct (tick_keeps_records rpcs firstValidatorId tk s) as [Hvbs Hcfg].
  rewrite (runMissedBlockCheck_local MAINNET_VALIDATORS TESTNET_VALIDATORS reply s
             (Eff.state_of (Instrumentation.runRpcHealthCheck rpcs firstValidatorId tk s))
             Hcfg Hvbs).
  pose proof (runMissedBlockCheck_local MAINNET_VALIDATORS TESTNET_VALIDATORS reply s s
                eq_refl eq_refl) as Hself.
  cbv zeta in Hself.
  set (m := Instrumentation.validatorBlockStates
              (Eff.state_of
                 (Monitor.runMissedBlockCheck MAINNET_VALIDATORS TESTNET_VALIDATORS reply s)))
    in *.
  assert (Hstate : Eff.state_of
                     (Monitor.runMissedBlockCheck MAINNET_VALIDATORS TESTNET_VALIDATORS reply s)
                   = Instrumentation.set_validatorBlockStates (fun _ => m) s).
  { rewrite Hself at 1. reflexivity. }
  rewrite Hstate, tick_records.
  split; [reflexivity|]. split; reflexivity.
Qed.

(** ** Sessions of the dashboard *)

Section SessionFacts.
Import Js Dashboard Sessions.

Variable rpcConfigs : list RpcConfig.
Variable network : Alerts.Network.

Local Abbreviation fetch := (fetchCurrentHeight rpcConfigs network).
Local Abbreviation recover := (checkPrimaryRecovery rpcConfigs network).
Local Abbreviation heightOf probe i := (Api.fetchBlockHeight (probe i)).

Lemma valid_lookup (i : nat) :
  (i < length rpcConfigs)%nat -> exists c, rpcConfigs !! i = Some c.
Proof. intros H. apply lookup_lt_is_Some_2 in H. destruct H as [c H]. eauto. Qed.

Lemma fallback_index (active i : nat) :
  (active < length rpcConfigs)%nat ->
  (1 <= i < length rpcConfigs)%nat ->
  ((active + i) mod length rpcConfigs < length rpcConfigs)%nat
  /\ ((active + i) mod length rpcConfigs)%nat <> active.
Proof.
  intros Ha Hi. set (n := length rpcConfigs) in *.
  assert (Hn : n <> 0%nat) by lia.
  pose proof (Nat.mod_upper_bound (active + i) n Hn) as Hlt.
  split; [exact Hlt|].
  pose proof (Nat.div_mod_eq (active + i) n) as Hdiv.
  intros Heq. rewrite Heq in Hdiv.
  assert (Hq : ((active + i) / n < 2)%nat).
  { apply Nat.Div0.div_lt_upper_bound. lia. }
  destruct ((active + i) / n)%nat as [|[|q]]; lia.
Qed.

(** What a poll that throws nothing can do: leave the index alone and
    send nothing, or fail over. *)
Lemma poll_outcome probe s :
  (activeIndex s < length rpcConfigs)%nat ->
  let height := heightOf probe (activeIndex s) in
  let r := fetch probe s in
  (exists h, Eff.value_of r = Some h)
  /\ ((Eff.trace_of r = [] /\ activeIndex (Eff.state_of r) = activeIndex s
       /\ alertSent (Eff.state_of r)
          = (if (strict_eq height (Num 0) || strict_eq height (lastHeight s))%bool
             then alertSent s
             else if (activeIndex s =? 0)%nat then false else alertSent s))
      \/ (exists i,
            (1 <= i < length rpcConfigs)%nat
            /\ (strict_eq height (Num 0) || strict_eq height (lastHeight s))%bool = true
            /\ FAILOVER_THRESHOLD <= issueCount s + 1
            /\ (forall j, (1 <= j < i)%nat ->
                  isValidFallback height
                    (heightOf probe ((activeIndex s + j) mod length rpcConfigs)%nat) = false)
            /\ let next := ((activeIndex s + i) mod length rpcConfigs)%nat in
               isValidFallback height (heightOf probe next) = true
               /\ Eff.value_of r = Some (heightOf probe next)
               /\ Eff.state_of r
                  = {| activeIndex := next; lastHeight := heightOf probe next;
                       issueCount := 0; alertSent := true |}
               /\ Eff.trace_of r
                  = (if alertSent s then []
                     else [SendRpcAlert Route.rpc_failover network
                             (name_at rpcConfigs (activeIndex s)) (name_at rpcConfigs next)
                             (Some (if strict_eq height (Num 0) then reason_offline
                                    else reason_stale height))])
                    ++ [UpdateRpcDisplayState network (activeIndex s) next false])).
Proof.
  intros Hvalid height r. subst r.
  destruct (valid_lookup _ Hvalid) as [c Hc].
  rewrite (fetchCurrentHeight_eq rpcConfigs network probe s c Hc). cbv zeta. fold height.
  destruct (strict_eq height (Num 0) || strict_eq height (lastHeight s))%bool eqn:Hissue.
  - destruct (issueCount s + 1 <? FAILOVER_THRESHOLD) eqn:Hth.
    + split; [eexists; reflexivity|]. left. repeat split; reflexivity.
    + apply Z.ltb_ge in Hth.
      pose proof (findFallback_seq rpcConfigs (activeIndex s) height probe
                    (length rpcConfigs - 1) 1) as Hfind.
      destruct (findFallback rpcConfigs (activeIndex s) height probe
                  (seq 1 (length rpcConfigs - 1))) as [[next fh]|].
      * destruct Hfind as (i & Hi & -> & -> & Hok & Hfirst).
        split; [eexists; reflexivity|]. right. exists i.
        split; [lia|]. split; [reflexivity|]. split; [exact Hth|].
        split; [exact Hfirst|]. cbv zeta.
        split; [exact Hok|]. repeat split; reflexivity.
      * split; [eexists; reflexivity|]. left. repeat split; reflexivity.
  - split; [eexists; reflexivity|]. left. repeat split; reflexivity.
Qed.

Lemma checkPrimaryRecovery_eq probe s :
  let primaryHeight := heightOf probe 0%nat in
  recover probe s
  = if (negb (activeIndex s =? 0)%nat && (0 <? length rpcConfigs)%nat
        && (gt primaryHeight (Num 0) && gt primaryHeight (lastHeight s)))%bool then
      match rpcConfigs !! activeIndex s with
      | Some from =>
          (Some tt,
           {| activeIndex := 0; lastHeight := primaryHeight;
              issueCount := 0; alertSent := false |},
           [SendRpcAlert Route.rpc_recovered network (name from)
              (name_at rpcConfigs 0%nat) None;
            UpdateRpcDisplayState network (activeIndex s) 0%nat true])
      | None => (None, s, [])
      end
    else (Some tt, s, []).
Proof.
  cbv zeta. unfold checkPrimaryRecovery. unfold Eff.bind at 1. unfold Eff.get at 1.
  destruct (negb (activeIndex s =? 0)%nat && (0 <? length rpcConfigs)%nat)%bool;
    cbn [andb]; [|reflexivity].
  destruct (gt (heightOf probe 0%nat) (Num 0) && gt (heightOf probe 0%nat) (lastHeight s))%bool;
    [|reflexivity].
  destruct (rpcConfigs !! activeIndex s); reflexivity.
Qed.

(** What a recovery check can do: nothing at all, or return to the
    primary endpoint. *)
Lemma recovery_outcome probe s :
  (activeIndex s < length rpcConfigs)%nat ->
  let primaryHeight := heightOf probe 0%nat in
  let r := recover probe s in
  Eff.value_of r = Some tt
  /\ ((Eff.trace_of r = [] /\ Eff.state_of r = s)
      \/ (activeIndex s <> 0%nat
          /\ gt primaryHeight (Num 0) = true
          /\ gt primaryHeight (lastHeight s) = true
          /\ Eff.state_of r
             = {| activeIndex := 0; lastHeight := primaryHeight;
                  issueCount := 0; alertSent := false |}
          /\ Eff.trace_of r
             = [SendRpcAlert Route.rpc_recovered network
                  (name_at rpcConfigs (activeIndex s)) (name_at rpcConfigs 0%nat) None;
                UpdateRpcDisplayState network (activeIndex s) 0%nat true])).
Proof.
  intros Hvalid primaryHeight r. subst r.
  destruct (valid_lookup _ Hvalid) as [c Hc].
  rewrite checkPrimaryRecovery_eq. cbv zeta. fold primaryHeight. rewrite Hc.
  destruct (activeIndex s =? 0)%nat eqn:Hzero; cbn [negb andb];
    [split; [reflexivity|]; left; split; reflexivity|].
  destruct (0 <? length rpcConfigs)%nat; cbn [andb];
    [|split; [reflexivity|]; left; split; reflexivity].
  destruct (gt primaryHeight (Num 0)) eqn:Hpos; cbn [andb];
    [|split; [reflexivity|]; left; split; reflexivity].
  destruct (gt primaryHeight (lastHeight s)) eqn:Hahead;
    [|split; [reflexivity|]; left; split; reflexivity].
  split; [reflexivity|]. right.
  apply Nat.eqb_neq in Hzero.
  split; [exact Hzero|]. split; [reflexivity|]. split; [reflexivity|].
  unfold name_at. rewrite Hc.
  split; reflexivity.
Qed.

(** An action from a valid index. *)
Lemma act_valid a s :
  (activeIndex s < length rpcConfigs)%nat ->
  exists s' t,
    act rpcConfigs network a s = Some (s', t)
    /\ (activeIndex s' < length rpcConfigs)%nat
    /\ ((alerts t = [] /\ activeIndex s' = activeIndex s
         /\ forall Other (d : Display.DashboardState Other), showAll t d = d)
        \/ (exists old isRecovery,
              forall Other (d : Display.DashboardState Other),
                showAll t d
                = Display.updateRpcDisplayState network old (activeIndex s') isRecovery d)).
Proof.
  intros Hvalid. destruct a as [probe|probe]; unfold act.
  - pose proof (poll_outcome probe s Hvalid) as H. cbv zeta in H.
    destruct (fetch probe s) as [[r s'] t].
    unfold Eff.value_of, Eff.state_of, Eff.trace_of in H. cbn [fst snd] in H.
    destruct H as [[h ->] H]. exists s', t. split; [reflexivity|].
    destruct H as [(-> & Hidx & _) | (i & Hi & _ & _ & _ & H)].
    + split; [lia|]. left. split; [reflexivity|]. split; [exact Hidx|]. reflexivity.
    + cbv zeta in H. destruct H as (_ & _ & -> & ->).
      cbn [activeIndex].
      split; [apply fallback_index; assumption|].
      right. exists (activeIndex s), false. intros Other d.
      destruct (alertSent s); reflexivity.
  - pose proof (recovery_outcome probe s Hvalid) as H. cbv zeta in H.
    destruct (recover probe s) as [[r s'] t].
    unfold Eff.value_of, Eff.state_of, Eff.trace_of in H. cbn [fst snd] in H.
    destruct H as [-> H]. exists s', t. split; [reflexivity|].
    destruct H as [(-> & ->) | (_ & _ & _ & -> & ->)].
    + split; [exact Hvalid|]. left. split; [reflexivity|]. split; reflexivity.
    + cbn [activeIndex]. split; [lia|].
      right. exists (activeIndex s), true. intros Other d. reflexivity.
Qed.
Lemma updateRpcs_marks failedIndex newActiveIndex isRecovery oldRpcs :
  marks newActiveIndex (Display.updateRpcs failedIndex newActiveIndex isRecovery oldRpcs).
Proof.
  intros j r Hr. unfold Display.updateRpcs in Hr. rewrite list_lookup_imap in Hr.
  destruct (oldRpcs !! j); cbn in Hr; [|discriminate]. injection Hr as <-. reflexivity.
Qed.

Lemma updateRpcs_endpoints failedIndex newActiveIndex isRecovery oldRpcs :
  map Display.url (Display.updateRpcs failedIndex newActiveIndex isRecovery oldRpcs)
  = map Display.url oldRpcs
  /\ map Display.name (Display.updateRpcs failedIndex newActiveIndex isRecovery oldRpcs)
     = map Display.name oldRpcs.
Proof.
  unfold Display.updateRpcs.
  split; apply list_eq; intros j; rewrite !list_lookup_fmap, list_lookup_imap;
    destruct (oldRpcs !! j); reflexivity.
Qed.

Lemma update_display {Other : Type} old next isRecovery (d : Display.DashboardState Other) :
  let d' := Display.updateRpcDisplayState network old next isRecovery d in
  marks next (rpcs_of network d') /\ same_endpoints network d d'.
Proof.
  cbv zeta.
  destruct (updateRpcs_endpoints old next isRecovery (rpcs_of network d)) as [Hurl Hname].
  split.
  - destruct network; cbn; apply updateRpcs_marks.
  - split; [|split; [|split]].
    + intros other Hne. destruct network, other; try reflexivity; congruence.
    + destruct network; exact Hurl.
    + destruct network; exact Hname.
    + destruct network; reflexivity.
Qed.

Lemma same_endpoints_refl {Other : Type} (d : Display.DashboardState Other) :
  same_endpoints network d d.
Proof. repeat split; reflexivity. Qed.

Lemma same_endpoints_trans {Other : Type} (d1 d2 d3 : Display.DashboardState Other) :
  same_endpoints network d1 d2 -> same_endpoints network d2 d3 ->
  same_endpoints network d1 d3.
Proof.
  intros (Ho1 & Hu1 & Hn1 & Hx1) (Ho2 & Hu2 & Hn2 & Hx2).
  split; [|split; [|split]]; try congruence.
  intros other Hne. rewrite Ho2, Ho1 by exact Hne. reflexivity.
Qed.

Lemma showAll_app {Other : Type} t1 t2 (d : Display.DashboardState Other) :
  showAll (t1 ++ t2) d = showAll t2 (showAll t1 d).
Proof. unfold showAll. apply fold_left_app. Qed.

(** A session from a valid index: it never throws, the index stays
    valid, and a display that marks the index in use keeps doing so. *)
Lemma session_sync actions : forall s,
  (activeIndex s < length rpcConfigs)%nat ->
  exists s' t,
    session rpcConfigs network actions s = Some (s', t)
    /\ (activeIndex s' < length rpcConfigs)%nat
    /\ forall Other (d : Display.DashboardState Other),
         same_endpoints network d (showAll t d)
         /\ (marks (activeIndex s) (rpcs_of network d) ->
             marks (activeIndex s') (rpcs_of network (showAll t d))).
Proof.
  induction actions as [|a rest IH]; intros s Hvalid.
  - exists s, []. split; [reflexivity|]. split; [exact Hvalid|].
    intros Other d. split; [apply same_endpoints_refl | intros H; exact H].
  - destruct (act_valid a s Hvalid) as (s1 & t1 & Hact & Hvalid1 & Hshow).
    destruct (IH s1 Hvalid1) as (s2 & t2 & Hrest & Hvalid2 & Hsync).
    exists s2, (t1 ++ t2). cbn [session]. rewrite Hact, Hrest.
    split; [reflexivity|]. split; [exact Hvalid2|].
    intros Other d. rewrite showAll_app.
    destruct (Hsync Other (showAll t1 d)) as [Hsame2 Hmarks2].
    destruct Hshow as [(_ & Hidx & Hd) | (old & isRecovery & Hd)]; rewrite Hd in *.
    + split; [exact Hsame2|]. intros H. apply Hmarks2. rewrite Hidx. exact H.
    + destruct (update_display old (activeIndex s1) isRecovery d) as [Hm Hs].
      split; [eapply same_endpoints_trans; eassumption|].
      intros _. apply Hmarks2. exact Hm.
Qed.

Lemma valid_fallback_ahead height fh :
  isValidFallback height fh = true ->
  gt fh (Num 0) = true /\ (strict_eq height (Num 0) = false -> gt fh height = true).
Proof.
  unfold isValidFallback. destruct (strict_eq height (Num 0)).
  - intros H. split; [exact H | discriminate].
  - intros H. apply andb_true_iff in H. destruct H as [H1 H2]. split; [exact H1|].
    intros _. exact H2.
Qed.

Lemma findFallback_all_down active probe offsets :
  (forall i, heightOf probe i = Num 0) ->
  findFallback rpcConfigs active (Num 0) probe offsets = None.
Proof.
  intros Hdown. induction offsets as [|i rest IH]; [reflexivity|].
  cbn [findFallback]. rewrite Hdown. exact IH.
Qed.

(** Polls that find every endpoint down. *)
Lemma outage_run probes : forall s,
  (activeIndex s < length rpcConfigs)%nat ->
  truthy_num (lastHeight s) = true ->
  Forall (fun probe => forall i, heightOf probe i = Num 0) probes ->
  pollRun rpcConfigs network probes s
  = (map (fun _ => Some (lastHeight s)) probes,
     set_issueCount (issueCount s + Z.of_nat (length probes)) s)
  /\ session rpcConfigs network (map Poll probes) s
     = Some (set_issueCount (issueCount s + Z.of_nat (length probes)) s, []).
Proof.
  induction probes as [|probe rest IH]; intros s Hvalid Hlast Hdown.
  - cbn. rewrite Z.add_0_r. destruct s; split; reflexivity.
  - apply Forall_cons in Hdown. destruct Hdown as [Hprobe Hrest].
    destruct (valid_lookup _ Hvalid) as [c Hc].
    assert (Hstep : fetch probe s
                    = (Some (lastHeight s), set_issueCount (issueCount s + 1) s, [])).
    { rewrite (fetchCurrentHeight_eq rpcConfigs network probe s c Hc). cbv zeta.
      rewrite Hprobe. cbn [strict_eq Z.eqb orb].
      rewrite findFallback_all_down by exact Hprobe.
      unfold or_num. rewrite Hlast.
      destruct (issueCount s + 1 <? FAILOVER_THRESHOLD); reflexivity. }
    destruct (IH (set_issueCount (issueCount s + 1) s) Hvalid Hlast Hrest) as [Hpoll Hsession].
    assert (Hcount : set_issueCount
                       (issueCount (set_issueCount (issueCount s + 1) s)
                        + Z.of_nat (length rest))
                       (set_issueCount (issueCount s + 1) s)
                     = set_issueCount (issueCount s + Z.of_nat (length (probe :: rest))) s).
    { unfold set_issueCount. cbn [activeIndex lastHeight issueCount alertSent length].
      f_equal. lia. }
    split.
    + cbn [pollRun map]. rewrite Hstep, Hpoll, Hcount. reflexivity.
    + cbn [map session act]. rewrite Hstep, Hsession, Hcount. reflexivity.
Qed.
End SessionFacts.

(** X18. From an active index that names an endpoint, no sequence of
    polls and recovery checks of the dashboard ever throws, whatever
    the endpoints answer, and the active index keeps naming an
    endpoint. *)
Theorem session_never_throws
    (rpcConfigs : list Dashboard.RpcConfig) (network : Alerts.Network)
    (actions : list Dashboard.Action) (s : Dashboard.NetState) :
  (Dashboard.activeIndex s < length rpcConfigs)%nat ->
  exists s' t,
    Sessions.session rpcConfigs network actions s = Some (s', t)
    /\ (Dashboard.activeIndex s' < length rpcConfigs)%nat.
Proof.
  intros Hvalid.
  destruct (session_sync rpcConfigs network actions s Hvalid) as (s' & t & Hrun & Hvalid' & _).
  exists s', t. split; assumption.
Qed.

Lemma session_never_throws_witness :
  let rpcConfigs :=
    [ {| Dashboard.url := "https://monad-rpc.huginn.tech"; Dashboard.name := "Huginn" |};
      {| Dashboard.url := "https://rpc.monad.xyz"; Dashboard.name := "Monad" |} ] in
  let s :=
    {| Dashboard.activeIndex := 1; Dashboard.lastHeight := Js.Num 100;
       Dashboard.issueCount := 29; Dashboard.alertSent := true |} in
  let probe := fun i : nat =>
    match i with
    | 0%nat => Http.Response true (Http.BodyData (Js.VStr "0x65"))
    | _ => Http.Failed
    end in
  exists s' t,
    Sessions.session rpcConfigs Alerts.mainnet
      [Dashboard.Poll probe; Dashboard.Recovery probe; Dashboard.Poll (fun _ => Http.Failed)] s
    = Some (s', t)
    /\ (Dashboard.activeIndex s' < length rpcConfigs)%nat.
Proof.
  intros rpcConfigs s probe.
  apply (session_never_throws rpcConfigs Alerts.mainnet). cbn. lia.
Defined.

(** X19. The display follows the active endpoint.  If the list the
    dashboard shows for a network marks as primary exactly the endpoint
    in use, then after any sequence of polls and recovery checks, with
    the display updated by the events they emit, it marks exactly the
    endpoint then in use; the urls and names shown, the list of the
    other network and the rest of the dashboard state are as before. *)
Theorem display_follows_active_index
    (Other : Type) (rpcConfigs : list Dashboard.RpcConfig) (network : Alerts.Network)
    (actions : list Dashboard.Action) (s s' : Dashboard.NetState)
    (t : list Dashboard.Event) (d : Display.DashboardState Other) :
  (Dashboard.activeIndex s < length rpcConfigs)%nat ->
  Sessions.session rpcConfigs network actions s = Some (s', t) ->
  Sessions.marks (Dashboard.activeIndex s) (Sessions.rpcs_of network d) ->
  Sessions.marks (Dashboard.activeIndex s') (Sessions.rpcs_of network (Sessions.showAll t d))
  /\ Sessions.same_endpoints network d (Sessions.showAll t d).
Proof.
  intros Hvalid Hrun Hmarks.
  destruct (session_sync rpcConfigs network actions s Hvalid) as (s1 & t1 & Hrun1 & _ & Hsync).
  rewrite Hrun in Hrun1. injection Hrun1 as <- <-.
  destruct (Hsync Other d) as [Hsame Hkeep].
  split; [apply Hkeep; exact Hmarks | exact Hsame].
Qed.

Lemma display_follows_active_index_witness :
  let rpcConfigs :=
    [ {| Dashboard.url := "https://monad-rpc.huginn.tech"; Dashboard.name := "Huginn" |};
      {| Dashboard.url := "https://rpc.monad.xyz"; Dashboard.name := "Monad" |} ] in
  let s :=
    {| Dashboard.activeIndex := 0; Dashboard.lastHeight := Js.Num 100;
       Dashboard.issueCount := 29; Dashboard.alertSent := false |} in
  let s' :=
    {| Dashboard.activeIndex := 1; Dashboard.lastHeight := Js.Num 101;
       Dashboard.issueCount := 0; Dashboard.alertSent := true |} in
  let probe := fun i : nat =>
    match i with
    | 1%nat => Http.Response true (Http.BodyData (Js.VStr "0x65"))
    | _ => Http.Failed
    end in
  let t :=
    [Dashboard.SendRpcAlert Route.rpc_failover Alerts.mainnet "Huginn" "Monad"
       (Some Dashboard.reason_offline);
     Dashboard.UpdateRpcDisplayState Alerts.mainnet 0 1 false] in
  let d :=
    {| Display.mainnetRpcs :=
         [ {| Display.url := "https://monad-rpc.huginn.tech"; Display.name := "Huginn";
              Display.isOnline := true; Display.isPrimary := true |};
           {| Display.url := "https://rpc.monad.xyz"; Display.name := "Monad";
              Display.isOnline := true; Display.isPrimary := false |} ];
       Display.testnetRpcs := [];
       Display.others := tt |} in
  Sessions.marks 1 (Sessions.rpcs_of Alerts.mainnet (Sessions.showAll t d))
  /\ Sessions.same_endpoints Alerts.mainnet d (Sessions.showAll t d).
Proof.
  intros rpcConfigs s s' probe t d.
  apply (display_follows_active_index unit rpcConfigs Alerts.mainnet
           [Dashboard.Poll probe] s s' t d).
  - cbn. lia.
  - reflexivity.
  - intros j r Hr. destruct j as [|[|j]]; cbn in Hr; try discriminate;
      injection Hr as <-; reflexivity.
Defined.

(** X20. A total outage never moves the dashboard off its endpoint.
    While every endpoint of a network reports no height, any number of
    polls, also beyond the failover threshold, keep the active index,
    send no alert and update nothing on the display; each poll returns
    the last height seen, and only the count of failed polls grows. *)
Theorem total_outage_keeps_endpoint
    (rpcConfigs : list Dashboard.RpcConfig) (network : Alerts.Network)
    (probes : list (nat -> Http.outcome)) (s : Dashboard.NetState) :
  (Dashboard.activeIndex s < length rpcConfigs)%nat ->
  Js.truthy_num (Dashboard.lastHeight s) = true ->
  Forall (fun probe => forall i, Api.fetchBlockHeight (probe i) = Js.Num 0) probes ->
  Dashboard.pollRun rpcConfigs network probes s
  = (map (fun _ => Some (Dashboard.lastHeight s)) probes,
     Dashboard.set_issueCount (Dashboard.issueCount s + Z.of_nat (length probes)) s)
  /\ Sessions.session rpcConfigs network (map Dashboard.Poll probes) s
     = Some (Dashboard.set_issueCount (Dashboard.issueCount s + Z.of_nat (length probes)) s, []).
Proof.
  apply outage_run.
Qed.

Lemma total_outage_keeps_endpoint_witness :
  let rpcConfigs :=
    [ {| Dashboard.url := "https://monad-rpc.huginn.tech"; Dashboard.name := "Huginn" |};
      {| Dashboard.url := "https://rpc.monad.xyz"; Dashboard.name := "Monad" |} ] in
  let s :=
    {| Dashboard.activeIndex := 0; Dashboard.lastHeight := Js.Num 1000;
       Dashboard.issueCount := 0; Dashboard.alertSent := false |} in
  let down := fun _ : nat => Http.Failed in
  Dashboard.pollRun rpcConfigs Alerts.mainnet (repeat down 40) s
  = (map (fun _ => Some (Js.Num 1000)) (repeat down 40),
     Dashboard.set_issueCount (0 + Z.of_nat (length (repeat down 40))) s)
  /\ Sessions.session rpcConfigs Alerts.mainnet (map Dashboard.Poll (repeat down 40)) s
     = Some (Dashboard.set_issueCount (0 + Z.of_nat (length (repeat down 40))) s, []).
Proof.
  intros rpcConfigs s down.
  apply (total_outage_keeps_endpoint rpcConfigs Alerts.mainnet (repeat down 40) s).
  - cbn. lia.
  - reflexivity.
  - apply List.Forall_forall. intros probe Hin i. apply repeat_spec in Hin. subst probe.
    reflexivity.
Defined.

(** X21. What a failover of the dashboard is.  A poll from a valid
    index emits events exactly when it changes the active index; when
    it does, the failure count had reached the threshold, the new
    endpoint is another one and reports a positive height, above the
    height the old endpoint is stuck at when that one still answers;
    the dashboard now serves that height, the failure count starts
    again at 0, and one failover alert is sent unless one was sent
    already since the primary endpoint was last healthy. *)
Theorem failover_lands_on_live_endpoint
    (rpcConfigs : list Dashboard.RpcConfig) (network : Alerts.Network)
    (probe : nat -> Http.outcome) (s : Dashboard.NetState) :
  (Dashboard.activeIndex s < length rpcConfigs)%nat ->
  let r := Dashboard.fetchCurrentHeight rpcConfigs network probe s in
  let s' := Eff.state_of r in
  let height := Api.fetchBlockHeight (probe (Dashboard.activeIndex s)) in
  let next := Dashboard.activeIndex s' in
  (Eff.trace_of r = [] <-> next = Dashboard.activeIndex s)
  /\ (next <> Dashboard.activeIndex s ->
      (next < length rpcConfigs)%nat
      /\ Dashboard.FAILOVER_THRESHOLD <= Dashboard.issueCount s + 1
      /\ Eff.value_of r = Some (Api.fetchBlockHeight (probe next))
      /\ Dashboard.lastHeight s' = Api.fetchBlockHeight (probe next)
      /\ Js.gt (Api.fetchBlockHeight (probe next)) (Js.Num 0) = true
      /\ (Js.strict_eq height (Js.Num 0) = false ->
          Js.gt (Api.fetchBlockHeight (probe next)) height = true)
      /\ Dashboard.issueCount s' = 0
      /\ Dashboard.alertSent s' = true
      /\ Sessions.alerts (Eff.trace_of r)
         = if Dashboard.alertSent s then []
           else [Dashboard.SendRpcAlert Route.rpc_failover network
                   (Dashboard.name_at rpcConfigs (Dashboard.activeIndex s))
                   (Dashboard.name_at rpcConfigs next)
                   (Some (if Js.strict_eq height (Js.Num 0) then Dashboard.reason_offline
                          else Dashboard.reason_stale height))]).
Proof.
  intros Hvalid r s' height next. subst r s' next.
  pose proof (poll_outcome rpcConfigs network probe s Hvalid) as H. cbv zeta in H.
  fold height in H.
  destruct H as [_ [(Htrace & Hidx & _) | (i & Hi & _ & Hth & _ & H)]].
  - split; [split; intros _; assumption|]. intros Hne. contradiction.
  - cbv zeta in H. destruct H as (Hok & Hvalue & Hstate & Htrace).
    destruct (fallback_index rpcConfigs (Dashboard.activeIndex s) i Hvalid Hi) as [Hlt Hne].
    destruct (valid_fallback_ahead _ _ Hok) as [Hpos Hahead].
    rewrite Hstate, Htrace, Hvalue. cbn [Dashboard.activeIndex Dashboard.lastHeight
      Dashboard.issueCount Dashboard.alertSent].
    split.
    + split; [|intros Heq; contradiction].
      destruct (Dashboard.alertSent s); discriminate.
    + intros _. repeat (split; [first [assumption | reflexivity]|]).
      destruct (Dashboard.alertSent s); reflexivity.
Qed.

Lemma failover_lands_on_live_endpoint_witness :
  let rpcConfigs :=
    [ {| Dashboard.url := "https://monad-rpc.huginn.tech"; Dashboard.name := "Huginn" |};
      {| Dashboard.url := "https://rpc.monad.xyz"; Dashboard.name := "Monad" |} ] in
  let s :=
    {| Dashboard.activeIndex := 0; Dashboard.lastHeight := Js.Num 100;
       Dashboard.issueCount := 29; Dashboard.alertSent := false |} in
  let probe := fun i : nat =>
    match i with
    | 0%nat => Http.Response true (Http.BodyData (Js.VStr "0x64"))
    | _ => Http.Response true (Http.BodyData (Js.VStr "0x65"))
    end in
  let r := Dashboard.fetchCurrentHeight rpcConfigs Alerts.mainnet probe s in
  Eff.value_of r = Some (Js.Num 101)
  /\ Dashboard.activeIndex (Eff.state_of r) = 1%nat
  /\ Sessions.alerts (Eff.trace_of r)
     = [Dashboard.SendRpcAlert Route.rpc_failover Alerts.mainnet "Huginn" "Monad"
          (Some (Dashboard.reason_stale (Js.Num 100)))].
Proof.
  intros rpcConfigs s probe r.
  assert (Hvalid : (Dashboard.activeIndex s < length rpcConfigs)%nat) by (cbn; lia).
  destruct (failover_lands_on_live_endpoint rpcConfigs Alerts.mainnet probe s Hvalid)
    as [_ H].
  assert (Hne : Dashboard.activeIndex
                  (Eff.state_of (Dashboard.fetchCurrentHeight rpcConfigs Alerts.mainnet probe s))
                <> Dashboard.activeIndex s) by (vm_compute; discriminate).
  destruct (H Hne) as (_ & _ & Hvalue & _ & _ & _ & _ & _ & Halerts).
  split; [exact Hvalue|]. split; [reflexivity | exact Halerts].
Defined.

(** ** What the dashboard displays *)

Section DisplayFacts.
Import Display.

(** The search for the last finalized cell among the first [n]. *)
Lemma scanDown_spec cells : forall n,
  (scanDown cells n = -1
   /\ forall j b, (j < n)%nat -> cells !! j = Some b -> is_finalized b = false)
  \/ (exists i b,
        scanDown cells n = Z.of_nat i
        /\ (i < n)%nat
        /\ cells !! i = Some b
        /\ is_finalized b = true
        /\ forall j b', (i < j < n)%nat -> cells !! j = Some b' -> is_finalized b' = false).
Proof.
  induction n as [|n IH].
  - left. split; [reflexivity|]. intros j b Hj. lia.
  - cbn [scanDown].
    destruct (cells !! n) as [b|] eqn:Hn; [destruct (is_finalized b) eqn:Hb|].
    + right. exists n, b. split; [reflexivity|]. split; [lia|].
      split; [exact Hn|]. split; [exact Hb|]. intros j b' Hj. lia.
    + destruct IH as [[Hscan Hall] | (i & bi & Hscan & Hi & Hcell & Hfin & Hlater)].
      * left. split; [exact Hscan|]. intros j b' Hj Hcell.
        destruct (decide (j = n)) as [->|Hne]; [congruence|].
        apply (Hall j b'); [lia | exact Hcell].
      * right. exists i, bi. split; [exact Hscan|]. split; [lia|].
        split; [exact Hcell|]. split; [exact Hfin|]. intros j b' Hj Hcellj.
        destruct (decide (j = n)) as [->|Hne]; [congruence|].
        apply (Hlater j b'); [lia | exact Hcellj].
    + destruct IH as [[Hscan Hall] | (i & bi & Hscan & Hi & Hcell & Hfin & Hlater)].
      * left. split; [exact Hscan|]. intros j b' Hj Hcell.
        destruct (decide (j = n)) as [->|Hne]; [congruence|].
        apply (Hall j b'); [lia | exact Hcell].
      * right. exists i, bi. split; [exact Hscan|]. split; [lia|].
        split; [exact Hcell|]. split; [exact Hfin|]. intros j b' Hj Hcellj.
        destruct (decide (j = n)) as [->|Hne]; [congruence|].
        apply (Hlater j b'); [lia | exact Hcellj].
Qed.

Lemma display_length blocks :
  length (display blocks) = Nat.max DISPLAY_BLOCKS (length blocks).
Proof. unfold display. rewrite length_app, length_replicate. lia. Qed.

Lemma display_split blocks :
  let pad := (length (display blocks) - length blocks)%nat in
  take pad (display blocks)
  = replicate pad {| height := None; round := 0; status := no_data |}
  /\ drop pad (display blocks) = blocks.
Proof.
  cbv zeta. rewrite display_length. unfold display.
  replace (Nat.max DISPLAY_BLOCKS (length blocks) - length blocks)%nat
    with (DISPLAY_BLOCKS - length blocks)%nat by lia.
  split.
  - rewrite take_app_length' by (symmetry; apply length_replicate). reflexivity.
  - rewrite drop_app_length' by (symmetry; apply length_replicate). reflexivity.
Qed.

Lemma toBlocks_newest newest rest :
  exists older,
    toBlocks (Some (newest :: rest))
    = older ++ [{| height := h_height newest; round := h_round newest;
                   status := if Instrumentation.is_timeout (h_status newest)
                             then missed else finalized |}].
Proof.
  unfold toBlocks. rewrite reverse_cons, map_app. eexists. reflexivity.
Qed.
End DisplayFacts.

(** X22. What the uptime bar shows for a non-empty list of blocks: at
    least 50 cells, the blocks in order at the right end and only
    no-data cells before them; and, when asked to mark the last
    finalized block, the cell it marks is finalized and no cell to its
    right is, while no cell is marked (index -1) exactly when no block
    is finalized. *)
Theorem uptime_bar_cells (blocks : list Display.Block) (showLastFinalized : bool) :
  blocks <> [] ->
  exists cells idx,
    Display.UptimeBar blocks showLastFinalized = Some (cells, idx)
    /\ length cells = Nat.max Display.DISPLAY_BLOCKS (length blocks)
    /\ drop (length cells - length blocks) cells = blocks
    /\ Forall (fun b => Display.status b = Display.no_data)
         (take (length cells - length blocks) cells)
    /\ if showLastFinalized then
         (idx = -1 /\ Forall (fun b => Display.is_finalized b = false) blocks)
         \/ (exists i b,
               idx = Z.of_nat i
               /\ (length cells - length blocks <= i)%nat
               /\ cells !! i = Some b
               /\ Display.is_finalized b = true
               /\ forall j b', (i < j)%nat -> cells !! j = Some b' ->
                    Display.is_finalized b' = false)
       else idx = -1.
Proof.
  intros Hne. unfold Display.UptimeBar.
  destruct (length blocks =? 0)%nat eqn:Hlen.
  { apply Nat.eqb_eq in Hlen. destruct blocks; [congruence | discriminate]. }
  eexists _, _. split; [reflexivity|].
  destruct (display_split blocks) as [Htake Hdrop].
  split; [apply display_length|]. split; [exact Hdrop|].
  assert (Hpad : Forall (fun b => Display.status b = Display.no_data)
                   (take (length (Display.display blocks) - length blocks)
                      (Display.display blocks))).
  { rewrite Htake. apply Forall_replicate. reflexivity. }
  split; [exact Hpad|].
  destruct showLastFinalized; [|reflexivity].
  unfold Display.lastFinalizedIndex.
  set (cells := Display.display blocks) in *.
  destruct (scanDown_spec cells (length cells))
    as [[Hscan Hall] | (i & b & Hscan & Hi & Hcell & Hfin & Hlater)].
  - left. split; [exact Hscan|].
    rewrite <- Hdrop. apply Forall_forall. intros b Hin.
    apply list_elem_of_lookup in Hin. destruct Hin as [j Hj].
    rewrite lookup_drop in Hj.
    apply (Hall (length cells - length blocks + j)%nat b); [|exact Hj].
    apply lookup_lt_Some in Hj. exact Hj.
  - right. exists i, b. split; [exact Hscan|].
    split.
    + destruct (Nat.le_gt_cases (length cells - length blocks) i) as [Hle|Hlt];
        [exact Hle|exfalso].
      assert (Hin : take (length cells - length blocks) cells !! i = Some b).
      { rewrite lookup_take_lt by exact Hlt. exact Hcell. }
      rewrite Forall_forall in Hpad.
      specialize (Hpad b ltac:(eapply list_elem_of_lookup_2; exact Hin)).
      unfold Display.is_finalized in Hfin. rewrite Hpad in Hfin. discriminate.
    + split; [exact Hcell|]. split; [exact Hfin|].
      intros j b' Hj Hcellj. apply (Hlater j b'); [|exact Hcellj].
      apply lookup_lt_Some in Hcellj. lia.
Qed.

Lemma uptime_bar_cells_witness :
  exists cells idx,
    Display.UptimeBar
      [ {| Display.height := Some 10; Display.round := 1; Display.status := Display.finalized |};
        {| Display.height := None; Display.round := 2; Display.status := Display.missed |} ]
      true
    = Some (cells, idx)
    /\ idx = 48.
Proof.
  destruct (uptime_bar_cells
              [ {| Display.height := Some 10; Display.round := 1;
                   Display.status := Display.finalized |};
                {| Display.height := None; Display.round := 2;
                   Display.status := Display.missed |} ] true ltac:(discriminate))
    as (cells & idx & Hbar & _).
  exists cells, idx. split; [exact Hbar|].
  vm_compute in Hbar. injection Hbar as _ <-. reflexivity.
Defined.

(** X23. The status light of a validator shows the newest entry of its
    history only.  With the blocks [fetchData] makes of a history
    (newest entry first in the history, last among the blocks), the
    light is gray without history or with height 0; otherwise green
    when the newest entry is finalized, and yellow, or red from 50
    missed blocks on, when it is a timeout, whatever the older entries
    are. *)
Theorem status_light
    (histData : option (list Display.HistoryEvent)) (height : Js.num) (missed : Z) :
  Display.indicator (Display.toBlocks histData) height missed
  = match histData with
    | Some (newest :: _) =>
        if Js.strict_eq height (Js.Num 0) then Display.gray
        else if Instrumentation.is_timeout (Display.h_status newest) then
          if 50 <=? missed then Display.red else Display.yellow
        else Display.green
    | _ => Display.gray
    end.
Proof.
  destruct histData as [[|newest rest]|]; [reflexivity| |reflexivity].
  destruct (toBlocks_newest newest rest) as [older ->].
  unfold Display.indicator. rewrite last_snoc, length_app. cbn [length].
  replace (length older + 1 =? 0)%nat with false by (symmetry; apply Nat.eqb_neq; lia).
  cbn [orb]. destruct (Js.strict_eq height (Js.Num 0)); [reflexivity|].
  unfold Display.is_finalized. cbn [Display.status].
  destruct (Instrumentation.is_timeout (Display.h_status newest)); cbn [negb andb];
    [|reflexivity].
  destruct (50 <=? missed); reflexivity.
Qed.

(** ** The lists read from the environment *)

Section ConfigFacts.
Import Config.



















End ConfigFacts.




Section RpcListFacts.
Import Config.

Local Abbreviation keep := (fun rpc : RpcConfig => Js.truthy_str (url rpc) = true).



End RpcListFacts.



(** ** Heights as the endpoints give them *)

Section HexFacts.
Import Js Invariants.





End HexFacts.


(** ** PagerDuty incidents and the readers of a height *)

(** X28. The incident a PagerDuty event addresses.  [sendPagerDutyAlert]
    posts nothing without a routing key; otherwise the event is a
    trigger for a missed alert and a resolve for a recovered one, and
    the deduplication keys of two events are equal exactly when the
    events are for the same validator and the same network: a resolve
    closes the incident of its own validator and network, and no
    other. *)
Theorem pagerduty_incident_key
    (routingKey routingKey' : string) (payload payload' : Alerts.AlertPayload.t) :
  (Alerts.sendPagerDutyAlert_event routingKey payload = None <-> routingKey = "")
  /\ forall action key action' key',
       Alerts.sendPagerDutyAlert_event routingKey payload = Some (action, key) ->
       Alerts.sendPagerDutyAlert_event routingKey' payload' = Some (action', key') ->
       action = Alerts.event_action payload
       /\ (key = key'
           <-> Alerts.AlertPayload.validator payload = Alerts.AlertPayload.validator payload'
               /\ Alerts.AlertPayload.network payload = Alerts.AlertPayload.network payload').
Proof.
  unfold Alerts.sendPagerDutyAlert_event. split.
  - destruct routingKey; cbn; split; congruence.
  - intros action key action' key' H H'.
    destruct (negb (Js.truthy_str routingKey)); [discriminate|].
    destruct (negb (Js.truthy_str routingKey')); [discriminate|].
    injection H as <- <-. injection H' as <- <-.
    split; [reflexivity|]. split.
    + intros Hkey. cbn in Hkey. injection Hkey as Hkey.
      apply network_suffix_inj. exact Hkey.
    + intros [-> ->]. reflexivity.
Qed.

Lemma pagerduty_incident_key_witness :
  let opened :=
    Alerts.AlertPayload.mk "validator-1" Alerts.mainnet (Some 14) 5 Alerts.missed (Some 5) None in
  let closed :=
    Alerts.AlertPayload.mk "validator-1" Alerts.mainnet (Some 16) 7 Alerts.recovered None
      (Some 6) in
  Alerts.trigger = Alerts.event_action opened
  /\ ("monadoring-validator-1-mainnet" = "monadoring-validator-1-mainnet"
      <-> Alerts.AlertPayload.validator opened = Alerts.AlertPayload.validator closed
          /\ Alerts.AlertPayload.network opened = Alerts.AlertPayload.network closed).
Proof.
  intros opened closed.
  apply (proj2 (pagerduty_incident_key "R0UT1NGKEY" "R0UT1NGKEY" opened closed)
           Alerts.trigger "monadoring-validator-1-mainnet"
           Alerts.resolve "monadoring-validator-1-mainnet"); reflexivity.
Defined.

(** X29. The dashboard and the server read the same height from every
    answer that the dashboard shows as online.  For every answer of an
    endpoint, if [checkRpcHealth] of api.ts accepts it, then
    [fetchBlockHeight] of api.ts and [checkRpcHealth] of the
    instrumentation return the same number; the two can differ only on
    an error status or on a result that counts as false. *)
Theorem readers_agree_when_online (answer : Http.outcome) :
  (Api.checkRpcHealth answer = true ->
   Api.fetchBlockHeight answer = Instrumentation.checkRpcHealth answer)
  /\ (Api.fetchBlockHeight answer <> Instrumentation.checkRpcHealth answer ->
      exists ok result,
        answer = Http.Response ok (Http.BodyData result)
        /\ if ok then Js.truthy result = false /\ Instrumentation.checkRpcHealth answer = Js.Num 0
           else Api.fetchBlockHeight answer = Js.Num 0).
Proof.
  destruct answer as [|ok [| |result]]; cbn.
  - split; [discriminate | congruence].
  - split; [destruct ok; discriminate | destruct ok; cbn; congruence].
  - split; [destruct ok; discriminate | destruct ok; cbn; congruence].
  - destruct ok; cbn.
    + destruct (Js.truthy result) eqn:Ht.
      * split; [reflexivity | congruence].
      * split; [discriminate|]. intros _. exists true, result.
        split; [reflexivity|]. split; [exact Ht | reflexivity].
    + split; [discriminate|]. intros _. exists false, result.
      split; reflexivity.
Qed.

Lemma readers_agree_when_online_witness :
  let answer := Http.Response true (Http.BodyData (Js.VStr "0x3e9")) in
  Api.fetchBlockHeight answer = Instrumentation.checkRpcHealth answer.
Proof.
  intros answer. apply (proj1 (readers_agree_when_online answer)). reflexivity.
Defined.
